(** * backfill_history.py: a shallow embedding and its verified properties

    The program generates a fixed number of commits per calendar day, from
    January 1 of a start year through today, by calling the external [git]
    executable.  This development embeds

    - the binary64 arithmetic that [commits_for_day] performs (division,
      multiplication, [modf], rounding to microseconds),
    - the [datetime] / [timedelta] values it manipulates,
    - the effectful functions [run_git], [init_repo], [make_commit] and
      [main] as state-passing functions over an explicit world,

    and proves the properties of the specification against them.

    The world is a POSIX system with glibc: text is written with its
    newlines as they are and read with universal newlines, and [%Y] writes
    a year without padding.  A file is held as the characters it decodes
    to.  Files that are not UTF-8 and failures of the operating system (a
    directory that cannot be written, no [git] to run) are outside the
    model. *)

From Stdlib Require Import ZArith Lia List Bool Ascii String Reals Lra Psatz.
From stdpp Require Import base strings gmap list pretty sorting.

Local Open Scope Z_scope.

(** ** Binary64 arithmetic *)

(** A finite double is [Fnum * 2 ^ Fexp].  Python floats are IEEE binary64
    with round-to-nearest, ties-to-even; [round_ratio] is that rounding,
    applied to an exact quotient of integers.  Infinities and NaN are not
    represented: an operation whose rounded result leaves the finite range
    yields [None]. *)
Module Binary64.

Record float := Float { Fnum : Z; Fexp : Z }.

Definition prec : Z := 53.
Definition emin : Z := -1074.
Definition emax : Z := 1024.

(** Nearest integer to [num / den] for [0 < den], ties to even. *)
Definition rne_div (num den : Z) : Z :=
  let q := num / den in
  let r := num mod den in
  if 2 * r <? den then q
  else if den <? 2 * r then q + 1
  else if Z.even q then q else q + 1.

(** The exponent of the binade of [p / q] for [0 < p], [0 < q]:
    the [e] with [2^(prec-1) <= p / (q * 2^e) < 2^prec], not below [emin]. *)
Definition ratio_exp (p q : Z) : Z :=
  let l := Z.log2 p - Z.log2 q in
  let e := if q * 2 ^ Z.max 0 l <=? p * 2 ^ Z.max 0 (- l)
           then l - (prec - 1) else l - prec in
  Z.max e emin.

(** [p / q] correctly rounded, for [0 < q]; the sign is that of [p]. *)
Definition round_ratio (p q : Z) : float :=
  if p =? 0 then Float 0 0
  else
    let e := ratio_exp (Z.abs p) q in
    Float (rne_div (p * 2 ^ Z.max 0 (- e)) (q * 2 ^ Z.max 0 e)) e.

Definition is_finite (f : float) : bool :=
  if 0 <=? Fexp f
  then Z.abs (Fnum f) * 2 ^ Fexp f <? 2 ^ emax
  else Z.abs (Fnum f) <? 2 ^ (emax - Fexp f).

Definition checked (f : float) : option float :=
  if is_finite f then Some f else None.

(** [int / int] true division and [float(int)]. *)
Definition div_int (a b : Z) : option float :=
  if b =? 0 then None
  else if 0 <? b then checked (round_ratio a b)
  else checked (round_ratio (- a) (- b)).

Definition of_int (n : Z) : option float := checked (round_ratio n 1).

(** [x * y] and [x / y] on doubles. *)
Definition mul (x y : float) : option float :=
  let e := Fexp x + Fexp y in
  checked (round_ratio (Fnum x * Fnum y * 2 ^ Z.max 0 e) (2 ^ Z.max 0 (- e))).

Definition div (x y : float) : option float :=
  let e := Fexp x - Fexp y in
  let p := Fnum x * 2 ^ Z.max 0 e in
  let q := Fnum y * 2 ^ Z.max 0 (- e) in
  if q =? 0 then None
  else if 0 <? q then checked (round_ratio p q)
  else checked (round_ratio (- p) (- q)).

(** [math.modf]: fractional and integral parts, both with the sign of [x]. *)
Definition modf (x : float) : float * Z :=
  if 0 <=? Fexp x then (Float 0 0, Fnum x * 2 ^ Fexp x)
  else (Float (Z.rem (Fnum x) (2 ^ (- Fexp x))) (Fexp x),
        Z.quot (Fnum x) (2 ^ (- Fexp x))).

(** [round(x)] to an integer, ties to even. *)
Definition round_half_even (x : float) : Z :=
  if 0 <=? Fexp x then Fnum x * 2 ^ Fexp x
  else rne_div (Fnum x) (2 ^ (- Fexp x)).

End Binary64.

(** ** Exceptions *)

(** A Python computation either returns a value or raises. *)
Inductive exn := ValueError | OverflowError | ZeroDivisionError.

Inductive result (A : Type) :=
| Ok (a : A)
| Raise (e : exn).
Arguments Ok {A} a.
Arguments Raise {A} e.

Global Instance result_ret : MRet result := fun A a => Ok a.
Global Instance result_bind : MBind result := fun A B f m =>
  match m with
  | Ok a => f a
  | Raise e => Raise e
  end.

(** A float operation that leaves the finite range where Python raises [e]. *)
Definition or_raise {A} (e : exn) (o : option A) : result A :=
  match o with
  | Some a => Ok a
  | None => Raise e
  end.

(** ** Dates and times *)

(** The proleptic Gregorian calendar of Python's [datetime] module. *)
Module Calendar.

Definition MINYEAR : Z := 1.
Definition MAXYEAR : Z := 9999.
Definition MAXORDINAL : Z := 3652059.

Definition is_leap (year : Z) : bool :=
  (year mod 4 =? 0) && (negb (year mod 100 =? 0) || (year mod 400 =? 0)).

Definition days_before_year (year : Z) : Z :=
  let y := year - 1 in
  y * 365 + y / 4 - y / 100 + y / 400.

Definition DAYS_IN_MONTH : list Z :=
  [-1; 31; 28; 31; 30; 31; 30; 31; 31; 30; 31; 30; 31].

Definition DAYS_BEFORE_MONTH : list Z :=
  [-1; 0; 31; 59; 90; 120; 151; 181; 212; 243; 273; 304; 334].

Definition days_in_month (year month : Z) : Z :=
  if (month =? 2) && is_leap year then 29
  else nth (Z.to_nat month) DAYS_IN_MONTH 0.

Definition days_before_month (year month : Z) : Z :=
  nth (Z.to_nat month) DAYS_BEFORE_MONTH 0
  + (if (2 <? month) && is_leap year then 1 else 0).

Definition ymd2ord (year month day : Z) : Z :=
  days_before_year year + days_before_month year month + day.

Definition DI400Y : Z := Eval cbv in days_before_year 401.
Definition DI100Y : Z := Eval cbv in days_before_year 101.
Definition DI4Y : Z := Eval cbv in days_before_year 5.

Definition ord2ymd (n : Z) : Z * Z * Z :=
  let n := n - 1 in
  let n400 := n / DI400Y in
  let n := n mod DI400Y in
  let year := n400 * 400 + 1 in
  let n100 := n / DI100Y in
  let n := n mod DI100Y in
  let n4 := n / DI4Y in
  let n := n mod DI4Y in
  let n1 := n / 365 in
  let n := n mod 365 in
  let year := year + n100 * 100 + n4 * 4 + n1 in
  if (n1 =? 4) || (n100 =? 4) then (year - 1, 12, 31)
  else
    let leapyear := (n1 =? 3) && (negb (n4 =? 24) || (n100 =? 3)) in
    let month := Z.shiftr (n + 50) 5 in
    let preceding := nth (Z.to_nat month) DAYS_BEFORE_MONTH 0
                     + (if (2 <? month) && leapyear then 1 else 0) in
    if n <? preceding then
      let month := month - 1 in
      let preceding := preceding - (nth (Z.to_nat month) DAYS_IN_MONTH 0
                       + (if (month =? 2) && leapyear then 1 else 0)) in
      (year, month, n - preceding + 1)
    else (year, month, n - preceding + 1).

(** The arguments of the constructor are read as C [int]s. *)
Definition C_INT_MIN : Z := - 2 ^ 31.
Definition C_INT_MAX : Z := 2 ^ 31 - 1.

Definition fits_c_int (n : Z) : bool := (C_INT_MIN <=? n) && (n <=? C_INT_MAX).

(** [date(year, month, day)]: the day's ordinal; [OverflowError] for an
    argument that is no C [int], [ValueError] for one out of range. *)
Definition date (year month day : Z) : result Z :=
  if negb (fits_c_int year && fits_c_int month && fits_c_int day)
  then Raise OverflowError
  else if negb ((MINYEAR <=? year) && (year <=? MAXYEAR)) then Raise ValueError
  else if negb ((1 <=? month) && (month <=? 12)) then Raise ValueError
  else if negb ((1 <=? day) && (day <=? days_in_month year month))
       then Raise ValueError
  else Ok (ymd2ord year month day).

(** [d + timedelta(days=k)] on dates. *)
Definition date_add_days (d k : Z) : result Z :=
  let o := d + k in
  if (0 <? o) && (o <=? MAXORDINAL) then Ok o else Raise OverflowError.

End Calendar.

Definition US_PER_SECOND : Z := 1000000.
Definition US_PER_DAY : Z := 86400 * US_PER_SECOND.

(** A naive [datetime]: the ordinal of its calendar day (January 1 of year 1
    is day 1) and the microsecond within that day.  Year, month, day, hour,
    minute, second and microsecond are read off these two numbers. *)
Record datetime := DateTime { ordinal : Z; usec : Z }.

Global Instance datetime_eq_dec : EqDecision datetime.
Proof. solve_decision. Defined.

Definition time_usec (hour minute second microsecond : Z) : Z :=
  ((hour * 60 + minute) * 60 + second) * US_PER_SECOND + microsecond.

Definition year (t : datetime) : Z := (Calendar.ord2ymd (ordinal t)).1.1.
Definition month (t : datetime) : Z := (Calendar.ord2ymd (ordinal t)).1.2.
Definition day (t : datetime) : Z := (Calendar.ord2ymd (ordinal t)).2.
Definition hour (t : datetime) : Z := usec t / (3600 * US_PER_SECOND).
Definition minute (t : datetime) : Z := usec t / (60 * US_PER_SECOND) mod 60.
Definition second (t : datetime) : Z := usec t / US_PER_SECOND mod 60.
Definition microsecond (t : datetime) : Z := usec t mod US_PER_SECOND.

(** [datetime.combine(d, datetime.min.time())] *)
Definition midnight (d : Z) : datetime := DateTime d 0.

(** [t.replace(hour=h, minute=m, second=s, microsecond=us)] *)
Definition replace_time (t : datetime) (h m s us : Z) : datetime :=
  DateTime (ordinal t) (time_usec h m s us).

(** A [timedelta] is its exact length in microseconds. *)
Definition timedelta := Z.

Definition MAX_DELTA_DAYS : Z := 999999999.

(** [a - b] on datetimes. *)
Definition datetime_sub (a b : datetime) : timedelta :=
  (ordinal a - ordinal b) * US_PER_DAY + (usec a - usec b).

(** [td.total_seconds()]: an integer true division. *)
Definition total_seconds (td : timedelta) : result Binary64.float :=
  or_raise OverflowError (Binary64.div_int td (10 ^ 6)).

(** [timedelta(seconds=x)] for a float [x]: the integral seconds are kept
    exactly, the fraction is scaled by [1e6] in floating point and rounded
    to the nearest microsecond, ties to even. *)
Definition timedelta_of_seconds (x : Binary64.float) : result timedelta :=
  let '(secondsfrac, seconds) := Binary64.modf x in
  usdouble ← or_raise OverflowError
                (Binary64.mul secondsfrac (Binary64.Float (10 ^ 6) 0));
  let microseconds := Binary64.round_half_even usdouble in
  let total := seconds * US_PER_SECOND + microseconds in
  if MAX_DELTA_DAYS <? Z.abs (total / US_PER_DAY) then Raise OverflowError
  else Ok total.

(** [t + td] *)
Definition datetime_add (t : datetime) (td : timedelta) : result datetime :=
  let total := usec t + td in
  let d := ordinal t + total / US_PER_DAY in
  if (0 <? d) && (d <=? Calendar.MAXORDINAL)
  then Ok (DateTime d (total mod US_PER_DAY))
  else Raise OverflowError.

(** [range(n)] *)
Definition range (n : Z) : list Z := Z.of_nat <$> seq 0 (Z.to_nat n).

(** ** The day/timestamp generator *)

(** [start + timedelta(seconds=steps * i)], one element of the list
    comprehension of [commits_for_day]. *)
Definition timestamp_at (steps : Binary64.float) (start : datetime) (i : Z)
  : result datetime :=
  fi ← or_raise OverflowError (Binary64.of_int i);
  x ← or_raise OverflowError (Binary64.mul steps fi);
  td ← timedelta_of_seconds x;
  datetime_add start td.

Definition commits_for_day (base_date : datetime) (count : Z)
  : result (list datetime) :=
  let start := replace_time base_date 8 0 0 0 in
  let end_ := replace_time base_date 23 59 59 999999 in
  span_seconds ← total_seconds (datetime_sub end_ start);
  if count <=? 1 then
    Ok (if count =? 0 then [] else [start])
  else
    divisor ← or_raise OverflowError (Binary64.of_int (count - 1));
    (* the divisor is at least 1: the quotient is finite *)
    steps ← or_raise ZeroDivisionError (Binary64.div span_seconds divisor);
    mapM (timestamp_at steps start) (range count).

(** ** Text formatting *)

Definition nl : string := String (Ascii.ascii_of_nat 10) EmptyString.

Fixpoint zeros (n : nat) : string :=
  match n with
  | O => EmptyString
  | S n => String "0"%char (zeros n)
  end.

(** A non-negative number in decimal, zero-padded on the left ([%02d]). *)
Definition zfill (width : nat) (n : Z) : string :=
  let s := pretty n in
  zeros (width - String.length s) +:+ s.

(** [t.strftime("%Y-%m-%d %H:%M")].  The C library formats the fields:
    [%Y] is the year in decimal as glibc writes it, without padding, so four
    digits from the year 1000 on; other C libraries pad the years below 1000
    with zeros. *)
Definition strftime_minutes (t : datetime) : string :=
  pretty (year t) +:+ "-" +:+ zfill 2 (month t) +:+ "-" +:+ zfill 2 (day t)
  +:+ " " +:+ zfill 2 (hour t) +:+ ":" +:+ zfill 2 (minute t).

(** [t.strftime("%Y-%m-%d %H:%M:%S")] *)
Definition strftime_seconds (t : datetime) : string :=
  strftime_minutes t +:+ ":" +:+ zfill 2 (second t).

(** Reading a file as text translates line ends: ["\r\n"] and a lone
    ["\r"] come out as ["\n"] (universal newlines). *)
Definition CR : ascii := Ascii.ascii_of_nat 13.
Definition LF : ascii := Ascii.ascii_of_nat 10.

Fixpoint universal_newlines (s : string) : string :=
  match s with
  | EmptyString => EmptyString
  | String c rest =>
      if Ascii.eqb c CR then
        match rest with
        | String c' rest' =>
            if Ascii.eqb c' LF then String LF (universal_newlines rest')
            else String LF (universal_newlines rest)
        | EmptyString => String LF EmptyString
        end
      else String c (universal_newlines rest)
  end.

(** No carriage return in a text. *)
Fixpoint no_cr (s : string) : bool :=
  match s with
  | EmptyString => true
  | String c rest => negb (Ascii.eqb c CR) && no_cr rest
  end.

(** [path.read_text(encoding="utf-8")] on a file that holds the characters
    [stored]. *)
Definition read_text (stored : string) : string := universal_newlines stored.

(** [str.isspace] on the ASCII range, and [str.strip()]. *)
Definition isspace (c : ascii) : bool :=
  let n := Ascii.nat_of_ascii c in
  ((9 <=? n) && (n <=? 13) || (28 <=? n) && (n <=? 32))%nat.

Fixpoint lstrip (s : string) : string :=
  match s with
  | String c s' => if isspace c then lstrip s' else s
  | EmptyString => EmptyString
  end.

Definition strip (s : string) : string :=
  String.rev (lstrip (String.rev (lstrip s))).

(** Truth value of a Python string: non-empty. *)
Definition truthy (s : string) : bool :=
  match s with
  | EmptyString => false
  | String _ _ => true
  end.

(** ** The world of one run *)

Record CompletedProcess := {
  returncode : Z;
  stdout : string;
  stderr : string
}.

(** What the program does to its surroundings, in order.  [CallMakeCommit]
    records the arguments of each call of [make_commit]. *)
Inductive event :=
| Git (args : list string) (env : option (gmap string string))
| WriteText (name : string) (content : string)
| PrintOut (line : string)
| PrintErr (line : string)
| CallMakeCommit (commit_time : datetime) (message : string) (index : Z).

Record Args := {
  start_year : Z;
  commits_per_day : Z;
  dry_run : bool;
  seed : Z;
  max_days : option Z;
  directory : string
}.

(** The fixed pool of commit message phrases. *)
Definition messages : list string :=
  [ "Update config"; "Fix typo"; "Refactor module"; "Add tests"; "Docs";
    "Bump version"; "Cleanup"; "Optimize"; "WIP"; "Minor fix" ].

Definition README_TEXT : string :=
  "# Git Commit History" +:+ nl +:+ nl +:+ "Backfilled commit history." +:+ nl.

Section Driver.

(** The pseudo-random generator behind [random.seed] and [random.choice],
    and the external [git] executable, are parameters: [git] answers each
    invocation from its arguments, its environment and the world it runs
    in. *)
Variable rng_state : Type.
Variable rng_seed : Z -> rng_state.
Variable rng_randbelow : rng_state -> Z -> Z * rng_state.

Record World := {
  cwd : string;                   (* the resolved target path *)
  is_dir : bool;                  (* it is an existing directory *)
  git_dir : bool;                 (* it holds a [.git] directory at startup *)
  files : gmap string string;     (* its regular files, by name: the
                                     characters each one holds, line ends
                                     as stored *)
  environ : gmap string string;   (* [os.environ] *)
  now : datetime;                 (* [datetime.now()] *)
  rng : rng_state;                (* state of the [random] module *)
  trace : list event              (* events so far, oldest first *)
}.

Variable git : list string -> option (gmap string string) -> World
               -> CompletedProcess.

Definition log_event (ev : event) (w : World) : World :=
  {| cwd := cwd w; is_dir := is_dir w; git_dir := git_dir w;
     files := files w; environ := environ w; now := now w; rng := rng w;
     trace := trace w ++ [ev] |}.

Definition set_file (name content : string) (w : World) : World :=
  {| cwd := cwd w; is_dir := is_dir w; git_dir := git_dir w;
     files := <[name := content]> (files w); environ := environ w;
     now := now w; rng := rng w; trace := trace w |}.

Definition set_rng (g : rng_state) (w : World) : World :=
  {| cwd := cwd w; is_dir := is_dir w; git_dir := git_dir w;
     files := files w; environ := environ w; now := now w; rng := g;
     trace := trace w |}.

(** Programs: state passing over the world, with exceptions. *)
Definition prog (A : Type) : Type := World -> result A * World.

Global Instance prog_ret : MRet prog := fun A a w => (Ok a, w).
Global Instance prog_bind : MBind prog := fun A B f m w =>
  match m w with
  | (Ok a, w') => f a w'
  | (Raise e, w') => (Raise e, w')
  end.

Definition lift {A} (r : result A) : prog A := fun w => (r, w).
Definition get {A} (f : World -> A) : prog A := fun w => (Ok (f w), w).
Definition emit (ev : event) : prog unit := fun w => (Ok tt, log_event ev w).

Definition print (line : string) : prog unit := emit (PrintOut line).
Definition print_err (line : string) : prog unit := emit (PrintErr line).

(** [(cwd / name).write_text(content)]: the file is replaced by [content];
    a newline is written as it is ([os.linesep] is ["\n"]). *)
Definition write_text (name content : string) : prog unit := fun w =>
  (Ok tt, log_event (WriteText name content) (set_file name content w)).

(** [random.seed(n)] and [random.choice(seq)] *)
Definition random_seed (n : Z) : prog unit := fun w =>
  (Ok tt, set_rng (rng_seed n) w).

Definition random_choice (pool : list string) : prog string := fun w =>
  let kg := rng_randbelow (rng w) (Z.of_nat (length pool)) in
  (Ok (default EmptyString (pool !! Z.to_nat kg.1)), set_rng kg.2 w).

(** [run_git]: the subprocess is run and its result captured.  The
    repository metadata belongs to [git]; the working tree's files are not
    changed by [init], [add], [commit] or [status]. *)
Definition run_git (args : list string) (env : option (gmap string string))
  : prog CompletedProcess := fun w =>
  (Ok (git args env w), log_event (Git args env) w).

Definition is_git_repo : prog bool := get git_dir.

Definition exists_file (name : string) : prog bool :=
  get (fun w => bool_decide (is_Some (files w !! name))).

Definition init_repo : prog unit :=
  run_git ["init"] None;;
  readme ← exists_file "README.md";
  if negb readme then
    write_text "README.md" README_TEXT;;
    run_git ["add"; "README.md"] None;;
    run_git ["commit"; "-m"; "Initial commit"] None;;
    mret tt
  else mret tt.

Definition make_commit (commit_time : datetime) (message : string)
    (data_path : string) (index : Z) : prog bool :=
  emit (CallMakeCommit commit_time message index);;
  let ts := strftime_seconds commit_time in
  let line := ts +:+ " | commit #" +:+ pretty index +:+ nl in
  present ← get (fun w => files w !! data_path);
  let content := match present with
                 | Some stored => read_text stored
                 | None => EmptyString
                 end in
  write_text data_path (content +:+ line);;
  env ← get (fun w => <["GIT_COMMITTER_DATE" := ts]>
                        (<["GIT_AUTHOR_DATE" := ts]> (environ w)));
  run_git ["add"; data_path] None;;
  result ← run_git ["commit"; "-m"; message] (Some env);
  (if negb (returncode result =? 0) then print_err (stderr result)
   else mret tt);;
  mret (returncode result =? 0).

(** A [for] loop over a list, threading the loop-carried variables. *)
Fixpoint for_each {A S : Type} (body : A -> S -> prog S) (l : list A) (s : S)
  : prog S :=
  match l with
  | [] => mret s
  | x :: l' => s' ← body x s; for_each body l' s'
  end.

Definition main (args : Args) : prog Z :=
  dir ← get is_dir;
  if negb dir then
    path ← get cwd;
    print_err ("Error: directory does not exist: " +:+ path);;
    mret 1
  else
    dirty ←
      (if negb (dry_run args) then
         repo ← is_git_repo;
         if negb repo then init_repo;; mret false
         else
           status ← run_git ["status"; "--short"] None;
           mret (truthy (strip (stdout status)))
       else mret false);
    if (dirty : bool) then
      print_err "Error: working tree has uncommitted changes. Commit or stash them first.";;
      mret 1
    else
      let data_path := "history.txt" in
      present ← exists_file data_path;
      (if negb present && negb (dry_run args)
       then write_text data_path EmptyString else mret tt);;
      today ← get (fun w => ordinal (now w));
      start_date ← lift (Calendar.date (start_year args) 1 1);
      let total_days := today - start_date + 1 in
      let total_days := match max_days args with
                        | Some cap => Z.min total_days cap
                        | None => total_days
                        end in
      let total_commits := total_days * commits_per_day args in
      random_seed (seed args);;
      print ("Planned: " +:+ pretty total_days +:+ " days, "
             +:+ pretty total_commits +:+ " commits ("
             +:+ pretty (commits_per_day args) +:+ "/day)");;
      if dry_run args then
        print "Dry run — no git commands will be run.";;
        mret 0
      else
        '(day_count, commit_count) ←
          for_each (fun day_offset '(day_count, commit_count) =>
            base ← lift (Calendar.date_add_days start_date day_offset);
            let base_dt := midnight base in
            times ← lift (commits_for_day base_dt (commits_per_day args));
            commit_count ←
              for_each (fun t commit_count =>
                phrase ← random_choice messages;
                let msg := phrase +:+ " (" +:+ strftime_minutes t +:+ ")" in
                make_commit t msg data_path (commit_count + 1);;
                mret (commit_count + 1))
                times commit_count;
            let day_count := day_count + 1 in
            (if day_count mod 100 =? 0
             then print ("  " +:+ pretty day_count +:+ " days, "
                         +:+ pretty commit_count +:+ " commits...")
             else mret tt);;
            mret (day_count, commit_count))
            (range total_days) (0, 0);
        print ("Done. " +:+ pretty day_count +:+ " days, "
               +:+ pretty commit_count +:+ " commits.");;
        mret 0.


End Driver.

Arguments cwd {rng_state} w.
Arguments is_dir {rng_state} w.
Arguments git_dir {rng_state} w.
Arguments files {rng_state} w.
Arguments environ {rng_state} w.
Arguments now {rng_state} w.
Arguments rng {rng_state} w.
Arguments trace {rng_state} w.
Arguments log_event {rng_state} ev w.
Arguments set_file {rng_state} name content w.
Arguments set_rng {rng_state} g w.
Arguments lift {rng_state A} r w.
Arguments get {rng_state A} f w.
Arguments emit {rng_state} ev w.
Arguments print {rng_state} line w.
Arguments print_err {rng_state} line w.
Arguments write_text {rng_state} name content w.
Arguments random_seed {rng_state} rng_seed n w.
Arguments random_choice {rng_state} rng_randbelow pool w.
Arguments run_git {rng_state} git args env w.
Arguments is_git_repo {rng_state} w.
Arguments exists_file {rng_state} name w.
Arguments init_repo {rng_state} git w.
Arguments make_commit {rng_state} git commit_time message data_path index w.
Arguments for_each {rng_state A S} body l s w.
Arguments main {rng_state} rng_seed rng_randbelow git args w.

(** ** The plan of a run *)

(** One planned commit: the arguments [make_commit] is to receive. *)
Record planned := Planned {
  p_time : datetime;
  p_message : string;
  p_index : Z
}.

Definition commit_message (phrase : string) (t : datetime) : string :=
  phrase +:+ " (" +:+ strftime_minutes t +:+ ")".

Definition log_line (t : datetime) (index : Z) : string :=
  strftime_seconds t +:+ " | commit #" +:+ pretty index +:+ nl.

Definition git_date_env (env : gmap string string) (ts : string)
  : gmap string string :=
  <["GIT_COMMITTER_DATE" := ts]> (<["GIT_AUTHOR_DATE" := ts]> env).

(** The timestamps of the day [day_offset] days after [start_date]. *)
Definition day_times (start_date cpd day_offset : Z) : result (list datetime) :=
  base ← Calendar.date_add_days start_date day_offset;
  commits_for_day (midnight base) cpd.

(** [total_days] as [main] computes it. *)
Definition total_days (args : Args) (today start_date : Z) : Z :=
  let total_days := today - start_date + 1 in
  match max_days args with
  | Some cap => Z.min total_days cap
  | None => total_days
  end.

Definition planned_line (args : Args) (total_days : Z) : string :=
  "Planned: " +:+ pretty total_days +:+ " days, "
  +:+ pretty (total_days * commits_per_day args) +:+ " commits ("
  +:+ pretty (commits_per_day args) +:+ "/day)".

Section Plan.

Variable rng_state : Type.
Variable rng_seed : Z -> rng_state.
Variable rng_randbelow : rng_state -> Z -> Z * rng_state.

(** The commits of one day, numbered after [count], with the generator
    advanced once per commit. *)
Fixpoint plan_times (g : rng_state) (count : Z) (times : list datetime)
  : list planned * rng_state :=
  match times with
  | [] => ([], g)
  | t :: ts =>
      let kg := rng_randbelow g (Z.of_nat (length messages)) in
      let phrase := default EmptyString (messages !! Z.to_nat kg.1) in
      let rest := plan_times kg.2 (count + 1) ts in
      (Planned t (commit_message phrase t) (count + 1) :: rest.1, rest.2)
  end.

(** The commits of the days at [offsets], up to the first day whose
    timestamps cannot be computed. *)
Fixpoint plan_offsets (start_date cpd : Z) (g : rng_state) (count : Z)
    (offsets : list Z) : list planned * result (rng_state * Z) :=
  match offsets with
  | [] => ([], Ok (g, count))
  | o :: os =>
      match day_times start_date cpd o with
      | Raise e => ([], Raise e)
      | Ok times =>
          let today := plan_times g count times in
          let rest := plan_offsets start_date cpd today.2
                        (count + Z.of_nat (length times)) os in
          (today.1 ++ rest.1, rest.2)
      end
  end.

(** All commits of a run that gets past its pre-flight checks. *)
Definition plan (args : Args) (today : Z) : list planned * result Z :=
  match Calendar.date (start_year args) 1 1 with
  | Raise e => ([], Raise e)
  | Ok start_date =>
      let p := plan_offsets start_date (commits_per_day args)
                 (rng_seed (seed args)) 0
                 (range (total_days args today start_date)) in
      (p.1, match p.2 with
            | Ok (_, count) => Ok count
            | Raise e => Raise e
            end)
  end.

End Plan.

Arguments plan_times {rng_state} rng_randbelow g count times.
Arguments plan_offsets {rng_state} rng_randbelow start_date cpd g count offsets.
Arguments plan {rng_state} rng_seed rng_randbelow args today.

(** ** Reading a trace *)

Definition is_print (ev : event) : bool :=
  match ev with
  | PrintOut _ | PrintErr _ => true
  | _ => false
  end.

(** The events other than console output. *)
Definition effects (evs : list event) : list event :=
  List.filter (fun ev => negb (is_print ev)) evs.

(** The calls of [make_commit]. *)
Fixpoint commit_calls (evs : list event) : list planned :=
  match evs with
  | [] => []
  | CallMakeCommit t m i :: evs => Planned t m i :: commit_calls evs
  | _ :: evs => commit_calls evs
  end.

(** The lines written to the standard output. *)
Fixpoint printed (evs : list event) : list string :=
  match evs with
  | [] => []
  | PrintOut s :: evs => s :: printed evs
  | _ :: evs => printed evs
  end.

(** What carrying out [calls] does, console output aside, when the log
    file holds [content]. *)
Fixpoint commit_events (env : gmap string string) (data_path content : string)
    (calls : list planned) : list event :=
  match calls with
  | [] => []
  | p :: ps =>
      let ts := strftime_seconds (p_time p) in
      let content' := content +:+ log_line (p_time p) (p_index p) in
      [ CallMakeCommit (p_time p) (p_message p) (p_index p);
        WriteText data_path content';
        Git ["add"; data_path] None;
        Git ["commit"; "-m"; p_message p] (Some (git_date_env env ts)) ]
      ++ commit_events env data_path content' ps
  end.

Definition log_lines (calls : list planned) : string :=
  foldr (fun p acc => log_line (p_time p) (p_index p) +:+ acc) EmptyString calls.

(** What the log file holds after [calls], when it held [stored]: the first
    call reads it as text and writes that back with its line, the calls
    after it add theirs. *)
Definition log_after (stored : string) (calls : list planned) : string :=
  match calls with
  | [] => stored
  | _ :: _ => read_text stored +:+ log_lines calls
  end.

(** An invocation of git with the arguments [gargs]. *)
Definition is_git (gargs : list string) (ev : event) : bool :=
  match ev with
  | Git a _ => bool_decide (a = gargs)
  | _ => false
  end.

(** ** Parts of [main] *)

(** [main] is one function in the source; its pre-flight part, its
    backfilling part and its two loop bodies are named here so that they can
    be reasoned about one at a time.  [main_eq] shows that [main] is their
    composition. *)

Definition STATUS : list string := ["status"; "--short"].
Definition DIRTY_MESSAGE : string :=
  "Error: working tree has uncommitted changes. Commit or stash them first.".
Definition DRY_RUN_MESSAGE : string := "Dry run — no git commands will be run.".

Definition has_file {rng_state} (w : World rng_state) (name : string) : bool :=
  bool_decide (is_Some (files w !! name)).

(** What [make_commit] reads from the data file: its text, or nothing when
    there is no file. *)
Definition log_text {rng_state} (w : World rng_state) (name : string) : string :=
  match files w !! name with
  | Some stored => read_text stored
  | None => EmptyString
  end.

(** What [init_repo] does. *)
Definition init_events {rng_state} (w : World rng_state) : list event :=
  Git ["init"] None ::
  (if has_file w "README.md" then []
   else [ WriteText "README.md" README_TEXT;
          Git ["add"; "README.md"] None;
          Git ["commit"; "-m"; "Initial commit"] None ]).

Definition init_files {rng_state} (w : World rng_state) : gmap string string :=
  if has_file w "README.md" then files w
  else <["README.md" := README_TEXT]> (files w).

(** The events of a non-dry run up to the creation of the log file. *)
Definition setup_events {rng_state} (w : World rng_state) : list event :=
  (if git_dir w then [Git STATUS None] else init_events w)
  ++ (if has_file w "history.txt" then [] else [WriteText "history.txt" ""]).

Definition setup_files {rng_state} (w : World rng_state) : gmap string string :=
  if git_dir w then files w else init_files w.

Definition run_result {A} (r : result A) : result Z :=
  match r with
  | Ok _ => Ok 0
  | Raise e => Raise e
  end.

(** The world in which the commit invocation of a [make_commit] call runs,
    and what [git] answers there. *)
Definition commit_world {rng_state} (t : datetime) (msg dp : string) (i : Z)
    (w : World rng_state) : World rng_state :=
  let content := log_text w dp in
  log_event (Git ["add"; dp] None)
    (log_event (WriteText dp (content +:+ log_line t i))
       (set_file dp (content +:+ log_line t i)
          (log_event (CallMakeCommit t msg i) w))).

Definition commit_result {rng_state}
    (git : list string -> option (gmap string string) -> World rng_state
           -> CompletedProcess)
    (t : datetime) (msg dp : string) (i : Z) (w : World rng_state)
  : CompletedProcess :=
  git ["commit"; "-m"; msg]
      (Some (git_date_env (environ w) (strftime_seconds t)))
      (commit_world t msg dp i w).

(** A commit invocation without a timestamp override. *)
Definition is_unstamped_commit (ev : event) : bool :=
  match ev with
  | Git ("commit" :: _) None => true
  | _ => false
  end.

(** Every message is a pool phrase followed by the commit's timestamp. *)
Definition well_formed_message (p : planned) : Prop :=
  exists phrase, phrase ∈ messages /\
    p_message p = phrase +:+ " (" +:+ strftime_minutes (p_time p) +:+ ")".

(** The events of a run: what [main] appends to the trace. *)
Definition run_events {rng_state} (rng_seed : Z -> rng_state)
    (rng_randbelow : rng_state -> Z -> Z * rng_state)
    (git : list string -> option (gmap string string) -> World rng_state
           -> CompletedProcess)
    (args : Args) (w : World rng_state) : list event :=
  drop (length (trace w)) (trace (main rng_seed rng_randbelow git args w).2).

Section DriverParts.

Context {rng_state : Type}.
Variable rng_seed : Z -> rng_state.
Variable rng_randbelow : rng_state -> Z -> Z * rng_state.
Variable git : list string -> option (gmap string string) -> World rng_state
               -> CompletedProcess.

(** Two worlds that differ at most in files, generator and trace. *)
Definition same_setting (w w' : World rng_state) : Prop :=
  cwd w' = cwd w /\ is_dir w' = is_dir w /\ git_dir w' = git_dir w /\
  environ w' = environ w /\ now w' = now w.

(** The body of the inner loop of [main]. *)
Definition commit_body (data_path : string) (t : datetime) (commit_count : Z)
  : prog rng_state Z :=
  phrase ← random_choice rng_randbelow messages;
  let msg := phrase +:+ " (" +:+ strftime_minutes t +:+ ")" in
  make_commit git t msg data_path (commit_count + 1);;
  mret (commit_count + 1).

(** The body of the outer loop of [main]. *)
Definition day_body (data_path : string) (start_date cpd : Z)
    (day_offset : Z) (counts : Z * Z) : prog rng_state (Z * Z) :=
  let '(day_count, commit_count) := counts in
  base ← lift (Calendar.date_add_days start_date day_offset);
  let base_dt := midnight base in
  times ← lift (commits_for_day base_dt cpd);
  commit_count ← for_each (commit_body data_path) times commit_count;
  let day_count := day_count + 1 in
  (if day_count mod 100 =? 0
   then print ("  " +:+ pretty day_count +:+ " days, "
               +:+ pretty commit_count +:+ " commits...")
   else mret tt);;
  mret (day_count, commit_count).

Definition loop_result (dc : Z) (n : nat) (r : result (rng_state * Z))
  : result (Z * Z) :=
  match r with
  | Ok (_, c) => Ok (dc + Z.of_nat n, c)
  | Raise e => Raise e
  end.

(** The status query reports pending changes. *)
Definition dirty (w : World rng_state) : bool :=
  truthy (strip (stdout (git STATUS None w))).

(** The pre-flight part of [main], after the directory check. *)
Definition bootstrap (args : Args) : prog rng_state bool :=
  if negb (dry_run args) then
    repo ← is_git_repo;
    if negb repo then init_repo git;; mret false
    else
      status ← run_git git ["status"; "--short"] None;
      mret (truthy (strip (stdout status)))
  else mret false.

(** The part of [main] after the pre-flight checks. *)
Definition backfill (args : Args) : prog rng_state Z :=
  let data_path := "history.txt" in
  present ← exists_file data_path;
  (if negb present && negb (dry_run args)
   then write_text data_path EmptyString else mret tt);;
  today ← get (fun w => ordinal (now w));
  start_date ← lift (Calendar.date (start_year args) 1 1);
  let total_days := today - start_date + 1 in
  let total_days := match max_days args with
                    | Some cap => Z.min total_days cap
                    | None => total_days
                    end in
  let total_commits := total_days * commits_per_day args in
  random_seed rng_seed (seed args);;
  print ("Planned: " +:+ pretty total_days +:+ " days, "
         +:+ pretty total_commits +:+ " commits ("
         +:+ pretty (commits_per_day args) +:+ "/day)");;
  if dry_run args then
    print "Dry run — no git commands will be run.";;
    mret 0
  else
    '(day_count, commit_count) ←
      for_each (day_body data_path start_date (commits_per_day args))
               (range total_days) (0, 0);
    print ("Done. " +:+ pretty day_count +:+ " days, "
           +:+ pretty commit_count +:+ " commits.");;
    mret 0.

(** Whether a run gets past its pre-flight checks and is not a dry run. *)
Definition backfills (args : Args) (w : World rng_state) : bool :=
  is_dir w && negb (dry_run args) && negb (git_dir w && dirty w).

End DriverParts.

(** ** Real values of doubles *)

Definition bpow (e : Z) : R := powerRZ 2 e.

Definition F2R (f : Binary64.float) : R :=
  (IZR (Binary64.Fnum f) * bpow (Binary64.Fexp f))%R.

(** Half an ulp of 1: the relative error bound of one rounding. *)
Definition ulp_half : R := bpow (- Binary64.prec).

(** [f] is a rounding of the positive real [x] to nearest. *)
Record rounds_to (x : R) (f : Binary64.float) : Prop := {
  rt_num_lo : 0 <= Binary64.Fnum f;
  rt_num_hi : Binary64.Fnum f <= 2 ^ Binary64.prec;
  rt_exp : Binary64.emin <= Binary64.Fexp f;
  rt_err : (x - bpow (Binary64.Fexp f - 1) <= F2R f
            <= x + bpow (Binary64.Fexp f - 1))%R;
  rt_hi : (x < bpow (Binary64.Fexp f + Binary64.prec))%R;
  rt_lo : Binary64.emin < Binary64.Fexp f ->
          (bpow (Binary64.Fexp f + Binary64.prec - 1) <= x)%R;
  rt_normal : Binary64.emin < Binary64.Fexp f ->
              2 ^ (Binary64.prec - 1) <= Binary64.Fnum f
}.

(** ** The commit window *)

Definition window_start (d : datetime) : datetime := replace_time d 8 0 0 0.
Definition window_end (d : datetime) : datetime :=
  replace_time d 23 59 59 999999.

(** The window in microseconds, and [span_seconds]: the double nearest to
    57599.999999. *)
Definition START_US : Z := 28800000000.
Definition SPAN_US : Z := 57599999999.
Definition SPAN : Binary64.float := Binary64.Float 7916483719849761 (-37).

(** Python's ordering of datetimes. *)
Definition datetime_leb (a b : datetime) : bool :=
  (ordinal a <? ordinal b)
  || ((ordinal a =? ordinal b) && (usec a <=? usec b)).

(** ** Counts and console lines of the backfill loop *)

(** How many timestamps [commits_for_day] returns for [count]: a negative
    count passes the [count <= 1] test and is truthy, so it gives one. *)
Definition day_size (count : Z) : Z := if count <? 0 then 1 else count.



(** [a <= b] on datetimes. *)
Definition datetime_le (a b : datetime) : Prop := datetime_leb a b = true.

(** ** Concrete runs *)

(** A small generator, three stand-ins for [git] and a few directories, for
    evaluating the program on concrete inputs. *)
Module Sample.

Definition lcg_seed (n : Z) : Z := n mod 2 ^ 31.

Definition lcg_randbelow (g n : Z) : Z * Z :=
  ((g / 65536) mod n, (g * 1103515245 + 12345) mod 2 ^ 31).

Definition exited (code : Z) (out err : string) : CompletedProcess :=
  {| returncode := code; stdout := out; stderr := err |}.

Definition git_ok (args : list string) (env : option (gmap string string))
    (w : World Z) : CompletedProcess :=
  exited 0 "" "".

Definition git_failing (args : list string) (env : option (gmap string string))
    (w : World Z) : CompletedProcess :=
  match args with
  | "commit" :: _ => exited 1 "" "fatal: unable to write new index file"
  | _ => exited 0 "" ""
  end.


(** A directory on 2024-01-02, 09:30. *)
Definition directory_with (present repo : bool) (fs : gmap string string)
  : World Z :=
  {| cwd := "/home/user/repo"; is_dir := present; git_dir := repo;
     files := fs; environ := ∅;
     now := DateTime 738887 (time_usec 9 30 0 0); rng := 0; trace := [] |}.

Definition fresh : World Z := directory_with true false ∅.
Definition with_readme : World Z :=
  directory_with true false {[ "README.md" := "# Mine" +:+ nl ]}.
Definition repository : World Z :=
  directory_with true true {[ "history.txt" := "earlier" +:+ nl ]}.
Definition with_dos_log : World Z :=
  directory_with true true {[ "history.txt" := "note" +:+ String CR nl ]}.

Definition arguments (dry : bool) (days cpd : Z) : Args :=
  {| start_year := 2024; commits_per_day := cpd; dry_run := dry; seed := 42;
     max_days := Some days; directory := "." |}.

End Sample.

(** ** Rounding to nearest *)

Section Rounding.

Import Binary64.


Lemma rne_div_spec (N D : Z) :
  0 < D ->
  - D <= 2 * (rne_div N D * D - N) <= D /\
  (Z.abs (2 * (rne_div N D * D - N)) = D -> Z.even (rne_div N D) = true).
Proof.
  intros HD. unfold rne_div.
  pose proof (Z.div_mod N D ltac:(lia)) as Hdm.
  pose proof (Z.mod_pos_bound N D HD) as Hr.
  set (q := N / D) in *. set (r := N mod D) in *.
  destruct (Z.ltb_spec (2 * r) D); [split; [nia|intros; exfalso; nia]|].
  destruct (Z.ltb_spec D (2 * r)); [split; [nia|intros; exfalso; nia]|].
  destruct (Z.even q) eqn:Hev.
  - split; [nia|auto].
  - split; [nia|]. intros _. rewrite Z.even_add, Hev. reflexivity.
Qed.

Lemma rne_div_mono (N D N' D' : Z) :
  0 < D -> 0 < D' -> N * D' <= N' * D -> rne_div N D <= rne_div N' D'.
Proof.
  intros HD HD' Hle.
  destruct (rne_div_spec N D HD) as [[Hlo Hhi] Htie].
  destruct (rne_div_spec N' D' HD') as [[Hlo' Hhi'] Htie'].
  set (m := rne_div N D) in *. set (m' := rne_div N' D') in *.
  destruct (Z_le_gt_dec m m') as [|Hgt]; [assumption|exfalso].
  assert (HDD : 0 < D * D') by nia.
  assert (Ha : 2 * m * (D * D') <= 2 * N' * D + D * D') by nia.
  assert (Hb : 2 * N' * D <= 2 * m' * (D * D') + D * D') by nia.
  assert (Hm : m = m' + 1) by nia.
  assert (H1 : 2 * (m * D - N) = D) by nia.
  assert (H2 : 2 * (m' * D' - N') = - D') by nia.
  assert (E1 : Z.even m = true) by (apply Htie; lia).
  assert (E2 : Z.even m' = true) by (apply Htie'; lia).
  rewrite Hm, Z.even_add, E2 in E1. discriminate.
Qed.

Lemma bpow_pos e : (0 < bpow e)%R.
Proof. apply powerRZ_lt. lra. Qed.

Lemma bpow_add a b : bpow (a + b) = (bpow a * bpow b)%R.
Proof. apply powerRZ_add. lra. Qed.

Lemma bpow_0 : bpow 0 = 1%R.
Proof. reflexivity. Qed.

Lemma bpow_1 : bpow 1 = 2%R.
Proof. unfold bpow. simpl. lra. Qed.

Lemma bpow_opp a : (bpow (- a) = / bpow a)%R.
Proof.
  apply Rmult_eq_reg_l with (bpow a); [|pose proof (bpow_pos a); lra].
  rewrite <- bpow_add, Z.add_opp_diag_r, bpow_0.
  field. pose proof (bpow_pos a); lra.
Qed.

Lemma bpow_IZR k : 0 <= k -> IZR (2 ^ k) = bpow k.
Proof.
  intros Hk. unfold bpow. rewrite <- (Z2Nat.id k Hk) at 1.
  rewrite <- pow_IZR. rewrite <- (Z2Nat.id k Hk) at 2.
  apply pow_powerRZ.
Qed.

Lemma bpow_ge_1 k : 0 <= k -> (1 <= bpow k)%R.
Proof.
  intros Hk. rewrite <- bpow_IZR by assumption.
  apply IZR_le. pose proof (Z.pow_pos_nonneg 2 k ltac:(lia) Hk). lia.
Qed.

Lemma bpow_le a b : a <= b -> (bpow a <= bpow b)%R.
Proof.
  intros H. replace b with (a + (b - a)) by lia. rewrite bpow_add.
  pose proof (bpow_pos a). pose proof (bpow_ge_1 (b - a) ltac:(lia)). nra.
Qed.

Lemma bpow_lt a b : a < b -> (bpow a < bpow b)%R.
Proof.
  intros H. replace b with (a + 1 + (b - a - 1)) by lia.
  rewrite !bpow_add, bpow_1.
  pose proof (bpow_pos a). pose proof (bpow_ge_1 (b - a - 1) ltac:(lia)). nra.
Qed.

Lemma bpow_lt_inv a b : (bpow a < bpow b)%R -> a < b.
Proof.
  intros H. destruct (Z_lt_le_dec a b) as [|Hle]; [assumption|].
  apply bpow_le in Hle. lra.
Qed.

Lemma log2_bpow p : 0 < p -> (bpow (Z.log2 p) <= IZR p < bpow (Z.log2 p + 1))%R.
Proof.
  intros Hp. pose proof (Z.log2_spec p Hp) as [H1 H2].
  pose proof (Z.log2_nonneg p).
  rewrite <- !bpow_IZR by lia. split; [apply IZR_le|apply IZR_lt]; lia.
Qed.

Lemma scaled_ratio p q e :
  0 < q ->
  (IZR (p * 2 ^ Z.max 0 (- e)) / IZR (q * 2 ^ Z.max 0 e)
   = IZR p / IZR q * bpow (- e))%R.
Proof.
  intros Hq. rewrite !mult_IZR, !bpow_IZR by lia.
  assert (IZR q <> 0)%R by (apply not_0_IZR; lia).
  pose proof (bpow_pos e). pose proof (bpow_pos (- e)).
  destruct (Z_le_gt_dec 0 e).
  - rewrite (Z.max_l 0 (- e)), (Z.max_r 0 e), bpow_0, bpow_opp by lia.
    field. split; lra.
  - rewrite (Z.max_r 0 (- e)), (Z.max_l 0 e), bpow_0 by lia.
    field. lra.
Qed.

Lemma scaled_pos q e : 0 < q -> 0 < q * 2 ^ Z.max 0 e.
Proof.
  intros. pose proof (Z.pow_pos_nonneg 2 (Z.max 0 e) ltac:(lia) ltac:(lia)). nia.
Qed.

(** The exponent chosen for [p / q] brackets it. *)
Lemma ratio_exp_spec p q :
  0 < p -> 0 < q ->
  let x := (IZR p / IZR q)%R in
  let e := ratio_exp p q in
  emin <= e /\ (x < bpow (e + prec))%R /\
  (emin < e -> (bpow (e + prec - 1) <= x)%R).
Proof.
  intros Hp Hq x e.
  assert (Hq' : (0 < IZR q)%R) by (apply IZR_lt; lia).
  assert (Hp' : (0 < IZR p)%R) by (apply IZR_lt; lia).
  pose proof (log2_bpow p Hp) as [Hp1 Hp2].
  pose proof (log2_bpow q Hq) as [Hq1 Hq2].
  set (l := Z.log2 p - Z.log2 q) in *.
  assert (Hlo : (bpow (l - 1) < x)%R).
  { unfold x. apply Rmult_lt_reg_r with (IZR q); [assumption|].
    replace (IZR p / IZR q * IZR q)%R with (IZR p) by (field; lra).
    apply Rlt_le_trans with (bpow (l - 1) * bpow (Z.log2 q + 1))%R.
    - pose proof (bpow_pos (l - 1)). nra.
    - rewrite <- bpow_add. replace (l - 1 + (Z.log2 q + 1)) with (Z.log2 p) by lia.
      assumption. }
  assert (Hhi : (x < bpow (l + 1))%R).
  { unfold x. apply Rmult_lt_reg_r with (IZR q); [assumption|].
    replace (IZR p / IZR q * IZR q)%R with (IZR p) by (field; lra).
    apply Rlt_le_trans with (bpow (Z.log2 p + 1)); [assumption|].
    replace (Z.log2 p + 1) with (l + 1 + Z.log2 q) by lia. rewrite bpow_add.
    pose proof (bpow_pos (l + 1)). nra. }
  assert (Htest : (q * 2 ^ Z.max 0 l <=? p * 2 ^ Z.max 0 (- l)) = true
                  <-> (bpow l <= x)%R).
  { rewrite Z.leb_le.
    pose proof (scaled_ratio p q l Hq) as Hs.
    pose proof (scaled_pos q l Hq) as HD.
    assert (HD' : (0 < IZR (q * 2 ^ Z.max 0 l))%R) by (apply IZR_lt; lia).
    pose proof (bpow_pos l). pose proof (bpow_pos (- l)).
    assert (Hbb : (bpow l * bpow (- l) = 1)%R)
      by (rewrite <- bpow_add, Z.add_opp_diag_r; reflexivity).
    fold x in Hs.
    split.
    - intros Hle. apply IZR_le in Hle.
      assert (1 <= x * bpow (- l))%R.
      { rewrite <- Hs. apply Rmult_le_reg_r with (IZR (q * 2 ^ Z.max 0 l)); [lra|].
        replace (IZR (p * 2 ^ Z.max 0 (- l)) / IZR (q * 2 ^ Z.max 0 l)
                 * IZR (q * 2 ^ Z.max 0 l))%R
          with (IZR (p * 2 ^ Z.max 0 (- l))) by (field; lra). lra. }
      nra.
    - intros Hle. apply le_IZR.
      assert (1 <= x * bpow (- l))%R by nra.
      rewrite <- Hs in H1.
      apply Rmult_le_compat_r with (r := IZR (q * 2 ^ Z.max 0 l)) in H1; [|lra].
      replace (IZR (p * 2 ^ Z.max 0 (- l)) / IZR (q * 2 ^ Z.max 0 l)
               * IZR (q * 2 ^ Z.max 0 l))%R
        with (IZR (p * 2 ^ Z.max 0 (- l))) in H1 by (field; lra). lra. }
  unfold e, ratio_exp. fold l. unfold prec, emin.
  destruct (q * 2 ^ Z.max 0 l <=? p * 2 ^ Z.max 0 (- l)) eqn:Ht.
  - assert (Hge : (bpow l <= x)%R) by (apply Htest; reflexivity).
    split; [lia|]. split.
    + apply Rlt_le_trans with (bpow (l + 1)); [assumption|]. apply bpow_le. lia.
    + intros He. replace (Z.max (l - (53 - 1)) (-1074) + 53 - 1) with l by lia.
      assumption.
  - assert (Hn : (x < bpow l)%R).
    { destruct (Rlt_le_dec x (bpow l)) as [|Hc]; [assumption|].
      apply Htest in Hc. discriminate. }
    split; [lia|]. split.
    + apply Rlt_le_trans with (bpow l); [assumption|]. apply bpow_le. lia.
    + intros He. replace (Z.max (l - 53) (-1074) + 53 - 1) with (l - 1) by lia.
      lra.
Qed.


Lemma rne_div_real N D :
  0 < D ->
  (IZR N / IZR D - / 2 <= IZR (rne_div N D) <= IZR N / IZR D + / 2)%R.
Proof.
  intros HD. destruct (rne_div_spec N D HD) as [[Hlo Hhi] _].
  set (m := rne_div N D) in *.
  assert (HD' : (0 < IZR D)%R) by (apply IZR_lt; lia).
  apply IZR_le in Hlo, Hhi.
  rewrite opp_IZR, mult_IZR, minus_IZR, mult_IZR in Hlo.
  rewrite mult_IZR, minus_IZR, mult_IZR in Hhi.
  assert (E : (IZR m - IZR N / IZR D = (IZR m * IZR D - IZR N) / IZR D)%R)
    by (field; lra).
  cut (- / 2 <= (IZR m * IZR D - IZR N) / IZR D <= / 2)%R; [lra|].
  split.
  - apply Rmult_le_reg_r with (IZR D); [assumption|].
    replace ((IZR m * IZR D - IZR N) / IZR D * IZR D)%R
      with (IZR m * IZR D - IZR N)%R by (field; lra). lra.
  - apply Rmult_le_reg_r with (IZR D); [assumption|].
    replace ((IZR m * IZR D - IZR N) / IZR D * IZR D)%R
      with (IZR m * IZR D - IZR N)%R by (field; lra). lra.
Qed.

Lemma round_ratio_exp p q : 0 < p -> Fexp (round_ratio p q) = ratio_exp p q.
Proof.
  intros Hp. unfold round_ratio.
  destruct (Z.eqb_spec p 0); [lia|]. rewrite Z.abs_eq by lia. reflexivity.
Qed.

Lemma round_ratio_num p q :
  0 < p ->
  Fnum (round_ratio p q)
  = rne_div (p * 2 ^ Z.max 0 (- ratio_exp p q)) (q * 2 ^ Z.max 0 (ratio_exp p q)).
Proof.
  intros Hp. unfold round_ratio.
  destruct (Z.eqb_spec p 0); [lia|]. rewrite Z.abs_eq by lia. reflexivity.
Qed.

Lemma round_ratio_rounds p q :
  0 < p -> 0 < q -> rounds_to (IZR p / IZR q) (round_ratio p q).
Proof.
  intros Hp Hq.
  destruct (ratio_exp_spec p q Hp Hq) as (He & Hhi & Hlo).
  pose proof (round_ratio_exp p q Hp) as Ee.
  pose proof (round_ratio_num p q Hp) as Em.
  set (e := ratio_exp p q) in *. set (f := round_ratio p q) in *.
  set (x := (IZR p / IZR q)%R) in *.
  pose proof (rne_div_real (p * 2 ^ Z.max 0 (- e)) (q * 2 ^ Z.max 0 e)
                (scaled_pos q e Hq)) as Hr.
  rewrite <- Em, scaled_ratio in Hr by assumption. fold x in Hr.
  pose proof (bpow_pos e) as Hbe. pose proof (bpow_pos (- e)) as Hbne.
  assert (Hbb : (bpow e * bpow (- e) = 1)%R)
    by (rewrite <- bpow_add, Z.add_opp_diag_r; reflexivity).
  assert (Hx : (0 < x)%R).
  { unfold x. apply Rdiv_lt_0_compat; apply IZR_lt; lia. }
  assert (Hy_hi : (x * bpow (- e) < bpow prec)%R).
  { replace prec with (e + prec + - e) by lia. rewrite bpow_add.
    apply Rmult_lt_compat_r; assumption. }
  assert (Hnum_lo : 0 <= Fnum f).
  { assert (-1 < IZR (Fnum f))%R by nra.
    apply lt_IZR in H. lia. }
  assert (Hnum_hi : Fnum f <= 2 ^ prec).
  { assert (IZR (Fnum f) < IZR (2 ^ prec + 1))%R.
    { rewrite plus_IZR, bpow_IZR by (unfold prec; lia). lra. }
    apply lt_IZR in H. lia. }
  split; rewrite ?Ee; try assumption.
  - unfold F2R. rewrite Ee.
    replace (e - 1) with (e + -1) by lia. rewrite bpow_add.
    replace (bpow (-1)) with (/ 2)%R by (unfold bpow; simpl; lra).
    assert (Hxy : (x = x * bpow (- e) * bpow e)%R)
      by (rewrite Rmult_assoc, (Rmult_comm (bpow (- e))), Hbb; ring).
    revert Hr Hxy. generalize (x * bpow (- e))%R. intros y [Hr1 Hr2] ->.
    split; nra.
  - intros Hn. specialize (Hlo Hn).
    assert (Hy_lo : (bpow (prec - 1) <= x * bpow (- e))%R).
    { replace (prec - 1) with (e + prec - 1 + - e) by lia. rewrite bpow_add.
      apply Rmult_le_compat_r; lra. }
    assert (IZR (2 ^ (prec - 1) - 1) < IZR (Fnum f))%R.
    { rewrite minus_IZR, bpow_IZR by (unfold prec; lia). lra. }
    apply lt_IZR in H. lia.
Qed.


Lemma F2R_zero : F2R (Float 0 0) = 0%R.
Proof. unfold F2R. simpl. lra. Qed.

Lemma F2R_nonneg f : 0 <= Fnum f -> (0 <= F2R f)%R.
Proof.
  intros H. unfold F2R. apply IZR_le in H. pose proof (bpow_pos (Fexp f)). nra.
Qed.

Lemma F2R_pos f : 0 < Fnum f -> (0 < F2R f)%R.
Proof.
  intros H. unfold F2R. apply IZR_lt in H. pose proof (bpow_pos (Fexp f)). nra.
Qed.

(** In the normal range the error of a rounding is relative. *)
Lemma rounds_to_rel x f :
  rounds_to x f -> (bpow (emin + prec - 1) <= x)%R ->
  (x * (1 - ulp_half) <= F2R f <= x * (1 + ulp_half))%R.
Proof.
  intros H Hx. destruct (rt_err _ _ H) as [H1 H2].
  assert (Hb : (bpow (Fexp f - 1) <= x * ulp_half)%R).
  { assert (Hlo : (bpow (Fexp f + prec - 1) <= x)%R).
    { destruct (Z_lt_le_dec emin (Fexp f)) as [Hn|Hn].
      - apply (rt_lo _ _ H Hn).
      - pose proof (rt_exp _ _ H). replace (Fexp f) with emin by lia. assumption. }
    unfold ulp_half.
    replace (Fexp f - 1) with (Fexp f + prec - 1 + - prec) by lia.
    rewrite bpow_add. pose proof (bpow_pos (- prec)). nra. }
  lra.
Qed.

Lemma ratio_le p q p' q' :
  0 < q -> 0 < q' -> p * q' <= p' * q -> (IZR p / IZR q <= IZR p' / IZR q')%R.
Proof.
  intros Hq Hq' H. apply IZR_le in H. rewrite !mult_IZR in H.
  assert (0 < IZR q)%R by (apply IZR_lt; lia).
  assert (0 < IZR q')%R by (apply IZR_lt; lia).
  apply Rmult_le_reg_r with (IZR q * IZR q')%R; [nra|].
  replace (IZR p / IZR q * (IZR q * IZR q'))%R with (IZR p * IZR q')%R
    by (field; lra).
  replace (IZR p' / IZR q' * (IZR q * IZR q'))%R with (IZR p' * IZR q)%R
    by (field; lra).
  assumption.
Qed.

(** Rounding is monotone. *)
Lemma round_ratio_mono p q p' q' :
  0 <= p -> 0 < q -> 0 < q' -> p * q' <= p' * q ->
  (F2R (round_ratio p q) <= F2R (round_ratio p' q'))%R.
Proof.
  intros Hp Hq Hq' Hle.
  assert (Hp' : 0 <= p') by nia.
  destruct (Z.eq_dec p 0) as [->|Hp0].
  { change (round_ratio 0 q) with (Float 0 0). rewrite F2R_zero.
    destruct (Z.eq_dec p' 0) as [->|Hp'0].
    - change (round_ratio 0 q') with (Float 0 0). rewrite F2R_zero. lra.
    - apply F2R_nonneg. apply (rt_num_lo _ _ (round_ratio_rounds p' q' ltac:(lia) Hq')). }
  assert (Hpp : 0 < p) by lia. assert (Hpp' : 0 < p') by nia.
  pose proof (ratio_le _ _ _ _ Hq Hq' Hle) as Hx.
  pose proof (round_ratio_rounds p q Hpp Hq) as R1.
  pose proof (round_ratio_rounds p' q' Hpp' Hq') as R2.
  pose proof (round_ratio_exp p q Hpp) as E1.
  pose proof (round_ratio_exp p' q' Hpp') as E2.
  pose proof (round_ratio_num p q Hpp) as M1.
  pose proof (round_ratio_num p' q' Hpp') as M2.
  set (f := round_ratio p q) in *. set (f' := round_ratio p' q') in *.
  assert (He : Fexp f <= Fexp f').
  { destruct (Z_le_gt_dec (Fexp f) (Fexp f')) as [|Hgt]; [assumption|exfalso].
    pose proof (rt_exp _ _ R2).
    pose proof (rt_lo _ _ R1 ltac:(lia)). pose proof (rt_hi _ _ R2).
    assert (Hb : (bpow (Fexp f + prec - 1) < bpow (Fexp f' + prec))%R) by lra.
    apply bpow_lt_inv in Hb. lia. }
  unfold F2R.
  pose proof (bpow_pos (Fexp f)). pose proof (bpow_pos (Fexp f')).
  destruct (Z.eq_dec (Fexp f) (Fexp f')) as [Heq|Hne].
  - rewrite <- Heq. apply Rmult_le_compat_r; [lra|]. apply IZR_le.
    rewrite M1, M2. rewrite <- E1, <- E2, <- Heq.
    apply rne_div_mono; try (apply scaled_pos; assumption).
    pose proof (Z.pow_pos_nonneg 2 (Z.max 0 (Fexp f)) ltac:(lia) ltac:(lia)).
    pose proof (Z.pow_pos_nonneg 2 (Z.max 0 (- Fexp f)) ltac:(lia) ltac:(lia)).
    nia.
  - pose proof (rt_exp _ _ R1).
    pose proof (rt_normal _ _ R2 ltac:(lia)) as Hn.
    pose proof (rt_num_hi _ _ R1) as Hh.
    apply IZR_le in Hn, Hh. rewrite bpow_IZR in Hn, Hh by (unfold prec; lia).
    apply Rle_trans with (bpow prec * bpow (Fexp f))%R; [nra|].
    apply Rle_trans with (bpow (prec - 1) * bpow (Fexp f'))%R; [|nra].
    rewrite <- !bpow_add. apply bpow_le. lia.
Qed.

Lemma is_finite_intro f :
  0 <= Fnum f -> (F2R f < bpow emax)%R -> is_finite f = true.
Proof.
  intros Hm Hf. unfold is_finite. rewrite Z.abs_eq by assumption.
  unfold F2R in Hf.
  destruct (Z.leb_spec 0 (Fexp f)).
  - apply Z.ltb_lt. apply lt_IZR.
    rewrite mult_IZR, !bpow_IZR by (unfold emax; lia). assumption.
  - apply Z.ltb_lt. apply lt_IZR. rewrite bpow_IZR by (unfold emax; lia).
    replace (emax - Fexp f) with (emax + - Fexp f) by lia. rewrite bpow_add.
    pose proof (bpow_pos (Fexp f)). pose proof (bpow_pos (- Fexp f)).
    assert (Hbb : (bpow (Fexp f) * bpow (- Fexp f) = 1)%R)
      by (rewrite <- bpow_add, Z.add_opp_diag_r; reflexivity).
    apply Rmult_lt_reg_r with (bpow (Fexp f)); [assumption|].
    rewrite Rmult_assoc, (Rmult_comm (bpow (- Fexp f))), Hbb. lra.
Qed.

Lemma bpow_opp_mul e : (bpow e * bpow (- e) = 1)%R.
Proof. rewrite <- bpow_add, Z.add_opp_diag_r. reflexivity. Qed.

Lemma rounds_to_finite x f :
  rounds_to x f -> (x < bpow (emax - 1))%R -> is_finite f = true.
Proof.
  intros H Hx. apply is_finite_intro; [apply (rt_num_lo _ _ H)|].
  destruct (rt_err _ _ H) as [_ H2].
  assert (Hb : (bpow (Fexp f - 1) < bpow (emax - 1))%R).
  { destruct (Z_lt_le_dec emin (Fexp f)) as [Hn|Hn].
    - pose proof (rt_lo _ _ H Hn).
      assert (Hlt : (bpow (Fexp f + prec - 1) < bpow (emax - 1))%R) by lra.
      apply bpow_lt_inv in Hlt. apply bpow_lt. unfold prec in *. lia.
    - apply bpow_lt. unfold emin, emax in *. lia. }
  replace emax with (1 + (emax - 1)) by lia. rewrite bpow_add, bpow_1. lra.
Qed.

Lemma checked_finite f : is_finite f = true -> checked f = Some f.
Proof. intros H. unfold checked. rewrite H. reflexivity. Qed.

Lemma ratio_le_inv p q p' q' :
  0 < q -> 0 < q' -> (IZR p / IZR q <= IZR p' / IZR q')%R -> p * q' <= p' * q.
Proof.
  intros Hq Hq' H.
  assert (0 < IZR q)%R by (apply IZR_lt; lia).
  assert (0 < IZR q')%R by (apply IZR_lt; lia).
  apply le_IZR. rewrite !mult_IZR.
  apply Rmult_le_compat_r with (r := (IZR q * IZR q')%R) in H; [|nra].
  replace (IZR p / IZR q * (IZR q * IZR q'))%R with (IZR p * IZR q')%R in H
    by (field; lra).
  replace (IZR p' / IZR q' * (IZR q * IZR q'))%R with (IZR p' * IZR q)%R in H
    by (field; lra).
  assumption.
Qed.

(** *** [of_int] *)

Lemma of_int_zero : of_int 0 = Some (Float 0 0).
Proof. reflexivity. Qed.

Lemma of_int_spec n :
  0 < n -> n < 2 ^ (emax - 1) ->
  exists f, of_int n = Some f /\ rounds_to (IZR n) f.
Proof.
  intros Hn Hlt. exists (round_ratio n 1).
  pose proof (round_ratio_rounds n 1 Hn ltac:(lia)) as H.
  replace (IZR n / IZR 1)%R with (IZR n) in H by (field).
  split; [|assumption].
  apply checked_finite, (rounds_to_finite _ _ H).
  rewrite <- bpow_IZR by (unfold emax; lia). apply IZR_lt. assumption.
Qed.

Lemma of_int_mono i j fi fj :
  0 <= i <= j -> of_int i = Some fi -> of_int j = Some fj ->
  (F2R fi <= F2R fj)%R.
Proof.
  unfold of_int, checked. intros Hij Hi Hj.
  destruct (is_finite (round_ratio i 1)); [|discriminate].
  destruct (is_finite (round_ratio j 1)); [|discriminate].
  injection Hi as <-. injection Hj as <-.
  apply round_ratio_mono; lia.
Qed.

(** *** [mul] *)

Lemma mul_ratio x y :
  (IZR (Fnum x * Fnum y * 2 ^ Z.max 0 (Fexp x + Fexp y))
   / IZR (2 ^ Z.max 0 (- (Fexp x + Fexp y))) = F2R x * F2R y)%R.
Proof.
  pose proof (scaled_ratio (Fnum x * Fnum y) 1 (- (Fexp x + Fexp y)) ltac:(lia)) as H.
  rewrite Z.opp_involutive, Z.mul_1_l in H. rewrite H.
  unfold F2R. rewrite bpow_add, mult_IZR. field.
Qed.

Lemma pow2_pos e : 0 < 2 ^ Z.max 0 e.
Proof. apply Z.pow_pos_nonneg; lia. Qed.

Lemma mul_spec x y :
  0 < Fnum x -> 0 < Fnum y -> (F2R x * F2R y < bpow (emax - 1))%R ->
  exists f, mul x y = Some f /\ rounds_to (F2R x * F2R y) f.
Proof.
  intros Hx Hy Hlt. unfold mul.
  set (P := Fnum x * Fnum y * 2 ^ Z.max 0 (Fexp x + Fexp y)).
  set (Q := 2 ^ Z.max 0 (- (Fexp x + Fexp y))).
  assert (HP : 0 < P).
  { unfold P. pose proof (pow2_pos (Fexp x + Fexp y)). nia. }
  pose proof (round_ratio_rounds P Q HP (pow2_pos _)) as H.
  unfold P, Q in H. rewrite mul_ratio in H. fold P Q in H.
  exists (round_ratio P Q). split; [|assumption].
  apply checked_finite, (rounds_to_finite _ _ H Hlt).
Qed.

Lemma mul_zero_r x : mul x (Float 0 0) = Some (Float 0 0).
Proof. unfold mul. simpl. rewrite Z.mul_0_r. reflexivity. Qed.

Lemma mul_mono x y y' f f' :
  0 <= Fnum x -> 0 <= Fnum y -> (F2R y <= F2R y')%R ->
  mul x y = Some f -> mul x y' = Some f' -> (F2R f <= F2R f')%R.
Proof.
  unfold mul, checked. intros Hx Hy Hle Hf Hf'.
  destruct (is_finite _); [|discriminate].
  destruct (is_finite _); [|discriminate].
  injection Hf as <-. injection Hf' as <-.
  apply round_ratio_mono; try apply pow2_pos.
  - pose proof (pow2_pos (Fexp x + Fexp y)). nia.
  - apply ratio_le_inv; try apply pow2_pos.
    rewrite !mul_ratio. pose proof (F2R_nonneg x Hx). nra.
Qed.

(** *** [div] *)

Lemma div_spec x y :
  0 < Fnum x -> 0 < Fnum y -> (F2R x / F2R y < bpow (emax - 1))%R ->
  exists f, div x y = Some f /\ rounds_to (F2R x / F2R y) f.
Proof.
  intros Hx Hy Hlt. unfold div.
  set (e := Fexp x - Fexp y).
  set (P := Fnum x * 2 ^ Z.max 0 e). set (Q := Fnum y * 2 ^ Z.max 0 (- e)).
  assert (HP : 0 < P) by (unfold P; pose proof (pow2_pos e); nia).
  assert (HQ : 0 < Q) by (unfold Q; pose proof (pow2_pos (- e)); nia).
  destruct (Z.eqb_spec Q 0) as [?|_]; [lia|].
  destruct (Z.ltb_spec 0 Q) as [_|?]; [|lia].
  pose proof (round_ratio_rounds P Q HP HQ) as H.
  assert (E : (IZR P / IZR Q = F2R x / F2R y)%R).
  { pose proof (scaled_ratio (Fnum x) (Fnum y) (- e) Hy) as Hs.
    rewrite Z.opp_involutive in Hs. fold P Q in Hs. rewrite Hs.
    unfold F2R, e. replace (Fexp x - Fexp y) with (Fexp x + - Fexp y) by lia.
    rewrite bpow_add, bpow_opp.
    pose proof (bpow_pos (Fexp y)). apply IZR_lt in Hy.
    field. split; lra. }
  rewrite E in H.
  exists (round_ratio P Q). split; [|assumption].
  apply checked_finite, (rounds_to_finite _ _ H Hlt).
Qed.

Lemma mul_comm x y : mul x y = mul y x.
Proof.
  unfold mul. rewrite (Z.mul_comm (Fnum x)), (Z.add_comm (Fexp x)). reflexivity.
Qed.

Lemma mul_zero_l x y : Fnum x = 0 -> mul x y = Some (Float 0 0).
Proof. intros H. unfold mul. rewrite H. reflexivity. Qed.

Lemma F2R_ratio y :
  (IZR (Fnum y * 2 ^ Z.max 0 (Fexp y)) / IZR (2 ^ Z.max 0 (- Fexp y))
   = F2R y)%R.
Proof.
  pose proof (scaled_ratio (Fnum y) 1 (- Fexp y) ltac:(lia)) as H.
  rewrite Z.opp_involutive, Z.mul_1_l in H. rewrite H. unfold F2R. field.
Qed.

Lemma rne_div_1 N : rne_div N 1 = N.
Proof. unfold rne_div. rewrite Z.mod_1_r, Z.div_1_r. reflexivity. Qed.

Lemma round_half_even_alt y :
  round_half_even y
  = rne_div (Fnum y * 2 ^ Z.max 0 (Fexp y)) (2 ^ Z.max 0 (- Fexp y)).
Proof.
  unfold round_half_even. destruct (Z.leb_spec 0 (Fexp y)).
  - rewrite (Z.max_r 0 (Fexp y)), (Z.max_l 0 (- Fexp y)) by lia.
    change (2 ^ 0) with 1. rewrite rne_div_1. reflexivity.
  - rewrite (Z.max_l 0 (Fexp y)), (Z.max_r 0 (- Fexp y)) by lia.
    change (2 ^ 0) with 1. rewrite Z.mul_1_r. reflexivity.
Qed.

Lemma round_half_even_err y :
  (F2R y - / 2 <= IZR (round_half_even y) <= F2R y + / 2)%R.
Proof.
  rewrite round_half_even_alt, <- F2R_ratio.
  apply rne_div_real, pow2_pos.
Qed.

Lemma round_half_even_mono y y' :
  (F2R y <= F2R y')%R -> round_half_even y <= round_half_even y'.
Proof.
  intros H. rewrite !round_half_even_alt.
  apply rne_div_mono; try apply pow2_pos.
  apply ratio_le_inv; try apply pow2_pos. rewrite !F2R_ratio. assumption.
Qed.

(** *** [modf] *)

Lemma modf_spec x :
  0 <= Fnum x ->
  let '(fr, ip) := modf x in
  0 <= Fnum fr /\ 0 <= ip /\
  (F2R x = IZR ip + F2R fr)%R /\ (0 <= F2R fr < 1)%R.
Proof.
  intros Hm. unfold modf. destruct (Z.leb_spec 0 (Fexp x)) as [He|He].
  - rewrite F2R_zero. split; [simpl; lia|].
    pose proof (Z.pow_pos_nonneg 2 (Fexp x) ltac:(lia) He).
    split; [nia|]. split; [|lra].
    unfold F2R. rewrite mult_IZR, bpow_IZR by assumption. lra.
  - set (d := 2 ^ (- Fexp x)).
    assert (Hd : 0 < d) by (apply Z.pow_pos_nonneg; lia).
    rewrite Z.rem_mod_nonneg, Z.quot_div_nonneg by lia.
    pose proof (Z.div_mod (Fnum x) d ltac:(lia)) as Hdm.
    pose proof (Z.mod_pos_bound (Fnum x) d Hd) as Hr.
    pose proof (Z.div_pos (Fnum x) d Hm Hd) as Hq.
    set (q := Fnum x / d) in *. set (r := Fnum x mod d) in *.
    assert (Hdb : (IZR d * bpow (Fexp x) = 1)%R).
    { unfold d. rewrite bpow_IZR by lia. rewrite Rmult_comm. apply bpow_opp_mul. }
    pose proof (bpow_pos (Fexp x)) as Hb.
    split; [simpl; lia|]. split; [assumption|].
    unfold F2R. simpl Fnum. simpl Fexp.
    assert (Hx : IZR (Fnum x) = (IZR d * IZR q + IZR r)%R).
    { rewrite Hdm at 1. rewrite plus_IZR, mult_IZR. reflexivity. }
    destruct Hr as [Hr1 Hr2]. apply IZR_le in Hr1. apply IZR_lt in Hr2.
    split.
    { rewrite Hx.
      replace ((IZR d * IZR q + IZR r) * bpow (Fexp x))%R
        with (IZR q * (IZR d * bpow (Fexp x)) + IZR r * bpow (Fexp x))%R by ring.
      rewrite Hdb. ring. }
    split; [nra|]. rewrite <- Hdb. nra.
Qed.

Lemma million : F2R (Float (10 ^ 6) 0) = 1000000%R.
Proof. unfold F2R. simpl. lra. Qed.

(** Scaling a fraction of a second to microseconds. *)
Lemma usdouble_spec fr :
  0 <= Fnum fr -> (0 <= F2R fr < 1)%R ->
  exists usd, mul fr (Float (10 ^ 6) 0) = Some usd /\ 0 <= Fnum usd /\
    (F2R fr * 1000000 - bpow (-34) <= F2R usd
     <= F2R fr * 1000000 + bpow (-34))%R.
Proof.
  intros Hm [Hf0 Hf1].
  destruct (Z.eq_dec (Fnum fr) 0) as [Hz|Hnz].
  - exists (Float 0 0). rewrite mul_zero_l by assumption.
    split; [reflexivity|]. split; [simpl; lia|].
    assert (F2R fr = 0%R) by (unfold F2R; rewrite Hz; lra).
    rewrite H, F2R_zero. pose proof (bpow_pos (-34)). lra.
  - assert (Hb20 : (1000000 < bpow 20)%R).
    { rewrite <- bpow_IZR by lia. apply IZR_lt. reflexivity. }
    destruct (mul_spec fr (Float (10 ^ 6) 0)) as (usd & Hmul & Hr).
    + lia.
    + simpl. lia.
    + rewrite million.
      apply Rlt_trans with (bpow 20); [lra|]. apply bpow_lt. unfold emax. lia.
    + rewrite million in Hr. exists usd. split; [assumption|].
      split; [apply (rt_num_lo _ _ Hr)|].
      destruct (rt_err _ _ Hr) as [H1 H2].
      assert (He : Fexp usd <= -33).
      { destruct (Z_lt_le_dec emin (Fexp usd)) as [Hn|Hn]; [|unfold emin in Hn; lia].
        pose proof (rt_lo _ _ Hr Hn).
        assert (Hlt : (bpow (Fexp usd + prec - 1) < bpow 20)%R) by lra.
        apply bpow_lt_inv in Hlt. unfold prec in Hlt. lia. }
      pose proof (bpow_le (Fexp usd - 1) (-34) ltac:(lia)). lra.
Qed.

Lemma timedelta_of_seconds_spec x :
  0 <= Fnum x -> (F2R x <= 86399)%R ->
  exists t, timedelta_of_seconds x = Ok t /\ 0 <= t < US_PER_DAY /\
    (F2R x * 1000000 - (/ 2 + bpow (-34)) <= IZR t
     <= F2R x * 1000000 + (/ 2 + bpow (-34)))%R.
Proof.
  intros Hm Hx. unfold timedelta_of_seconds.
  pose proof (modf_spec x Hm) as Hmodf.
  destruct (modf x) as [fr ip]. destruct Hmodf as (Hfr & Hip & Hsum & Hf).
  destruct (usdouble_spec fr Hfr Hf) as (usd & Hmul & Husd & Herr).
  rewrite Hmul. cbn [or_raise mbind result_bind].
  pose proof (round_half_even_err usd) as Hrhe.
  set (us := round_half_even usd) in *.
  set (t := ip * US_PER_SECOND + us).
  assert (Hb : (0 < bpow (-34) < / 4)%R).
  { split; [apply bpow_pos|].
    replace (/ 4)%R with (bpow (-2)) by (unfold bpow; simpl; lra).
    apply bpow_lt. lia. }
  assert (Ht : IZR t = (IZR ip * 1000000 + IZR us)%R).
  { unfold t, US_PER_SECOND. rewrite plus_IZR, mult_IZR. reflexivity. }
  assert (Hbounds : (F2R x * 1000000 - (/ 2 + bpow (-34)) <= IZR t
                     <= F2R x * 1000000 + (/ 2 + bpow (-34)))%R).
  { rewrite Ht, Hsum. lra. }
  assert (Ht0 : 0 <= t).
  { assert (-1 < IZR t)%R by (rewrite Hsum in Hbounds; apply IZR_le in Hip; lra).
    apply lt_IZR in H. lia. }
  assert (Ht1 : t < US_PER_DAY).
  { apply lt_IZR. unfold US_PER_DAY, US_PER_SECOND.
    rewrite mult_IZR. lra. }
  exists t. split; [|split; [lia|assumption]].
  rewrite Z.div_small by lia. reflexivity.
Qed.

Lemma timedelta_of_seconds_mono x x' t t' :
  0 <= Fnum x -> 0 <= Fnum x' -> (F2R x <= F2R x')%R ->
  timedelta_of_seconds x = Ok t -> timedelta_of_seconds x' = Ok t' ->
  t <= t'.
Proof.
  intros Hm Hm' Hle. unfold timedelta_of_seconds.
  pose proof (modf_spec x Hm) as Hmodf. pose proof (modf_spec x' Hm') as Hmodf'.
  destruct (modf x) as [fr ip]. destruct (modf x') as [fr' ip'].
  destruct Hmodf as (Hfr & Hip & Hsum & Hf).
  destruct Hmodf' as (Hfr' & Hip' & Hsum' & Hf').
  destruct (usdouble_spec fr Hfr Hf) as (usd & Hmul & Husd & Herr).
  destruct (usdouble_spec fr' Hfr' Hf') as (usd' & Hmul' & Husd' & Herr').
  rewrite Hmul, Hmul'. cbn [or_raise mbind result_bind].
  destruct (_ <? _); [discriminate|]. destruct (_ <? _); [discriminate|].
  intros [= <-] [= <-]. unfold US_PER_SECOND.
  assert (Hii : ip <= ip').
  { assert (IZR ip < IZR (ip' + 1))%R by (rewrite plus_IZR; lra).
    apply lt_IZR in H. lia. }
  destruct (Z.eq_dec ip ip') as [->|Hne].
  - assert (round_half_even usd <= round_half_even usd'); [|lia].
    apply round_half_even_mono.
    rewrite (mul_comm fr) in Hmul. rewrite (mul_comm fr') in Hmul'.
    apply (mul_mono (Float (10 ^ 6) 0) fr fr'); try assumption.
    + simpl. lia.
    + lra.
  - assert (Hhi : round_half_even usd <= 10 ^ 6).
    { change (10 ^ 6) with (round_half_even (Float (10 ^ 6) 0)).
      apply round_half_even_mono.
      rewrite (mul_comm fr) in Hmul.
      assert (Hone : mul (Float (10 ^ 6) 0) (Float 1 0)
                     = Some (Float 8589934592000000 (-33))) by reflexivity.
      apply Rle_trans with (F2R (Float 8589934592000000 (-33))).
      - apply (mul_mono (Float (10 ^ 6) 0) fr (Float 1 0)); try assumption.
        + simpl. lia.
        + unfold F2R at 2. simpl. lra.
      - unfold F2R. simpl. lra. }
    assert (Hlo : 0 <= round_half_even usd').
    { change 0 with (round_half_even (Float 0 0)).
      apply round_half_even_mono. rewrite F2R_zero. apply F2R_nonneg. assumption. }
    change (10 ^ 6) with 1000000 in Hhi. nia.
Qed.

End Rounding.

(** ** Error of the interpolation *)

Section RealBounds.

Local Open Scope R_scope.

Lemma mul_interval x lo hi y ylo yhi :
  0 <= lo -> lo <= x <= hi -> 0 <= ylo -> ylo <= y <= yhi ->
  lo * ylo <= x * y <= hi * yhi.
Proof. intros ? [? ?] ? [? ?]. split; apply Rmult_le_compat; lra. Qed.

Lemma scale_interval k x p p' lo hi :
  0 <= k -> k * p <= x <= k * p' -> lo <= p -> p' <= hi ->
  k * lo <= x <= k * hi.
Proof.
  intros Hk [H1 H2] Hlo Hhi. split.
  - apply Rle_trans with (k * p); [apply Rmult_le_compat_l|]; assumption.
  - apply Rle_trans with (k * p'); [|apply Rmult_le_compat_l]; assumption.
Qed.

(** Three roundings in a row: [fl(S / fl(N)) * fl(I)] against [S * I / N]. *)
Lemma interpolation_product (u N A Sv B I C : R) :
  0 < u <= / 100 -> 0 < N -> 0 < Sv -> 0 <= I ->
  N * (1 - u) <= A <= N * (1 + u) ->
  Sv / A * (1 - u) <= B <= Sv / A * (1 + u) ->
  I * (1 - u) <= C <= I * (1 + u) ->
  Sv * I / N * (1 - 3 * u) <= B * C <= Sv * I / N * (1 + 6 * u).
Proof.
  intros Hu HN HS HI HA HB HC.
  assert (HA0 : 0 < A) by nra.
  set (k := Sv / N).
  assert (Hk : 0 < k) by (apply Rdiv_lt_0_compat; assumption).
  assert (HkN : Sv = k * N) by (unfold k; field; lra).
  assert (Hq : k * (1 - u) <= Sv / A <= k * (1 + 2 * u)).
  { split.
    - apply Rmult_le_reg_r with A; [assumption|].
      replace (Sv / A * A) with Sv by (field; lra). rewrite HkN.
      apply Rle_trans with (k * (1 - u) * (N * (1 + u))).
      + apply Rmult_le_compat_l; [nra|lra].
      + assert (0 <= k * N * (u * u)) by (apply Rmult_le_pos; nra). nra.
    - apply Rmult_le_reg_r with A; [assumption|].
      replace (Sv / A * A) with Sv by (field; lra). rewrite HkN.
      apply Rle_trans with (k * (1 + 2 * u) * (N * (1 - u))).
      + assert (0 <= k * N * (u * (1 - 2 * u))) by (apply Rmult_le_pos; nra). nra.
      + apply Rmult_le_compat_l; [nra|lra]. }
  set (q := Sv / A) in *.
  assert (HB' : k * (1 - 2 * u) <= B <= k * (1 + 4 * u)).
  { apply scale_interval with ((1 - u) * (1 - u)) ((1 + 2 * u) * (1 + u));
      [lra| |nra|nra].
    rewrite <- !Rmult_assoc.
    assert (Hq' : k * (1 - u) * (1 - u) <= q * (1 - u)
                  /\ q * (1 + u) <= k * (1 + 2 * u) * (1 + u)).
    { split; apply Rmult_le_compat_r; lra. }
    lra. }
  assert (HBC : k * I * (1 - 3 * u) <= B * C <= k * I * (1 + 6 * u)).
  { assert (HkI : 0 <= k * I) by (apply Rmult_le_pos; lra).
    apply scale_interval with ((1 - 2 * u) * (1 - u)) ((1 + 4 * u) * (1 + u));
      [assumption| |nra|nra].
    replace (k * I * ((1 - 2 * u) * (1 - u)))
      with (k * (1 - 2 * u) * (I * (1 - u))) by ring.
    replace (k * I * ((1 + 4 * u) * (1 + u)))
      with (k * (1 + 4 * u) * (I * (1 + u))) by ring.
    apply mul_interval; try assumption.
    - apply Rmult_le_pos; lra.
    - apply Rmult_le_pos; lra. }
  replace (Sv * I / N) with (k * I) by (unfold k; field; lra).
  assumption.
Qed.

(** The fourth rounding, of the product. *)
Lemma interpolation_chain (u T P X : R) :
  0 < u <= / 100 -> 0 <= T ->
  T * (1 - 3 * u) <= P <= T * (1 + 6 * u) ->
  P * (1 - u) <= X <= P * (1 + u) ->
  T * (1 - 8 * u) <= X <= T * (1 + 8 * u).
Proof.
  intros Hu HkI HBC HX.
  apply scale_interval with ((1 - 3 * u) * (1 - u)) ((1 + 6 * u) * (1 + u));
    [assumption| |nra|nra].
  rewrite <- !Rmult_assoc.
  assert (HX' : T * (1 - 3 * u) * (1 - u) <= P * (1 - u)
                /\ P * (1 + u) <= T * (1 + 6 * u) * (1 + u)).
  { split; apply Rmult_le_compat_r; lra. }
  lra.
Qed.

End RealBounds.

(** ** The timestamps of a day *)

Section Generator.

Import Binary64.


Lemma ulp_half_val : ulp_half = (/ 9007199254740992)%R.
Proof. unfold ulp_half, bpow, prec. simpl. lra. Qed.

Lemma SPAN_val :
  (57599999998999999 / 1000000000000 <= F2R SPAN
   <= 57599999999 / 1000000)%R.
Proof. unfold F2R, SPAN, bpow. simpl. lra. Qed.

Lemma F2R_pos_inv f : (0 < F2R f)%R -> 0 < Fnum f.
Proof.
  intros H. unfold F2R in H. pose proof (bpow_pos (Fexp f)).
  apply lt_IZR. nra.
Qed.

Lemma normal_threshold : (bpow (emin + prec - 1) <= bpow (-1011))%R.
Proof. apply bpow_le. unfold emin, prec. lia. Qed.

(** A product of two non-negative doubles, away from underflow and
    overflow, has a relative error of half an ulp. *)
Lemma mul_rel x y :
  0 <= Fnum x -> 0 <= Fnum y ->
  (F2R x * F2R y = 0 \/ bpow (-1011) <= F2R x * F2R y)%R ->
  (F2R x * F2R y < bpow (emax - 1))%R ->
  exists f, mul x y = Some f /\ 0 <= Fnum f /\
    (F2R x * F2R y * (1 - ulp_half) <= F2R f
     <= F2R x * F2R y * (1 + ulp_half))%R.
Proof.
  intros Hx Hy Hrange Hlt.
  destruct (Z.eq_dec (Fnum x) 0) as [Hx0|Hx0].
  { exists (Float 0 0). rewrite mul_zero_l by assumption.
    split; [reflexivity|]. split; [simpl; lia|].
    assert (Hz : F2R x = 0%R) by (unfold F2R; rewrite Hx0; lra).
    rewrite Hz, F2R_zero. lra. }
  destruct (Z.eq_dec (Fnum y) 0) as [Hy0|Hy0].
  { exists (Float 0 0). rewrite mul_comm, mul_zero_l by assumption.
    split; [reflexivity|]. split; [simpl; lia|].
    assert (Hz : F2R y = 0%R) by (unfold F2R; rewrite Hy0; lra).
    rewrite Hz, F2R_zero. lra. }
  destruct (mul_spec x y ltac:(lia) ltac:(lia) Hlt) as (f & Hf & Hr).
  exists f. split; [assumption|]. split; [apply (rt_num_lo _ _ Hr)|].
  apply rounds_to_rel; [assumption|].
  pose proof (F2R_pos x ltac:(lia)). pose proof (F2R_pos y ltac:(lia)).
  pose proof normal_threshold.
  destruct Hrange as [Hz|Hge]; [nra|lra].
Qed.

Lemma of_int_rel i :
  0 <= i < 2 ^ (emax - 1) ->
  exists f, of_int i = Some f /\ 0 <= Fnum f /\
    (IZR i * (1 - ulp_half) <= F2R f <= IZR i * (1 + ulp_half))%R.
Proof.
  intros [Hi0 Hi1]. destruct (Z.eq_dec i 0) as [->|Hne].
  { exists (Float 0 0). split; [reflexivity|]. split; [simpl; lia|].
    rewrite F2R_zero. lra. }
  destruct (of_int_spec i ltac:(lia) Hi1) as (f & Hf & Hr).
  exists f. split; [assumption|]. split; [apply (rt_num_lo _ _ Hr)|].
  apply rounds_to_rel; [assumption|].
  apply Rle_trans with (bpow 0).
  - apply bpow_le. unfold emin, prec. lia.
  - rewrite bpow_0. apply IZR_le. lia.
Qed.

Section Interpolation.

Variable n1 : Z.
Hypothesis n1_range : 1 <= n1 < 2 ^ (emax - 1).

Lemma n1_real : (1 <= IZR n1 < bpow (emax - 1))%R.
Proof.
  destruct n1_range as [H1 H2]. split; [apply IZR_le; assumption|].
  rewrite <- bpow_IZR by (unfold emax; lia). apply IZR_lt. assumption.
Qed.

(** The step length [span_seconds / (count - 1)]. *)
Lemma steps_spec :
  exists d steps,
    of_int n1 = Some d /\ div SPAN d = Some steps /\ 0 < Fnum steps /\
    (IZR n1 * (1 - ulp_half) <= F2R d <= IZR n1 * (1 + ulp_half))%R /\
    (F2R SPAN / F2R d * (1 - ulp_half) <= F2R steps
     <= F2R SPAN / F2R d * (1 + ulp_half))%R /\
    (bpow (-1010) <= F2R steps)%R.
Proof.
  pose proof n1_real as [Hn1 Hn2].
  destruct (of_int_rel n1 ltac:(lia)) as (d & Hd & Hdn & Hdr).
  pose proof ulp_half_val as Hu. pose proof SPAN_val as [HS1 HS2].
  assert (Hd0 : (0 < F2R d)%R) by (rewrite Hu in Hdr; nra).
  assert (Hd1 : (/ 2 <= F2R d)%R) by (rewrite Hu in Hdr; nra).
  assert (Hd2 : (F2R d < bpow emax)%R).
  { replace emax with (1 + (emax - 1)) by lia. rewrite bpow_add, bpow_1.
    rewrite Hu in Hdr. nra. }
  assert (Hq_hi : (F2R SPAN / F2R d <= 2 * F2R SPAN)%R).
  { apply Rmult_le_reg_r with (F2R d); [assumption|].
    replace (F2R SPAN / F2R d * F2R d)%R with (F2R SPAN) by (field; lra).
    nra. }
  assert (Hq_lo : (bpow (-1009) <= F2R SPAN / F2R d)%R).
  { apply Rmult_le_reg_r with (F2R d); [assumption|].
    replace (F2R SPAN / F2R d * F2R d)%R with (F2R SPAN) by (field; lra).
    apply Rle_trans with (bpow (-1009) * bpow emax)%R.
    - pose proof (bpow_pos (-1009)). nra.
    - rewrite <- bpow_add.
      apply Rle_trans with (bpow 15); [apply bpow_le; unfold emax; lia|].
      rewrite <- bpow_IZR by lia. change (2 ^ 15) with 32768. lra. }
  destruct (div_spec SPAN d) as (steps & Hsteps & Hr).
  - simpl. lia.
  - apply F2R_pos_inv. assumption.
  - apply Rle_lt_trans with (2 * F2R SPAN)%R; [assumption|].
    apply Rlt_le_trans with (bpow 17).
    + rewrite <- bpow_IZR by lia. change (2 ^ 17) with 131072. lra.
    + apply bpow_le. unfold emax. lia.
  - assert (Hrel : (F2R SPAN / F2R d * (1 - ulp_half) <= F2R steps
                    <= F2R SPAN / F2R d * (1 + ulp_half))%R).
    { apply rounds_to_rel; [assumption|].
      apply Rle_trans with (bpow (-1009)); [|assumption].
      apply bpow_le. unfold emin, prec. lia. }
    assert (Hlow : (bpow (-1010) <= F2R steps)%R).
    { replace (-1009) with (1 + -1010) in Hq_lo by lia.
      rewrite bpow_add, bpow_1 in Hq_lo.
      pose proof (bpow_pos (-1010)). rewrite Hu in Hrel. nra. }
    exists d, steps. repeat split; try assumption; try tauto.
    apply F2R_pos_inv. pose proof (bpow_pos (-1010)). lra.
Qed.

End Interpolation.

Section Ticks.

Variable n1 : Z.
Hypothesis n1_range : 1 <= n1 < 2 ^ (emax - 1).
Variables d steps : float.
Hypothesis d_rel :
  (IZR n1 * (1 - ulp_half) <= F2R d <= IZR n1 * (1 + ulp_half))%R.
Hypothesis steps_rel :
  (F2R SPAN / F2R d * (1 - ulp_half) <= F2R steps
   <= F2R SPAN / F2R d * (1 + ulp_half))%R.
Hypothesis steps_pos : 0 < Fnum steps.
Hypothesis steps_low : (bpow (-1010) <= F2R steps)%R.

(** The offset of the [i]-th timestamp from the window start: it is
    within one microsecond of [i * span / (count - 1)]. *)
Lemma offset_spec i :
  0 <= i <= n1 ->
  exists fi x t,
    of_int i = Some fi /\ mul steps fi = Some x /\
    timedelta_of_seconds x = Ok t /\ 0 <= Fnum fi /\ 0 <= Fnum x /\
    Z.abs (t * n1 - i * SPAN_US) < n1.
Proof.
  intros Hi.
  pose proof (n1_real n1 n1_range) as [Hn1 Hn2].
  pose proof ulp_half_val as Hu. pose proof SPAN_val as [HS1 HS2].
  assert (Hu' : (0 < ulp_half <= / 100)%R) by (rewrite Hu; lra).
  destruct (of_int_rel i ltac:(lia)) as (fi & Hfi & Hfin & Hfir).
  assert (HI : (0 <= IZR i <= IZR n1)%R) by (split; apply IZR_le; lia).
  set (T := (F2R SPAN * IZR i / IZR n1)%R).
  assert (HT : (0 <= T <= F2R SPAN)%R).
  { unfold T. split.
    - apply Rmult_le_reg_r with (IZR n1); [lra|].
      replace (F2R SPAN * IZR i / IZR n1 * IZR n1)%R with (F2R SPAN * IZR i)%R
        by (field; lra). nra.
    - apply Rmult_le_reg_r with (IZR n1); [lra|].
      replace (F2R SPAN * IZR i / IZR n1 * IZR n1)%R with (F2R SPAN * IZR i)%R
        by (field; lra). nra. }
  pose proof (interpolation_product ulp_half (IZR n1) (F2R d) (F2R SPAN)
                (F2R steps) (IZR i) (F2R fi) Hu' ltac:(lra) ltac:(lra)
                ltac:(lra) d_rel steps_rel Hfir) as HP.
  fold T in HP.
  assert (HP' : (0 <= F2R steps * F2R fi <= 57601)%R).
  { rewrite Hu in HP. split; nra. }
  destruct (mul_rel steps fi ltac:(lia) Hfin) as (x & Hx & Hxn & Hxr).
  - destruct (Z.eq_dec i 0) as [->|Hne].
    + left. assert (F2R fi = 0%R) by lra. rewrite H. ring.
    + right. assert (Hi1 : (1 <= IZR i)%R) by (apply IZR_le; lia).
      assert (Hfi1 : (/ 2 <= F2R fi)%R) by (rewrite Hu in Hfir; nra).
      replace (-1011) with (-1010 + -1) by lia. rewrite bpow_add.
      replace (bpow (-1)) with (/ 2)%R by (unfold bpow; simpl; lra).
      pose proof (bpow_pos (-1010)).
      apply Rmult_le_compat; lra.
  - apply Rle_lt_trans with 57601%R; [lra|].
    apply Rlt_le_trans with (bpow 17).
    + rewrite <- bpow_IZR by lia. change (2 ^ 17) with 131072. lra.
    + apply bpow_le. unfold emax. lia.
  - pose proof (interpolation_chain ulp_half T (F2R steps * F2R fi) (F2R x)
                  Hu' ltac:(lra) HP Hxr) as HX.
    assert (HX' : (T - 57600 * (8 * ulp_half) <= F2R x
                   <= T + 57600 * (8 * ulp_half))%R).
    { assert (T * (8 * ulp_half) <= 57600 * (8 * ulp_half))%R
        by (apply Rmult_le_compat_r; lra). lra. }
    destruct (timedelta_of_seconds_spec x Hxn) as (t & Ht & Htr & Hterr).
    { rewrite Hu in HX'. lra. }
    exists fi, x, t. repeat split; try assumption.
    assert (Hb34 : (bpow (-34) <= / 1000000)%R) by (unfold bpow; simpl; lra).
    set (E := (IZR SPAN_US * IZR i / IZR n1)%R).
    assert (HTE : (E - / 1000000 <= T * 1000000 <= E)%R).
    { unfold E, T, SPAN_US.
      set (r := (IZR i / IZR n1)%R).
      assert (Hr : (0 <= r <= 1)%R).
      { unfold r. split.
        - apply Rmult_le_reg_r with (IZR n1); [lra|].
          replace (IZR i / IZR n1 * IZR n1)%R with (IZR i) by (field; lra). lra.
        - apply Rmult_le_reg_r with (IZR n1); [lra|].
          replace (IZR i / IZR n1 * IZR n1)%R with (IZR i) by (field; lra). lra. }
      replace (F2R SPAN * IZR i / IZR n1 * 1000000)%R
        with (r * (F2R SPAN * 1000000))%R by (unfold r; field; lra).
      replace (57599999999 * IZR i / IZR n1)%R
        with (r * 57599999999)%R by (unfold r; field; lra).
      split; nra. }
    assert (Hclose : (- (6 / 10) <= IZR t - E <= 6 / 10)%R).
    { rewrite Hu in HX'. lra. }
    assert (HEN : (E * IZR n1 = IZR (i * SPAN_US))%R).
    { unfold E. rewrite mult_IZR. field. lra. }
    assert (Hdiff : (IZR (t * n1 - i * SPAN_US) = (IZR t - E) * IZR n1)%R).
    { rewrite minus_IZR, mult_IZR, <- HEN. ring. }
    apply Z.abs_lt. split.
    + apply lt_IZR. rewrite opp_IZR, Hdiff. nra.
    + apply lt_IZR. rewrite Hdiff. nra.
Qed.

End Ticks.


Lemma window_span base :
  total_seconds (datetime_sub (window_end base) (window_start base)) = Ok SPAN.
Proof.
  unfold datetime_sub, window_end, window_start, replace_time. simpl ordinal.
  rewrite Z.sub_diag. reflexivity.
Qed.

Lemma mapM_result_Forall2 {A B} (f : A -> result B) (l : list A) :
  (forall x, x ∈ l -> exists y, f x = Ok y) ->
  exists k, mapM f l = Ok k /\ Forall2 (fun x y => f x = Ok y) l k.
Proof.
  induction l as [|a l IH]; intros H.
  - exists []. split; [reflexivity|constructor].
  - destruct (H a ltac:(left)) as (y & Hy).
    destruct IH as (k & Hk & HF); [intros x Hx; apply H; right; exact Hx|].
    exists (y :: k). split; [|constructor; assumption].
    cbn [mapM]. rewrite Hy. cbn [mbind result_bind].
    rewrite Hk. reflexivity.
Qed.

Lemma range_lookup n i x :
  range n !! i = Some x -> x = Z.of_nat i /\ (i < Z.to_nat n)%nat.
Proof.
  unfold range. rewrite list_lookup_fmap. intros H.
  destruct (seq 0 (Z.to_nat n) !! i) as [j|] eqn:E; [|discriminate].
  apply lookup_seq in E. simpl in H. injection H as <-. destruct E as [-> ?].
  split; [reflexivity|assumption].
Qed.

Lemma range_length n : length (range n) = Z.to_nat n.
Proof. unfold range. rewrite length_fmap, length_seq. reflexivity. Qed.

Lemma range_elem n x : x ∈ range n -> 0 <= x < n.
Proof.
  intros H. apply list_elem_of_lookup in H as [i Hi].
  apply range_lookup in Hi as [-> ?]. lia.
Qed.

Section Timestamps.

Variable n1 : Z.
Hypothesis n1_range : 1 <= n1 < 2 ^ (emax - 1).
Variables d steps : float.
Hypothesis d_rel :
  (IZR n1 * (1 - ulp_half) <= F2R d <= IZR n1 * (1 + ulp_half))%R.
Hypothesis steps_rel :
  (F2R SPAN / F2R d * (1 - ulp_half) <= F2R steps
   <= F2R SPAN / F2R d * (1 + ulp_half))%R.
Hypothesis steps_pos : 0 < Fnum steps.
Hypothesis steps_low : (bpow (-1010) <= F2R steps)%R.
Variable base : datetime.
Hypothesis base_valid : 1 <= ordinal base <= Calendar.MAXORDINAL.

Lemma datetime_add_in_window t :
  0 <= t <= SPAN_US ->
  datetime_add (window_start base) t
  = Ok (DateTime (ordinal base) (START_US + t)).
Proof.
  intros Ht. unfold datetime_add, window_start, replace_time.
  cbn [ordinal usec]. change (time_usec 8 0 0 0) with START_US.
  unfold SPAN_US, START_US, US_PER_DAY, US_PER_SECOND in *.
  rewrite Z.div_small, Z.mod_small, Z.add_0_r by lia.
  destruct (Z.ltb_spec 0 (ordinal base)); [|lia].
  destruct (Z.leb_spec (ordinal base) Calendar.MAXORDINAL); [|lia].
  reflexivity.
Qed.

Lemma timestamp_at_spec i :
  0 <= i <= n1 ->
  exists t,
    timestamp_at steps (window_start base) i
    = Ok (DateTime (ordinal base) (START_US + t)) /\
    Z.abs (t * n1 - i * SPAN_US) < n1.
Proof.
  intros Hi.
  destruct (offset_spec n1 n1_range d steps d_rel steps_rel steps_pos steps_low
              i Hi) as (fi & x & t & Hfi & Hx & Ht & _ & _ & Hb).
  exists t. split; [|assumption].
  unfold timestamp_at. rewrite Hfi. cbn [or_raise mbind result_bind].
  rewrite Hx. cbn [or_raise mbind result_bind]. rewrite Ht.
  cbn [mbind result_bind].
  apply datetime_add_in_window. unfold SPAN_US in *. nia.
Qed.

Lemma timestamp_at_mono i j ti tj :
  0 <= i <= j -> j <= n1 ->
  timestamp_at steps (window_start base) i
  = Ok (DateTime (ordinal base) (START_US + ti)) ->
  timestamp_at steps (window_start base) j
  = Ok (DateTime (ordinal base) (START_US + tj)) ->
  ti <= tj.
Proof.
  intros Hij Hj.
  destruct (offset_spec n1 n1_range d steps d_rel steps_rel steps_pos steps_low
              i ltac:(lia)) as (fi & x & t & Hfi & Hx & Ht & Hfin & Hxn & Hb).
  destruct (offset_spec n1 n1_range d steps d_rel steps_rel steps_pos steps_low
              j ltac:(lia)) as (fj & x' & t' & Hfj & Hx' & Ht' & Hfjn & Hxn' & Hb').
  unfold timestamp_at. rewrite Hfi, Hfj. cbn [or_raise mbind result_bind].
  rewrite Hx, Hx'. cbn [or_raise mbind result_bind]. rewrite Ht, Ht'.
  cbn [mbind result_bind].
  rewrite !datetime_add_in_window by (unfold SPAN_US in *; nia).
  intros [= E1] [= E2].
  assert (t <= t'); [|lia].
  apply (timedelta_of_seconds_mono x x'); try assumption.
  apply (mul_mono steps fi fj); try assumption; try lia.
  apply (of_int_mono i j); assumption.
Qed.

End Timestamps.


(** Up to one commit no arithmetic is done. *)
Lemma commits_for_day_small base count :
  count <= 1 ->
  commits_for_day base count
  = Ok (if count =? 0 then [] else [window_start base]).
Proof.
  intros Hc. unfold commits_for_day.
  fold (window_start base) (window_end base).
  rewrite window_span. cbn [mbind result_bind].
  destruct (Z.leb_spec count 1); [reflexivity|lia].
Qed.

Lemma commits_for_day_many base count d steps :
  2 <= count ->
  of_int (count - 1) = Some d -> div SPAN d = Some steps ->
  commits_for_day base count
  = mapM (timestamp_at steps (window_start base)) (range count).
Proof.
  intros Hc Hd Hs. unfold commits_for_day.
  fold (window_start base) (window_end base).
  rewrite window_span. cbn [mbind result_bind].
  destruct (Z.leb_spec count 1); [lia|].
  rewrite Hd. cbn [or_raise mbind result_bind]. rewrite Hs. reflexivity.
Qed.

(** From two commits on, the timestamps of a day are the window start plus
    offsets that never decrease, the [i]-th less than a microsecond away from
    [i * span / (count - 1)]. *)
Lemma commits_for_day_offsets base count :
  1 <= ordinal base <= Calendar.MAXORDINAL ->
  2 <= count <= 2 ^ 1023 ->
  exists l,
    commits_for_day base count = Ok l /\
    length l = Z.to_nat count /\
    (forall i y, l !! i = Some y ->
       exists t, y = DateTime (ordinal base) (START_US + t) /\
         Z.abs (t * (count - 1) - Z.of_nat i * SPAN_US) < count - 1) /\
    (forall i ta tb,
       l !! i = Some (DateTime (ordinal base) (START_US + ta)) ->
       l !! S i = Some (DateTime (ordinal base) (START_US + tb)) ->
       ta <= tb).
Proof.
  intros Hbase [Hc0 Hc1].
  set (n1 := count - 1).
  assert (Hr : 1 <= n1 < 2 ^ (emax - 1)) by (unfold n1, emax; simpl; lia).
  destruct (steps_spec n1 Hr) as (d & steps & Hd & Hs & Hpos & Hdr & Hsr & Hlow).
  rewrite (commits_for_day_many base count d steps ltac:(lia) Hd Hs).
  destruct (mapM_result_Forall2 (timestamp_at steps (window_start base))
              (range count)) as (l & Hl & HF).
  { intros x Hx. apply range_elem in Hx.
    destruct (timestamp_at_spec n1 Hr d steps Hdr Hsr Hpos Hlow base Hbase x
                ltac:(lia)) as (t & Ht & _).
    eauto. }
  assert (Hat : forall i y, l !! i = Some y ->
            timestamp_at steps (window_start base) (Z.of_nat i) = Ok y /\
            (i < Z.to_nat count)%nat).
  { intros i y Hy.
    destruct (Forall2_lookup_r _ _ _ _ _ HF Hy) as (x & Hx & Hfx).
    apply range_lookup in Hx as [-> Hi]. auto. }
  exists l. split; [assumption|]. split; [|split].
  - rewrite <- (Forall2_length _ _ _ HF). apply range_length.
  - intros i y Hy. destruct (Hat i y Hy) as [Hfx Hi].
    destruct (timestamp_at_spec n1 Hr d steps Hdr Hsr Hpos Hlow base Hbase
                (Z.of_nat i) ltac:(lia)) as (t & Ht & Hb).
    exists t. rewrite Ht in Hfx. injection Hfx as <-. auto.
  - intros i ta tb Ha Hb.
    destruct (Hat _ _ Ha) as [Hfa Hia]. destruct (Hat _ _ Hb) as [Hfb Hib].
    apply (timestamp_at_mono n1 Hr d steps Hdr Hsr Hpos Hlow base Hbase
             (Z.of_nat i) (Z.of_nat (S i))); try assumption; lia.
Qed.


(** C1 (amended): for every calendar day and every [count] from 0 to 2^1023,
    [commits_for_day] returns [count] timestamps: none for 0, the window
    start 08:00:00.000000 alone for 1, and for [count >= 2] a non-decreasing
    sequence from 08:00:00.000000 to 23:59:59.999999 of that day whose
    [i]-th timestamp is less than one microsecond away from
    [start + i * span / (count - 1)], so that every gap between neighbours is
    within two microseconds of [span / (count - 1)]. *)
Theorem commits_for_day_interpolates (base : datetime) (count : Z) :
  1 <= ordinal base <= Calendar.MAXORDINAL ->
  0 <= count <= 2 ^ 1023 ->
  exists l,
    commits_for_day base count = Ok l /\
    Z.of_nat (length l) = count /\
    (count = 0 -> l = []) /\
    (count = 1 -> l = [window_start base]) /\
    (2 <= count ->
       head l = Some (window_start base) /\
       last l = Some (window_end base) /\
       (forall i a b, l !! i = Some a -> l !! S i = Some b ->
          datetime_leb a b = true /\
          Z.abs (datetime_sub b a * (count - 1) - SPAN_US) < 2 * (count - 1)) /\
       (forall i t, l !! i = Some t ->
          ordinal t = ordinal base /\
          Z.abs (datetime_sub t (window_start base) * (count - 1)
                 - Z.of_nat i * SPAN_US) < count - 1)).
Proof.
  intros Hbase [Hc0 Hc1].
  destruct (Z_le_gt_dec count 1) as [Hsmall|Hmany].
  { eexists. split; [apply commits_for_day_small; assumption|].
    destruct (Z.eqb_spec count 0) as [->|Hne].
    - repeat split; try reflexivity; lia.
    - assert (count = 1) as -> by lia. repeat split; try reflexivity; lia. }
  destruct (commits_for_day_offsets base count Hbase ltac:(lia))
    as (l & Hl & Hlen & Helem & Hmono).
  exists l. split; [assumption|]. split; [lia|].
  split; [lia|]. split; [lia|]. intros _.
  split; [|split; [|split]].
  - rewrite head_lookup.
    destruct (lookup_lt_is_Some_2 l 0%nat ltac:(lia)) as (y & Hy).
    rewrite Hy. destruct (Helem _ _ Hy) as (t & -> & Hb).
    assert (t = 0) by (unfold SPAN_US in Hb; nia). subst t. reflexivity.
  - rewrite last_lookup.
    destruct (lookup_lt_is_Some_2 l (pred (length l)) ltac:(lia)) as (y & Hy).
    rewrite Hy. destruct (Helem _ _ Hy) as (t & -> & Hb).
    rewrite Hlen in Hb.
    replace (Z.of_nat (pred (Z.to_nat count))) with (count - 1) in Hb by lia.
    assert (t = SPAN_US) by nia. subst t. reflexivity.
  - intros i a b Ha Hb.
    destruct (Helem _ _ Ha) as (ta & -> & Hba).
    destruct (Helem _ _ Hb) as (tb & -> & Hbb).
    pose proof (Hmono _ _ _ Ha Hb) as Hle.
    unfold datetime_leb, datetime_sub. cbn [ordinal usec].
    rewrite Z.sub_diag, Z.eqb_refl. split.
    + destruct (Z.leb_spec (START_US + ta) (START_US + tb)); [|lia].
      apply orb_true_r.
    + rewrite Nat2Z.inj_succ in Hbb. lia.
  - intros i t Ht. destruct (Helem _ _ Ht) as (tt & -> & Hb).
    split; [reflexivity|].
    unfold datetime_sub, window_start, replace_time. cbn [ordinal usec].
    change (time_usec 8 0 0 0) with START_US. rewrite Z.sub_diag.
    replace (0 * US_PER_DAY + (START_US + tt - START_US)) with tt by lia.
    assumption.
Qed.

(** C10: a negative count is treated like a count of one: the result is the
    window start, 08:00:00.000000 of that day, alone. *)
Theorem commits_for_day_negative (base : datetime) (count : Z) :
  count < 0 -> commits_for_day base count = Ok [replace_time base 8 0 0 0].
Proof.
  intros Hc. rewrite commits_for_day_small by lia.
  destruct (Z.eqb_spec count 0); [lia|reflexivity].
Qed.

End Generator.

(** ** The driver *)

Lemma effects_app a b : effects (a ++ b) = effects a ++ effects b.
Proof. apply List.filter_app. Qed.

Lemma commit_calls_app a b : commit_calls (a ++ b) = commit_calls a ++ commit_calls b.
Proof.
  induction a as [|ev a IH]; [reflexivity|].
  destruct ev; cbn [app commit_calls]; rewrite ?IH; reflexivity.
Qed.

Lemma printed_app a b : printed (a ++ b) = printed a ++ printed b.
Proof.
  induction a as [|ev a IH]; [reflexivity|].
  destruct ev; cbn [app printed]; rewrite ?IH; reflexivity.
Qed.

Lemma string_app_assoc (a b c : string) : (a +:+ b) +:+ c = a +:+ (b +:+ c).
Proof.
  induction a as [|ch a IH]; [reflexivity|].
  change (String ch ((a +:+ b) +:+ c) = String ch (a +:+ (b +:+ c))).
  f_equal. exact IH.
Qed.

Lemma string_app_nil_r (a : string) : a +:+ "" = a.
Proof.
  induction a as [|ch a IH]; [reflexivity|].
  change (String ch (a +:+ "") = String ch a). f_equal. exact IH.
Qed.

(** *** Line ends *)

Lemma no_cr_app (a b : string) : no_cr (a +:+ b) = no_cr a && no_cr b.
Proof.
  induction a as [|c a IH]; [reflexivity|].
  change (no_cr (String c (a +:+ b)) = no_cr (String c a) && no_cr b).
  cbn [no_cr]. rewrite IH, andb_assoc. reflexivity.
Qed.

Lemma universal_newlines_no_cr (s : string) :
  no_cr (universal_newlines s) = true.
Proof.
  cut (no_cr (universal_newlines s) = true /\
       forall c, no_cr (universal_newlines (String c s)) = true).
  { intros [H _]. exact H. }
  induction s as [|a s [IH1 IH2]].
  - split; [reflexivity|]. intros c. cbn [universal_newlines].
    destruct (Ascii.eqb c CR) eqn:Hc; [reflexivity|].
    cbn [no_cr]. rewrite Hc. reflexivity.
  - split; [apply IH2|]. intros c.
    change (universal_newlines (String c (String a s)))
      with (if Ascii.eqb c CR
            then if Ascii.eqb a LF then String LF (universal_newlines s)
                 else String LF (universal_newlines (String a s))
            else String c (universal_newlines (String a s))).
    destruct (Ascii.eqb c CR) eqn:Hc.
    + destruct (Ascii.eqb a LF); cbn [no_cr]; [apply IH1|apply IH2].
    + cbn [no_cr]. rewrite Hc. apply IH2.
Qed.

Lemma universal_newlines_id (s : string) :
  no_cr s = true -> universal_newlines s = s.
Proof.
  induction s as [|c s IH]; [reflexivity|].
  cbn [no_cr]. intros H. apply andb_true_iff in H as [Hc Hs].
  apply negb_true_iff in Hc.
  change (universal_newlines (String c s))
    with (if Ascii.eqb c CR
          then match s with
               | String c' rest' =>
                   if Ascii.eqb c' LF then String LF (universal_newlines rest')
                   else String LF (universal_newlines s)
               | EmptyString => String LF EmptyString
               end
          else String c (universal_newlines s)).
  rewrite Hc, (IH Hs). reflexivity.
Qed.

Lemma no_cr_pretty_N_go (x : N) : forall s,
  no_cr s = true -> no_cr (pretty_N_go x s) = true.
Proof.
  induction (N.lt_wf_0 x) as [x _ IH]. intros s Hs.
  destruct (N.eq_dec x 0%N) as [->|Hx]; [rewrite pretty_N_go_0; exact Hs|].
  rewrite pretty_N_go_step by lia.
  apply IH; [apply N.div_lt; lia|].
  cbn [no_cr]. rewrite Hs, andb_true_r.
  unfold pretty_N_char. repeat case_match; reflexivity.
Qed.

Lemma no_cr_pretty (z : Z) : no_cr (pretty z) = true.
Proof.
  assert (Hpos : forall p : positive, no_cr (pretty p) = true).
  { intros p. unfold pretty, pretty_positive, pretty, pretty_N.
    destruct (decide (N.pos p = 0%N)); [reflexivity|].
    apply no_cr_pretty_N_go. reflexivity. }
  destruct z as [|p|p]; [reflexivity|apply Hpos|].
  change (pretty (Z.neg p)) with ("-" +:+ pretty p).
  rewrite no_cr_app, Hpos. reflexivity.
Qed.

Lemma no_cr_zfill (width : nat) (z : Z) : no_cr (zfill width z) = true.
Proof.
  unfold zfill. rewrite no_cr_app, no_cr_pretty, andb_true_r.
  induction (width - String.length (pretty z))%nat as [|n IH]; [reflexivity|].
  exact IH.
Qed.

Lemma no_cr_strftime_seconds (t : datetime) : no_cr (strftime_seconds t) = true.
Proof.
  unfold strftime_seconds, strftime_minutes.
  rewrite !no_cr_app, !no_cr_zfill, no_cr_pretty. reflexivity.
Qed.

Lemma no_cr_log_line (t : datetime) (i : Z) : no_cr (log_line t i) = true.
Proof.
  unfold log_line.
  rewrite !no_cr_app, no_cr_strftime_seconds, no_cr_pretty. reflexivity.
Qed.

Lemma no_cr_log_lines (calls : list planned) : no_cr (log_lines calls) = true.
Proof.
  induction calls as [|p ps IH]; [reflexivity|].
  cbn [log_lines foldr]. fold (log_lines ps).
  rewrite no_cr_app, no_cr_log_line, IH. reflexivity.
Qed.

(** Text that was read, with lines of the program after it, reads back as
    itself. *)
Lemma read_text_lines (stored lines : string) :
  no_cr lines = true ->
  read_text (read_text stored +:+ lines) = read_text stored +:+ lines.
Proof.
  intros H. unfold read_text. apply universal_newlines_id.
  rewrite no_cr_app, universal_newlines_no_cr, H. reflexivity.
Qed.

Lemma read_text_log_after (stored : string) (calls : list planned) :
  read_text (log_after stored calls) = read_text stored +:+ log_lines calls.
Proof.
  destruct calls as [|p ps].
  - cbn [log_after log_lines foldr]. rewrite string_app_nil_r. reflexivity.
  - unfold log_after. apply read_text_lines, no_cr_log_lines.
Qed.

Lemma log_after_cons (stored : string) (p : planned) (ps : list planned) :
  log_after stored (p :: ps)
  = log_after (read_text stored +:+ log_line (p_time p) (p_index p)) ps.
Proof.
  destruct ps as [|q ps].
  - cbn [log_after log_lines foldr]. rewrite string_app_nil_r. reflexivity.
  - unfold log_after. rewrite read_text_lines by apply no_cr_log_line.
    cbn [log_lines foldr]. rewrite !string_app_assoc. reflexivity.
Qed.

Section CommitLoop.

Context {rng_state : Type}.
Variable rng_seed : Z -> rng_state.
Variable rng_randbelow : rng_state -> Z -> Z * rng_state.
Variable git : list string -> option (gmap string string) -> World rng_state
               -> CompletedProcess.

Lemma same_setting_refl (w : World rng_state) : same_setting w w.
Proof. repeat split. Qed.

Lemma same_setting_trans (w1 w2 w3 : World rng_state) :
  same_setting w1 w2 -> same_setting w2 w3 -> same_setting w1 w3.
Proof. unfold same_setting. intuition congruence. Qed.

Lemma make_commit_spec t msg dp i w :
  let content := log_text w dp in
  exists b w' evs,
    make_commit git t msg dp i w = (Ok b, w') /\
    same_setting w w' /\ rng w' = rng w /\
    files w' = <[dp := content +:+ log_line t i]> (files w) /\
    trace w' = trace w ++ evs /\
    effects evs = commit_events (environ w) dp content [Planned t msg i].
Proof.
  intros content. unfold make_commit.
  cbv [mbind prog_bind emit get write_text run_git mret prog_ret].
  cbn [files log_event]. fold (log_text w dp). fold content.
  match goal with |- context [returncode ?r =? 0] =>
    destruct (returncode r =? 0) eqn:Hrc end; cbn [negb].
  - eexists _, _, _. split; [reflexivity|].
    split; [repeat split|]. split; [reflexivity|]. split; [reflexivity|].
    cbn [trace log_event set_file]. split.
    + rewrite <- !app_assoc. reflexivity.
    + reflexivity.
  - cbv [mbind prog_bind print_err emit].
    eexists _, _, _. split; [reflexivity|].
    split; [repeat split|]. split; [reflexivity|]. split; [reflexivity|].
    cbn [trace log_event set_file]. split.
    + rewrite <- !app_assoc. reflexivity.
    + reflexivity.
Qed.

Lemma bind_ok {A B} (m : prog rng_state A) (f : A -> prog rng_state B) w a w1 :
  m w = (Ok a, w1) -> (m ≫= f) w = f a w1.
Proof. intros H. cbv [mbind prog_bind]. rewrite H. reflexivity. Qed.

Lemma bind_raise {A B} (m : prog rng_state A) (f : A -> prog rng_state B) w e w1 :
  m w = (Raise e, w1) -> (m ≫= f) w = (Raise e, w1).
Proof. intros H. cbv [mbind prog_bind]. rewrite H. reflexivity. Qed.

Lemma commit_loop_spec dp times : forall c w stored,
  files w !! dp = Some stored ->
  let p := plan_times rng_randbelow (rng w) c times in
  exists w' evs,
    for_each (commit_body rng_randbelow git dp) times c w
    = (Ok (c + Z.of_nat (length times)), w') /\
    same_setting w w' /\ rng w' = p.2 /\
    files w' = <[dp := log_after stored p.1]> (files w) /\
    trace w' = trace w ++ evs /\
    effects evs = commit_events (environ w) dp (read_text stored) p.1.
Proof.
  induction times as [|t ts IH]; intros c w stored Hfile p.
  - exists w, []. cbn [for_each length]. unfold p. cbn [plan_times fst snd log_after].
    rewrite Z.add_0_r, insert_id by assumption.
    rewrite app_nil_r. repeat split.
  - set (kg := rng_randbelow (rng w) (Z.of_nat (length messages))).
    set (phrase := default EmptyString (messages !! Z.to_nat kg.1)).
    set (w0 := set_rng kg.2 w).
    destruct (make_commit_spec t (commit_message phrase t) dp (c + 1) w0)
      as (b & w1 & evs1 & Hmc & Hs1 & Hr1 & Hf1 & Ht1 & He1).
    assert (Hc0 : log_text w0 dp = read_text stored)
      by (unfold log_text; cbn [files set_rng w0]; rewrite Hfile; reflexivity).
    rewrite Hc0 in Hf1, He1.
    destruct (IH (c + 1) w1 (read_text stored +:+ log_line t (c + 1)))
      as (w' & evs2 & Hloop & Hs2 & Hr2 & Hf2 & Ht2 & He2).
    { rewrite Hf1. apply lookup_insert_eq. }
    exists w', (evs1 ++ evs2).
    assert (Henv : environ w1 = environ w) by apply Hs1.
    assert (Hp : p = (Planned t (commit_message phrase t) (c + 1)
                      :: (plan_times rng_randbelow kg.2 (c + 1) ts).1,
                      (plan_times rng_randbelow kg.2 (c + 1) ts).2))
      by reflexivity.
    rewrite Hr1 in Hr2, Hf2, He2. cbn [rng set_rng w0] in Hr2, Hf2, He2.
    split; [|split; [|split; [|split; [|split]]]].
    + assert (Hbody : commit_body rng_randbelow git dp t c w = (Ok (c + 1), w1)).
      { unfold commit_body.
        rewrite (bind_ok _ _ w phrase w0) by reflexivity.
        cbv zeta. fold (commit_message phrase t).
        rewrite (bind_ok _ _ w0 b w1) by exact Hmc. reflexivity. }
      change (for_each (commit_body rng_randbelow git dp) (t :: ts) c w)
        with ((commit_body rng_randbelow git dp t c ≫= for_each (commit_body rng_randbelow git dp) ts) w).
      rewrite (bind_ok _ _ w (c + 1) w1) by exact Hbody.
      rewrite Hloop. f_equal. f_equal. cbn [length]. lia.
    + eapply same_setting_trans; [|exact Hs2].
      eapply same_setting_trans; [|exact Hs1]. repeat split.
    + rewrite Hr2, Hp. reflexivity.
    + rewrite Hf2, Hf1, Hp. cbn [fst files set_rng w0].
      rewrite insert_insert_eq, log_after_cons. reflexivity.
    + rewrite Ht2, Ht1. cbn [trace set_rng w0]. rewrite app_assoc. reflexivity.
    + rewrite effects_app, He1, He2, Henv, Hp.
      rewrite read_text_lines by apply no_cr_log_line.
      cbn [environ set_rng w0 fst commit_events p_time p_index p_message app].
      reflexivity.
Qed.

End CommitLoop.

Lemma log_lines_app a b : log_lines (a ++ b) = log_lines a +:+ log_lines b.
Proof.
  induction a as [|p a IH]; [reflexivity|].
  cbn [app log_lines foldr]. fold (log_lines (a ++ b)) (log_lines a).
  rewrite IH, string_app_assoc. reflexivity.
Qed.

Lemma log_after_app (stored : string) (a b : list planned) :
  log_after stored (a ++ b) = log_after (log_after stored a) b.
Proof.
  destruct a as [|p a]; [reflexivity|].
  destruct b as [|q b]; [rewrite app_nil_r; reflexivity|].
  transitivity (read_text stored +:+ log_lines ((p :: a) ++ q :: b));
    [reflexivity|].
  transitivity (read_text (log_after stored (p :: a)) +:+ log_lines (q :: b));
    [|reflexivity].
  rewrite read_text_log_after, log_lines_app, string_app_assoc. reflexivity.
Qed.

Lemma log_after_no_cr (stored : string) (calls : list planned) :
  no_cr stored = true -> log_after stored calls = stored +:+ log_lines calls.
Proof.
  intros H. destruct calls as [|p ps].
  - cbn [log_after log_lines foldr]. rewrite string_app_nil_r. reflexivity.
  - unfold log_after, read_text. rewrite universal_newlines_id by exact H.
    reflexivity.
Qed.

Lemma log_after_twice (stored : string) (calls : list planned) :
  log_after (log_after stored calls) calls
  = log_after stored calls +:+ log_lines calls.
Proof.
  destruct calls as [|p ps].
  - cbn [log_after log_lines foldr]. rewrite string_app_nil_r. reflexivity.
  - transitivity (read_text (log_after stored (p :: ps)) +:+ log_lines (p :: ps));
      [reflexivity|].
    rewrite read_text_log_after. reflexivity.
Qed.

Lemma commit_events_app env dp content a b :
  commit_events env dp content (a ++ b)
  = commit_events env dp content a
    ++ commit_events env dp (content +:+ log_lines a) b.
Proof.
  revert content. induction a as [|p a IH]; intros content.
  - cbn [app commit_events log_lines foldr]. rewrite string_app_nil_r. reflexivity.
  - cbn [app commit_events log_lines foldr]. fold (log_lines a).
    rewrite IH, string_app_assoc. reflexivity.
Qed.

Section DayLoop.

Context {rng_state : Type}.
Variable rng_seed : Z -> rng_state.
Variable rng_randbelow : rng_state -> Z -> Z * rng_state.
Variable git : list string -> option (gmap string string) -> World rng_state
               -> CompletedProcess.

Lemma day_loop_spec dp sd cpd offsets : forall dc c w stored,
  files w !! dp = Some stored ->
  let p := plan_offsets rng_randbelow sd cpd (rng w) c offsets in
  exists w' evs,
    for_each (day_body rng_randbelow git dp sd cpd) offsets (dc, c) w
    = (loop_result dc (length offsets) p.2, w') /\
    same_setting w w' /\
    (forall g c', p.2 = Ok (g, c') -> rng w' = g) /\
    files w' = <[dp := log_after stored p.1]> (files w) /\
    trace w' = trace w ++ evs /\
    effects evs = commit_events (environ w) dp (read_text stored) p.1.
Proof.
  induction offsets as [|o os IH]; intros dc c w stored Hfile p.
  - exists w, []. unfold p. cbn [for_each plan_offsets fst snd loop_result length].
    cbn [log_after commit_events].
    rewrite Z.add_0_r, insert_id, app_nil_r by assumption.
    repeat split. intros g c' [= <- <-]. reflexivity.
  - change (for_each (day_body rng_randbelow git dp sd cpd) (o :: os) (dc, c) w)
      with ((day_body rng_randbelow git dp sd cpd o (dc, c) ≫= for_each (day_body rng_randbelow git dp sd cpd) os) w).
    unfold p. cbn [plan_offsets]. unfold day_times.
    destruct (Calendar.date_add_days sd o) as [base|e] eqn:Hbase.
    2:{ exists w, []. cbn [mbind result_bind fst snd loop_result log_after commit_events].
        rewrite insert_id, app_nil_r by assumption.
        split; [|repeat split; discriminate].
        apply bind_raise. unfold day_body.
        apply bind_raise. unfold lift. rewrite Hbase. reflexivity. }
    cbn [mbind result_bind].
    destruct (commits_for_day (midnight base) cpd) as [times|e] eqn:Htimes.
    2:{ exists w, []. cbn [fst snd loop_result log_after commit_events].
        rewrite insert_id, app_nil_r by assumption.
        split; [|repeat split; discriminate].
        apply bind_raise. unfold day_body.
        rewrite (bind_ok _ _ w base w) by (unfold lift; rewrite Hbase; reflexivity).
        cbv zeta. apply bind_raise. unfold lift. rewrite Htimes. reflexivity. }
    destruct (commit_loop_spec rng_randbelow git dp times c w stored Hfile)
      as (w1 & evs1 & Hloop & Hs1 & Hr1 & Hf1 & Ht1 & He1).
    set (today := plan_times rng_randbelow (rng w) c times) in *.
    set (c1 := c + Z.of_nat (length times)) in *.
    set (line := "  " +:+ pretty (dc + 1) +:+ " days, "
                 +:+ pretty c1 +:+ " commits...").
    set (w2 := if (dc + 1) mod 100 =? 0 then log_event (PrintOut line) w1 else w1).
    assert (Hbody : day_body rng_randbelow git dp sd cpd o (dc, c) w = (Ok (dc + 1, c1), w2)).
    { unfold day_body.
      rewrite (bind_ok _ _ w base w) by (unfold lift; rewrite Hbase; reflexivity).
      cbv zeta.
      rewrite (bind_ok _ _ w times w) by (unfold lift; rewrite Htimes; reflexivity).
      rewrite (bind_ok _ _ w c1 w1) by exact Hloop.
      fold line. unfold w2.
      destruct ((dc + 1) mod 100 =? 0); reflexivity. }
    assert (Hw2 : same_setting w1 w2 /\ rng w2 = rng w1 /\ files w2 = files w1
                  /\ exists evs, trace w2 = trace w1 ++ evs /\ effects evs = []).
    { unfold w2. destruct ((dc + 1) mod 100 =? 0).
      - split; [repeat split|]. split; [reflexivity|]. split; [reflexivity|].
        exists [PrintOut line]. split; reflexivity.
      - split; [repeat split|]. split; [reflexivity|]. split; [reflexivity|].
        exists []. rewrite app_nil_r. split; reflexivity. }
    destruct Hw2 as (Hs2 & Hr2 & Hf2 & evs2 & Ht2 & He2).
    destruct (IH (dc + 1) c1 w2 (log_after stored today.1))
      as (w' & evs3 & Hrest & Hs3 & Hr3 & Hf3 & Ht3 & He3).
    { rewrite Hf2, Hf1. apply lookup_insert_eq. }
    rewrite Hr2, Hr1 in Hrest, Hr3, Hf3, He3.
    set (rest := plan_offsets rng_randbelow sd cpd today.2 c1 os) in *.
    exists w', (evs1 ++ evs2 ++ evs3).
    cbn [fst snd].
    split; [|split; [|split; [|split; [|split]]]].
    + rewrite (bind_ok _ _ w (dc + 1, c1) w2) by exact Hbody.
      rewrite Hrest. f_equal. unfold loop_result.
      destruct (rest.2) as [[g c']|e]; [|reflexivity].
      f_equal. f_equal. cbn [length]. lia.
    + eapply same_setting_trans; [|exact Hs3].
      eapply same_setting_trans; [exact Hs1|exact Hs2].
    + exact Hr3.
    + rewrite Hf3, Hf2, Hf1, insert_insert_eq, log_after_app.
      reflexivity.
    + rewrite Ht3, Ht2, Ht1, <- !app_assoc. reflexivity.
    + rewrite !effects_app, He1, He2, He3, commit_events_app, read_text_log_after.
      assert (Henv : environ w2 = environ w).
      { destruct Hs1 as (_ & _ & _ & E1 & _). destruct Hs2 as (_ & _ & _ & E2 & _).
        congruence. }
      rewrite Henv. reflexivity.
Qed.

End DayLoop.


Section MainParts.

Context {rng_state : Type}.
Variable rng_seed : Z -> rng_state.
Variable rng_randbelow : rng_state -> Z -> Z * rng_state.
Variable git : list string -> option (gmap string string) -> World rng_state
               -> CompletedProcess.

Lemma main_eq args :
  main rng_seed rng_randbelow git args
  = (dir ← get is_dir;
     if negb dir then
       path ← get cwd;
       print_err ("Error: directory does not exist: " +:+ path);;
       mret 1
     else
       d ← bootstrap git args;
       if (d : bool) then print_err DIRTY_MESSAGE;; mret 1
       else backfill rng_seed rng_randbelow git args).
Proof. reflexivity. Qed.

End MainParts.

Section Backfill.

Context {rng_state : Type}.
Variable rng_seed : Z -> rng_state.
Variable rng_randbelow : rng_state -> Z -> Z * rng_state.
Variable git : list string -> option (gmap string string) -> World rng_state
               -> CompletedProcess.

Local Abbreviation main := (main rng_seed rng_randbelow git).
Local Abbreviation bootstrap := (bootstrap git).
Local Abbreviation backfill := (backfill rng_seed rng_randbelow git).
Local Abbreviation plan := (plan rng_seed rng_randbelow).
Local Abbreviation dirty := (dirty git).

Lemma init_repo_spec w :
  exists w',
    init_repo git w = (Ok tt, w') /\ same_setting w w' /\ rng w' = rng w /\
    files w' = init_files w /\ trace w' = trace w ++ init_events w.
Proof.
  unfold init_repo, init_events, init_files, has_file.
  cbv [mbind prog_bind run_git exists_file get write_text mret prog_ret].
  cbn [files log_event].
  destruct (bool_decide (is_Some (files w !! "README.md"))); cbn [negb].
  - eexists. split; [reflexivity|]. repeat split.
  - eexists. split; [reflexivity|]. repeat split.
    cbn [trace log_event set_file]. rewrite <- !app_assoc. reflexivity.
Qed.

Lemma bootstrap_spec args w :
  dry_run args = false ->
  exists w',
    bootstrap args w = (Ok (git_dir w && dirty w), w') /\
    same_setting w w' /\ rng w' = rng w /\ files w' = setup_files w /\
    trace w' = trace w ++ (if git_dir w then [Git STATUS None] else init_events w).
Proof.
  intros Hdry. unfold bootstrap, setup_files. rewrite Hdry. cbn [negb].
  rewrite (bind_ok _ _ w (git_dir w) w) by reflexivity.
  destruct (git_dir w) eqn:Hg; cbn [negb andb].
  - eexists. split; [reflexivity|]. repeat split.
  - destruct (init_repo_spec w) as (w' & Hi & Hs & Hr & Hf & Ht).
    exists w'. rewrite (bind_ok _ _ w tt w') by exact Hi.
    repeat split; try assumption; apply Hs.
Qed.

Lemma bootstrap_dry args w :
  dry_run args = true -> bootstrap args w = (Ok false, w).
Proof. intros Hdry. unfold bootstrap. rewrite Hdry. reflexivity. Qed.

Lemma has_file_lookup (w : World rng_state) name :
  has_file w name = false -> files w !! name = None.
Proof.
  unfold has_file. intros H. apply bool_decide_eq_false in H.
  destruct (files w !! name); [exfalso; apply H; eauto|reflexivity].
Qed.

Lemma has_file_default (w : World rng_state) name :
  has_file w name = true ->
  files w !! name = Some (default EmptyString (files w !! name)).
Proof.
  unfold has_file. intros H. apply bool_decide_eq_true in H.
  destruct H as [c Hc]. rewrite Hc. reflexivity.
Qed.

(** A non-dry run past the pre-flight checks carries out the plan. *)
Lemma backfill_spec args w :
  dry_run args = false ->
  let dp := "history.txt" in
  let content := default EmptyString (files w !! dp) in
  let p := plan args (ordinal (now w)) in
  exists w' evs,
    backfill args w = (run_result p.2, w') /\ same_setting w w' /\
    trace w' = trace w
               ++ (if has_file w dp then [] else [WriteText dp EmptyString])
               ++ evs /\
    effects evs = commit_events (environ w) dp (read_text content) p.1 /\
    files w' = <[dp := log_after content p.1]> (files w) /\
    (forall sd, Calendar.date (start_year args) 1 1 = Ok sd ->
       exists rest,
         evs = PrintOut (planned_line args
                           (total_days args (ordinal (now w)) sd)) :: rest).
Proof.
  intros Hdry dp content p.
  set (w1 := if has_file w dp then w
             else log_event (WriteText dp EmptyString)
                    (set_file dp EmptyString w)).
  assert (Hw1 : same_setting w w1 /\ rng w1 = rng w /\
                files w1 !! dp = Some content /\
                <[dp := content]> (files w) = files w1 /\
                trace w1 = trace w ++ (if has_file w dp then []
                                       else [WriteText dp EmptyString])).
  { unfold w1. destruct (has_file w dp) eqn:Hh.
    - split; [repeat split|]. split; [reflexivity|].
      pose proof (has_file_default w dp Hh) as Hl. fold content in Hl.
      split; [assumption|]. split; [apply insert_id; assumption|].
      rewrite app_nil_r. reflexivity.
    - pose proof (has_file_lookup w dp Hh) as Hl.
      assert (content = EmptyString) as -> by (unfold content; rewrite Hl; reflexivity).
      split; [repeat split|]. split; [reflexivity|].
      cbn [files log_event set_file]. split; [apply lookup_insert_eq|].
      split; reflexivity. }
  destruct Hw1 as (Hs1 & Hr1 & Hl1 & Hf1 & Ht1).
  assert (Hstart :
            backfill args w
            = (start_date ← lift (Calendar.date (start_year args) 1 1);
               (let total_days := total_days args (ordinal (now w)) start_date in
                random_seed rng_seed (seed args);;
                print (planned_line args total_days);;
                '(day_count, commit_count) ←
                  for_each (day_body rng_randbelow git dp start_date
                              (commits_per_day args))
                           (range total_days) (0, 0);
                print ("Done. " +:+ pretty day_count +:+ " days, "
                       +:+ pretty commit_count +:+ " commits.");;
                mret 0)) w1).
  { unfold backfill. rewrite Hdry.
    rewrite (bind_ok _ _ w (has_file w dp) w) by reflexivity.
    cbn [negb andb]. rewrite andb_true_r.
    rewrite (bind_ok _ _ w tt w1)
      by (unfold w1; destruct (has_file w dp); reflexivity).
    rewrite (bind_ok _ _ w1 (ordinal (now w)) w1).
    2:{ unfold get. f_equal. f_equal. destruct Hs1 as (_ & _ & _ & _ & ->).
        reflexivity. }
    reflexivity. }
  rewrite Hstart. clear Hstart.
  unfold p, plan.
  destruct (Calendar.date (start_year args) 1 1) as [sd|e] eqn:Hdate.
  2:{ exists w1, []. cbn [fst snd run_result log_after commit_events].
      rewrite app_nil_r, Hf1.
      split; [apply bind_raise; reflexivity|].
      repeat split; try apply Hs1; try assumption. discriminate. }
  rewrite (bind_ok _ _ w1 sd w1) by reflexivity. cbv zeta.
  set (total := total_days args (ordinal (now w)) sd).
  set (w2 := set_rng (rng_seed (seed args)) w1).
  set (w3 := log_event (PrintOut (planned_line args total)) w2).
  rewrite (bind_ok _ _ w1 tt w2) by reflexivity.
  rewrite (bind_ok _ _ w2 tt w3) by reflexivity.
  destruct (day_loop_spec rng_randbelow git dp sd (commits_per_day args)
              (range total) 0 0 w3 content)
    as (w4 & evs & Hloop & Hs4 & _ & Hf4 & Ht4 & He4).
  { exact Hl1. }
  cbn [rng log_event set_rng w3 w2] in Hloop, Hf4, He4.
  set (q := plan_offsets rng_randbelow sd (commits_per_day args)
              (rng_seed (seed args)) 0 (range total)) in *.
  cbn [fst snd].
  assert (Henv : environ w3 = environ w) by apply Hs1.
  rewrite Henv in He4.
  assert (Hfiles : files w3 = files w1) by reflexivity.
  rewrite Hfiles, <- Hf1, insert_insert_eq in Hf4.
  assert (Htr : trace w3 = trace w1 ++ [PrintOut (planned_line args total)])
    by reflexivity.
  destruct (q.2) as [[g c]|e] eqn:Hq.
  - rewrite (bind_ok _ _ w3 (0 + Z.of_nat (length (range total)), c) w4)
      by exact Hloop.
    set (done := PrintOut ("Done. " +:+ pretty (0 + Z.of_nat (length (range total)))
                           +:+ " days, " +:+ pretty c +:+ " commits.")).
    exists (log_event done w4), (PrintOut (planned_line args total) :: evs ++ [done]).
    split; [reflexivity|]. split.
    { eapply same_setting_trans; [exact Hs1|].
      eapply same_setting_trans; [|split; [|split; [|split; [|split]]]; reflexivity].
      eapply same_setting_trans; [|exact Hs4]. repeat split. }
    split.
    { cbn [trace log_event]. rewrite Ht4, Htr, Ht1, <- !app_assoc. reflexivity. }
    split.
    { change (PrintOut (planned_line args total) :: evs ++ [done])
        with ([PrintOut (planned_line args total)] ++ evs ++ [done]).
      rewrite !effects_app, He4. cbn [effects List.filter is_print negb app].
      rewrite app_nil_r. reflexivity. }
    split; [exact Hf4|].
    intros sd' [= <-]. eauto.
  - rewrite (bind_raise _ _ w3 e w4) by exact Hloop.
    exists w4, (PrintOut (planned_line args total) :: evs).
    split; [reflexivity|]. split.
    { eapply same_setting_trans; [exact Hs1|].
      eapply same_setting_trans; [|exact Hs4]. repeat split. }
    split.
    { rewrite Ht4, Htr, Ht1, <- !app_assoc. reflexivity. }
    split.
    { change (PrintOut (planned_line args total) :: evs)
        with ([PrintOut (planned_line args total)] ++ evs).
      rewrite !effects_app, He4. reflexivity. }
    split; [exact Hf4|].
    intros sd' [= <-]. eauto.
Qed.

End Backfill.

Lemma commit_calls_effects evs : commit_calls (effects evs) = commit_calls evs.
Proof.
  induction evs as [|ev evs IH]; [reflexivity|].
  destruct ev; cbn [effects List.filter is_print negb commit_calls];
    fold (effects evs); rewrite ?IH; reflexivity.
Qed.

Lemma commit_calls_commit_events env dp content calls :
  commit_calls (commit_events env dp content calls) = calls.
Proof.
  revert content. induction calls as [|[t m i] calls IH]; intros content;
    [reflexivity|].
  cbn [commit_events p_time p_message p_index app commit_calls].
  rewrite IH. reflexivity.
Qed.

Lemma effects_elem ev evs : ev ∈ evs -> is_print ev = false -> ev ∈ effects evs.
Proof.
  intros Hin Hp. unfold effects. apply list_elem_of_In, filter_In.
  split; [apply list_elem_of_In; exact Hin|]. rewrite Hp. reflexivity.
Qed.

Lemma commit_events_git env dp content calls : forall gargs e,
  Git gargs e ∈ commit_events env dp content calls ->
  (gargs = ["add"; dp] /\ e = None) \/
  (exists m, gargs = ["commit"; "-m"; m] /\ e <> None).
Proof.
  revert content. induction calls as [|p ps IH]; intros content gargs e Hin.
  - cbn in Hin. apply elem_of_nil in Hin. contradiction.
  - cbn [commit_events app] in Hin.
    apply elem_of_cons in Hin as [Hin|Hin]; [discriminate|].
    apply elem_of_cons in Hin as [Hin|Hin]; [discriminate|].
    apply elem_of_cons in Hin as [Hin|Hin].
    { injection Hin as -> ->. left. split; reflexivity. }
    apply elem_of_cons in Hin as [Hin|Hin].
    { injection Hin as -> ->. right. eexists. split; [reflexivity|discriminate]. }
    apply (IH _ _ _ Hin).
Qed.

Lemma commit_events_write env dp content calls : forall name text,
  WriteText name text ∈ commit_events env dp content calls -> name = dp.
Proof.
  revert content. induction calls as [|p ps IH]; intros content name text Hin.
  - cbn in Hin. apply elem_of_nil in Hin. contradiction.
  - cbn [commit_events app] in Hin.
    apply elem_of_cons in Hin as [Hin|Hin]; [discriminate|].
    apply elem_of_cons in Hin as [Hin|Hin].
    { injection Hin as -> _. reflexivity. }
    apply elem_of_cons in Hin as [Hin|Hin]; [discriminate|].
    apply elem_of_cons in Hin as [Hin|Hin]; [discriminate|].
    apply (IH _ _ _ Hin).
Qed.

Lemma range_forallb (P : Z -> bool) n :
  forallb P (range n) = true -> forall x, 0 <= x < n -> P x = true.
Proof.
  intros H x Hx. rewrite forallb_forall in H. apply H.
  apply list_elem_of_In. unfold range.
  apply list_elem_of_fmap. exists (Z.to_nat x). split; [lia|].
  apply elem_of_seq. lia.
Qed.

(** From the year 1000 on a year has four digits. *)
Lemma year_four_digits (y : Z) :
  1000 <= y <= 9999 -> String.length (pretty y) = 4%nat.
Proof.
  intros Hy.
  assert (Hall : forallb (fun y : Z =>
                            (y <? 1000)
                            || Nat.eqb (String.length (pretty y)) 4)
                         (range 10000) = true) by (vm_compute; reflexivity).
  pose proof (range_forallb _ _ Hall y ltac:(lia)) as H. cbn beta in H.
  apply orb_true_iff in H as [H|H].
  - apply Z.ltb_lt in H. lia.
  - apply Nat.eqb_eq in H. exact H.
Qed.

Section PlanFacts.

Context {rng_state : Type}.
Variable rng_seed : Z -> rng_state.
Variable rng_randbelow : rng_state -> Z -> Z * rng_state.

Lemma plan_times_length g c times :
  length (plan_times rng_randbelow g c times).1 = length times.
Proof.
  revert g c. induction times as [|t ts IH]; intros g c; [reflexivity|].
  cbn [plan_times fst length]. rewrite IH. reflexivity.
Qed.

Lemma plan_times_time g c times :
  p_time <$> (plan_times rng_randbelow g c times).1 = times.
Proof.
  revert g c. induction times as [|t ts IH]; intros g c; [reflexivity|].
  cbn [plan_times fst fmap list_fmap p_time]. f_equal. apply IH.
Qed.

Lemma plan_times_index g c times k p :
  (plan_times rng_randbelow g c times).1 !! k = Some p ->
  p_index p = c + Z.of_nat k + 1.
Proof.
  revert g c k. induction times as [|t ts IH]; intros g c k; [discriminate|].
  cbn [plan_times fst]. destruct k as [|k].
  - intros [= <-]. cbn [p_index]. lia.
  - cbn [lookup list_lookup]. intros H. apply IH in H. lia.
Qed.

Lemma plan_offsets_index sd cpd offsets : forall g c k p,
  (plan_offsets rng_randbelow sd cpd g c offsets).1 !! k = Some p ->
  p_index p = c + Z.of_nat k + 1.
Proof.
  induction offsets as [|o os IH]; intros g c k p; [discriminate|].
  cbn [plan_offsets]. destruct (day_times sd cpd o) as [times|e]; [|discriminate].
  cbn [fst]. intros H. apply lookup_app_Some in H as [H|[Hk H]].
  - eapply plan_times_index; eassumption.
  - apply IH in H. rewrite plan_times_length in *. lia.
Qed.

Lemma plan_index args today k p :
  (plan rng_seed rng_randbelow args today).1 !! k = Some p ->
  p_index p = Z.of_nat k + 1.
Proof.
  unfold plan. destruct (Calendar.date (start_year args) 1 1); [|discriminate].
  cbn [fst]. intros H. apply plan_offsets_index in H. lia.
Qed.

Hypothesis rng_randbelow_range : forall g n,
  0 < n -> 0 <= (rng_randbelow g n).1 < n.

Lemma plan_times_message g c times :
  Forall well_formed_message (plan_times rng_randbelow g c times).1.
Proof.
  revert g c. induction times as [|t ts IH]; intros g c; [constructor|].
  cbn [plan_times fst]. constructor; [|apply IH].
  set (k := (rng_randbelow g (Z.of_nat (length messages))).1).
  pose proof (rng_randbelow_range g (Z.of_nat (length messages))
                ltac:(cbn; lia)) as Hk. fold k in Hk.
  destruct (lookup_lt_is_Some_2 messages (Z.to_nat k) ltac:(lia)) as [ph Hph].
  exists ph. rewrite Hph. split; [|reflexivity].
  eapply list_elem_of_lookup_2; eassumption.
Qed.

Lemma plan_offsets_message sd cpd offsets : forall g c,
  Forall well_formed_message (plan_offsets rng_randbelow sd cpd g c offsets).1.
Proof.
  induction offsets as [|o os IH]; intros g c; [constructor|].
  cbn [plan_offsets]. destruct (day_times sd cpd o) as [times|e]; [|constructor].
  cbn [fst]. apply Forall_app. split; [apply plan_times_message|apply IH].
Qed.

Lemma plan_message args today :
  Forall well_formed_message (plan rng_seed rng_randbelow args today).1.
Proof.
  unfold plan. destruct (Calendar.date (start_year args) 1 1); [|constructor].
  apply plan_offsets_message.
Qed.

End PlanFacts.

Section MainCases.

Context {rng_state : Type}.
Variable rng_seed : Z -> rng_state.
Variable rng_randbelow : rng_state -> Z -> Z * rng_state.
Variable git : list string -> option (gmap string string) -> World rng_state
               -> CompletedProcess.

Local Abbreviation main := (main rng_seed rng_randbelow git).
Local Abbreviation run_events := (run_events rng_seed rng_randbelow git).
Local Abbreviation bootstrap := (bootstrap git).
Local Abbreviation backfill := (backfill rng_seed rng_randbelow git).
Local Abbreviation plan := (plan rng_seed rng_randbelow).
Local Abbreviation dirty := (dirty git).

Lemma run_events_intro args w evs :
  trace (main args w).2 = trace w ++ evs -> run_events args w = evs.
Proof. intros H. unfold run_events. rewrite H. apply drop_app_length. Qed.

Lemma main_missing args w :
  is_dir w = false ->
  main args w
  = (Ok 1, log_event (PrintErr ("Error: directory does not exist: " +:+ cwd w)) w).
Proof.
  intros H. rewrite main_eq.
  rewrite (bind_ok _ _ w (is_dir w) w) by reflexivity. rewrite H. reflexivity.
Qed.

Lemma main_dirty args w :
  dry_run args = false -> is_dir w = true -> git_dir w = true ->
  dirty w = true ->
  main args w
  = (Ok 1, log_event (PrintErr DIRTY_MESSAGE) (log_event (Git STATUS None) w)).
Proof.
  intros Hdry Hdir Hgit Hd. rewrite main_eq.
  rewrite (bind_ok _ _ w (is_dir w) w) by reflexivity. rewrite Hdir. cbn [negb].
  rewrite (bind_ok _ _ w true (log_event (Git STATUS None) w)); [reflexivity|].
  unfold bootstrap. rewrite Hdry. cbn [negb].
  rewrite (bind_ok _ _ w (git_dir w) w) by reflexivity.
  rewrite Hgit. cbn [negb]. unfold dirty, STATUS in Hd.
  cbv [mbind prog_bind run_git mret prog_ret]. rewrite Hd. reflexivity.
Qed.

Lemma main_dry args w :
  dry_run args = true -> is_dir w = true ->
  main args w
  = match Calendar.date (start_year args) 1 1 with
    | Ok sd =>
        (Ok 0,
         log_event (PrintOut DRY_RUN_MESSAGE)
           (log_event (PrintOut (planned_line args
                                   (total_days args (ordinal (now w)) sd)))
              (set_rng (rng_seed (seed args)) w)))
    | Raise e => (Raise e, w)
    end.
Proof.
  intros Hdry Hdir. rewrite main_eq.
  rewrite (bind_ok _ _ w (is_dir w) w) by reflexivity. rewrite Hdir. cbn [negb].
  rewrite (bind_ok _ _ w false w) by (apply bootstrap_dry; assumption).
  unfold backfill. rewrite Hdry.
  rewrite (bind_ok _ _ w (has_file w "history.txt") w) by reflexivity.
  cbn [negb]. rewrite andb_false_r.
  rewrite (bind_ok _ _ w tt w) by reflexivity.
  rewrite (bind_ok _ _ w (ordinal (now w)) w) by reflexivity.
  destruct (Calendar.date (start_year args) 1 1) as [sd|e].
  - rewrite (bind_ok _ _ w sd w) by reflexivity. reflexivity.
  - apply bind_raise. reflexivity.
Qed.

Lemma setup_files_history (w : World rng_state) :
  setup_files w !! "history.txt" = files w !! "history.txt".
Proof.
  unfold setup_files, init_files.
  destruct (git_dir w); [reflexivity|].
  destruct (has_file w "README.md"); [reflexivity|].
  apply lookup_insert_ne. discriminate.
Qed.

Lemma main_backfill args w :
  dry_run args = false -> is_dir w = true -> git_dir w && dirty w = false ->
  let dp := "history.txt" in
  let content := default EmptyString (files w !! dp) in
  let p := plan args (ordinal (now w)) in
  exists w' evs,
    main args w = (run_result p.2, w') /\ same_setting w w' /\
    trace w' = trace w ++ setup_events w ++ evs /\
    effects evs = commit_events (environ w) dp (read_text content) p.1 /\
    files w' = <[dp := log_after content p.1]> (setup_files w) /\
    (forall sd, Calendar.date (start_year args) 1 1 = Ok sd ->
       exists rest,
         evs = PrintOut (planned_line args
                           (total_days args (ordinal (now w)) sd)) :: rest).
Proof.
  intros Hdry Hdir Hclean dp content p.
  destruct (bootstrap_spec git args w Hdry) as (w1 & Hb & Hs1 & Hr1 & Hf1 & Ht1).
  rewrite Hclean in Hb.
  destruct (backfill_spec rng_seed rng_randbelow git args w1 Hdry)
    as (w' & evs & Hbf & Hs2 & Ht2 & He2 & Hf2 & Hp2).
  destruct Hs1 as (Hc & Hd & Hg & Henv & Hnow).
  assert (Hh : has_file w1 "history.txt" = has_file w dp).
  { unfold has_file. rewrite Hf1, setup_files_history. reflexivity. }
  rewrite Hf1, setup_files_history, Henv, Hnow, Hh, Ht1 in *.
  exists w', evs. split.
  - rewrite main_eq.
    rewrite (bind_ok _ _ w (is_dir w) w) by reflexivity. rewrite Hdir. cbn [negb].
    rewrite (bind_ok _ _ w false w1) by exact Hb. exact Hbf.
  - split.
    { eapply same_setting_trans; [|exact Hs2]. repeat split; assumption. }
    split.
    { rewrite Ht2. unfold setup_events. rewrite <- !app_assoc. reflexivity. }
    repeat split; assumption.
Qed.

End MainCases.

Lemma indices_from_one {A} (f : A -> Z) (l : list A) :
  (forall k x, l !! k = Some x -> f x = Z.of_nat k + 1) ->
  f <$> l = Z.of_nat <$> seq 1 (length l).
Proof.
  intros H. apply list_eq. intros k.
  rewrite !list_lookup_fmap.
  destruct (l !! k) as [x|] eqn:Hx.
  - rewrite (lookup_seq_lt 1 (length l) k) by (eapply lookup_lt_Some; eassumption).
    cbn [fmap option_fmap option_map]. f_equal. rewrite (H _ _ Hx). lia.
  - rewrite (lookup_seq_ge 1 (length l) k) by (eapply lookup_ge_None; eassumption).
    reflexivity.
Qed.

Section CommitCalls.

Context {rng_state : Type}.
Variable rng_seed : Z -> rng_state.
Variable rng_randbelow : rng_state -> Z -> Z * rng_state.

Section Calls.

Variable git : list string -> option (gmap string string) -> World rng_state
               -> CompletedProcess.

Local Abbreviation main := (main rng_seed rng_randbelow git).
Local Abbreviation run_events := (run_events rng_seed rng_randbelow git).
Local Abbreviation plan := (plan rng_seed rng_randbelow).
Local Abbreviation dirty := (dirty git).
Local Abbreviation backfills := (backfills git).

Lemma setup_events_calls (w : World rng_state) :
  commit_calls (setup_events w) = [].
Proof.
  unfold setup_events, init_events.
  destruct (git_dir w), (has_file w "README.md"), (has_file w "history.txt");
    reflexivity.
Qed.

Lemma run_calls_backfill args w :
  backfills args w = true ->
  commit_calls (run_events args w) = (plan args (ordinal (now w))).1.
Proof.
  unfold backfills. intros H.
  apply andb_true_iff in H as [H Hclean]. apply andb_true_iff in H as [Hdir Hdry].
  apply negb_true_iff in Hdry, Hclean.
  destruct (main_backfill rng_seed rng_randbelow git args w Hdry Hdir Hclean)
    as (w' & evs & Hm & _ & Ht & He & _).
  rewrite (run_events_intro _ _ _ args w (setup_events w ++ evs))
    by (rewrite Hm; exact Ht).
  rewrite commit_calls_app, setup_events_calls, <- commit_calls_effects, He.
  apply commit_calls_commit_events.
Qed.

Lemma run_calls_none args w :
  backfills args w = false -> commit_calls (run_events args w) = [].
Proof.
  unfold backfills. intros H.
  destruct (is_dir w) eqn:Hdir.
  2:{ rewrite (run_events_intro _ _ _ args w
                 [PrintErr ("Error: directory does not exist: " +:+ cwd w)]);
        [reflexivity|].
      rewrite main_missing by assumption. reflexivity. }
  destruct (dry_run args) eqn:Hdry.
  { pose proof (main_dry rng_seed rng_randbelow git args w Hdry Hdir) as Hm.
    destruct (Calendar.date (start_year args) 1 1) as [sd|e].
    - erewrite run_events_intro; [|rewrite Hm; cbn [snd trace log_event set_rng];
                                    rewrite <- app_assoc; reflexivity].
      reflexivity.
    - erewrite run_events_intro; [|rewrite Hm; cbn [snd]; symmetry; apply app_nil_r].
      reflexivity. }
  cbn [andb negb] in H. apply negb_false_iff, andb_true_iff in H as [Hg Hd].
  erewrite run_events_intro;
    [|rewrite main_dirty by assumption; cbn [snd trace log_event];
      rewrite <- app_assoc; reflexivity].
  reflexivity.
Qed.

(** C2: the index passed to [make_commit] is 1 for the first call of a run and
    one more for each further call, whatever [git] answers and across
    day boundaries. *)
Theorem commit_index_sequential args w :
  p_index <$> commit_calls (run_events args w)
  = Z.of_nat <$> seq 1 (length (commit_calls (run_events args w))).
Proof.
  apply indices_from_one. intros k p.
  destruct (backfills args w) eqn:Hb.
  - rewrite run_calls_backfill by assumption. apply plan_index.
  - rewrite run_calls_none by assumption. discriminate.
Qed.

End Calls.

End CommitCalls.


Lemma date_january_first y :
  1 <= y <= 9999 -> Calendar.date y 1 1 = Ok (Calendar.ymd2ord y 1 1).
Proof.
  intros [H1 H2]. unfold Calendar.date, Calendar.MINYEAR, Calendar.MAXYEAR.
  assert (Hfits : Calendar.fits_c_int y = true).
  { unfold Calendar.fits_c_int, Calendar.C_INT_MIN, Calendar.C_INT_MAX.
    apply andb_true_iff. split; apply Z.leb_le; lia. }
  rewrite Hfits.
  destruct (Z.leb_spec 1 y); [|lia]. destruct (Z.leb_spec y 9999); [|lia].
  reflexivity.
Qed.

Lemma commit_events_stamped env dp content calls :
  existsb is_unstamped_commit (commit_events env dp content calls) = false.
Proof.
  revert content. induction calls as [|p calls IH]; intros content; [reflexivity|].
  cbn [commit_events app existsb is_unstamped_commit orb]. apply IH.
Qed.

Lemma existsb_effects f evs :
  (forall ev, is_print ev = true -> f ev = false) ->
  existsb f (effects evs) = existsb f evs.
Proof.
  intros Hf. induction evs as [|ev evs IH]; [reflexivity|].
  cbn [effects List.filter existsb]. fold (effects evs).
  destruct (is_print ev) eqn:Hp; cbn [negb existsb].
  - rewrite (Hf ev Hp), IH. reflexivity.
  - rewrite IH. reflexivity.
Qed.


Lemma ymd2ord_january_first y : 1 <= y -> 1 <= Calendar.ymd2ord y 1 1.
Proof.
  intros Hy. unfold Calendar.ymd2ord, Calendar.days_before_year.
  change (Calendar.days_before_month y 1) with 0.
  pose proof (Z.div_le_compat_l (y - 1) 4 100 ltac:(lia) ltac:(lia)).
  pose proof (Z.div_pos (y - 1) 400 ltac:(lia) ltac:(lia)).
  lia.
Qed.

Section Completion.

Context {rng_state : Type}.
Variable rng_seed : Z -> rng_state.
Variable rng_randbelow : rng_state -> Z -> Z * rng_state.



End Completion.

Section Preflight.

Context {rng_state : Type}.
Variable rng_seed : Z -> rng_state.
Variable rng_randbelow : rng_state -> Z -> Z * rng_state.

Section OneRun.

Variable git : list string -> option (gmap string string) -> World rng_state
               -> CompletedProcess.

Local Abbreviation main := (main rng_seed rng_randbelow git).
Local Abbreviation run_events := (run_events rng_seed rng_randbelow git).
Local Abbreviation plan := (plan rng_seed rng_randbelow).
Local Abbreviation dirty := (dirty git).



(** C6 (amended): on a non-dry run in a directory without [.git], the
    bootstrap is [git init] and, when there is no README, the writing of the
    default one, its staging and its commit with no timestamp override;
    when a README exists the bootstrap is [git init] alone: nothing is
    staged and no initial commit is made.  What the run does after the
    bootstrap never writes or stages the README and never commits without a
    timestamp override: it gives git the staging of the log file and
    commits with a message and dates, and nothing else.  An existing README
    keeps its content. *)
Theorem bootstrap_fresh_directory args w :
  dry_run args = false -> is_dir w = true -> git_dir w = false ->
  trace (init_repo git w).2
  = trace w
    ++ Git ["init"] None
       :: (if bool_decide (is_Some (files w !! "README.md")) then []
           else [ WriteText "README.md" README_TEXT;
                  Git ["add"; "README.md"] None;
                  Git ["commit"; "-m"; "Initial commit"] None ]) /\
  exists rest,
    run_events args w
    = Git ["init"] None
      :: (if bool_decide (is_Some (files w !! "README.md")) then []
          else [ WriteText "README.md" README_TEXT;
                 Git ["add"; "README.md"] None;
                 Git ["commit"; "-m"; "Initial commit"] None ])
      ++ rest /\
    existsb is_unstamped_commit rest = false /\
    (forall gargs env, Git gargs env ∈ rest ->
       (gargs = ["add"; "history.txt"] /\ env = None) \/
       (exists m, gargs = ["commit"; "-m"; m] /\ env <> None)) /\
    (forall text, WriteText "README.md" text ∉ rest) /\
    files (main args w).2 !! "README.md"
    = Some (default README_TEXT (files w !! "README.md")).
Proof.
  intros Hdry Hdir Hgit. split.
  { destruct (init_repo_spec git w) as (w1 & Hi & _ & _ & _ & Ht).
    rewrite Hi. cbn [snd]. rewrite Ht. reflexivity. }
  destruct (main_backfill rng_seed rng_randbelow git args w Hdry Hdir)
    as (w' & evs & Hm & _ & Ht & He & Hf & _).
  { rewrite Hgit. reflexivity. }
  exists ((if has_file w "history.txt" then []
           else [WriteText "history.txt" EmptyString]) ++ evs).
  split; [|split; [|split; [|split]]].
  - apply run_events_intro. rewrite Hm. cbn [snd]. rewrite Ht.
    unfold setup_events, init_events. rewrite Hgit. fold (has_file w "README.md").
    rewrite <- !app_assoc. reflexivity.
  - rewrite existsb_app.
    assert (Hevs : existsb is_unstamped_commit evs = false).
    { rewrite <- existsb_effects, He; [apply commit_events_stamped|].
      intros [] H; try discriminate; reflexivity. }
    rewrite Hevs. destruct (has_file w "history.txt"); reflexivity.
  - intros gargs env Hin. apply elem_of_app in Hin as [Hin|Hin].
    + exfalso. destruct (has_file w "history.txt").
      * apply elem_of_nil in Hin. exact Hin.
      * apply list_elem_of_singleton in Hin. discriminate.
    + apply effects_elem in Hin; [|reflexivity]. rewrite He in Hin.
      apply commit_events_git in Hin as [[-> ->]|(m & -> & Hne)].
      * left. split; reflexivity.
      * right. exists m. split; [reflexivity|exact Hne].
  - intros text Hin. apply elem_of_app in Hin as [Hin|Hin].
    + destruct (has_file w "history.txt").
      * apply elem_of_nil in Hin. exact Hin.
      * apply list_elem_of_singleton in Hin. discriminate.
    + apply effects_elem in Hin; [|reflexivity]. rewrite He in Hin.
      apply commit_events_write in Hin. discriminate.
  - rewrite Hm. cbn [snd]. rewrite Hf.
    rewrite lookup_insert_ne by discriminate.
    unfold setup_files, init_files, has_file. rewrite Hgit.
    destruct (files w !! "README.md") as [c|] eqn:Hreadme.
    + rewrite bool_decide_eq_true_2 by eauto. exact Hreadme.
    + rewrite bool_decide_eq_false_2 by (intros [? ?]; discriminate).
      apply lookup_insert_eq.
Qed.

(** C7 (amended): [make_commit] replaces the log file by the text it read
    from it, in which every ["\r\n"] and every other ["\r"] of the file has
    become ["\n"] (nothing, if the file was absent), followed by the one line
    [<timestamp> | commit #<index>]; a file without carriage returns is kept
    character for character in front of the new line.  No other file is
    touched.  The timestamp is [strftime("%Y-%m-%d %H:%M:%S")], whose year
    has four digits from the year 1000 on. *)
Theorem make_commit_appends_line t msg dp i w :
  let w' := (make_commit git t msg dp i w).2 in
  let line := strftime_seconds t +:+ " | commit #" +:+ pretty i +:+ nl in
  files w' !! dp
  = Some (match files w !! dp with
          | Some stored => universal_newlines stored
          | None => EmptyString
          end +:+ line) /\
  (forall stored, files w !! dp = Some stored -> no_cr stored = true ->
     files w' !! dp = Some (stored +:+ line)) /\
  (forall other, other <> dp -> files w' !! other = files w !! other) /\
  (1000 <= year t <= 9999 -> String.length (pretty (year t)) = 4%nat).
Proof.
  destruct (make_commit_spec git t msg dp i w)
    as (b & w' & evs & Hm & _ & _ & Hf & _).
  rewrite Hm. cbn [snd]. rewrite Hf.
  split; [|split; [|split]].
  - apply lookup_insert_eq.
  - intros stored Hstored Hcr. rewrite lookup_insert_eq.
    unfold log_text, read_text. rewrite Hstored, universal_newlines_id by exact Hcr.
    reflexivity.
  - intros other Hne. apply lookup_insert_ne. congruence.
  - apply year_four_digits.
Qed.

End OneRun.

End Preflight.

Section TwoRuns.

Context {rng_state : Type}.
Variable rng_seed : Z -> rng_state.
Variable rng_randbelow : rng_state -> Z -> Z * rng_state.
Variables git git' : list string -> option (gmap string string)
                     -> World rng_state -> CompletedProcess.

Local Abbreviation plan := (plan rng_seed rng_randbelow).

Lemma make_commit_failure t msg dp i w :
  returncode (commit_result git t msg dp i w) <> 0 ->
  make_commit git t msg dp i w
  = (Ok false,
     log_event (PrintErr (stderr (commit_result git t msg dp i w)))
       (log_event (Git ["commit"; "-m"; msg]
                     (Some (git_date_env (environ w) (strftime_seconds t))))
          (commit_world t msg dp i w))).
Proof.
  intros Hrc. apply Z.eqb_neq in Hrc.
  unfold make_commit.
  cbv [mbind prog_bind emit get write_text run_git mret prog_ret].
  cbn [environ files log_event set_file].
  unfold commit_result, commit_world, git_date_env, log_line, log_text in *.
  rewrite Hrc. reflexivity.
Qed.

Lemma backfill_run args w (g : list string -> option (gmap string string)
                                 -> World rng_state -> CompletedProcess) :
  backfills g args w = true ->
  exists w' evs,
    main rng_seed rng_randbelow g args w
    = (run_result (plan args (ordinal (now w))).2, w') /\
    run_events rng_seed rng_randbelow g args w = setup_events w ++ evs /\
    effects evs
    = commit_events (environ w) "history.txt"
        (read_text (default EmptyString (files w !! "history.txt")))
        (plan args (ordinal (now w))).1 /\
    files w'
    = <["history.txt" := log_after
                           (default EmptyString (files w !! "history.txt"))
                           (plan args (ordinal (now w))).1]>
        (setup_files w).
Proof.
  unfold backfills. intros H.
  apply andb_true_iff in H as [H Hclean]. apply andb_true_iff in H as [Hdir Hdry].
  apply negb_true_iff in Hdry, Hclean.
  destruct (main_backfill rng_seed rng_randbelow g args w Hdry Hdir Hclean)
    as (w' & evs & Hm & _ & Ht & He & Hf & _).
  exists w', evs. split; [exact Hm|]. split; [|split; assumption].
  apply run_events_intro. rewrite Hm. exact Ht.
Qed.

Lemma setup_events_effects (w : World rng_state) :
  effects (setup_events w) = setup_events w.
Proof.
  unfold setup_events, init_events.
  destruct (git_dir w), (has_file w "README.md"), (has_file w "history.txt");
    reflexivity.
Qed.

(** C5: when the commit invocation of a [make_commit] call returns a nonzero
    code, the call forwards the captured diagnostic output to the error
    stream and returns false, with the log line it had written, after the
    text it had read, still in the file; and what a run attempts and writes does not depend on what [git]
    answers to its commits: the same calls, commands and file contents come
    out under any two [git]s that let the run past its pre-flight checks. *)
Theorem commit_failure_is_skipped :
  (forall t msg dp i w,
     returncode (commit_result git t msg dp i w) <> 0 ->
     exists w',
       make_commit git t msg dp i w = (Ok false, w') /\
       last (trace w') = Some (PrintErr (stderr (commit_result git t msg dp i w))) /\
       files w' !! dp = Some (log_text w dp +:+ log_line t i)) /\
  (forall args w,
     backfills git args w = true -> backfills git' args w = true ->
     (main rng_seed rng_randbelow git args w).1
     = (main rng_seed rng_randbelow git' args w).1 /\
     effects (run_events rng_seed rng_randbelow git args w)
     = effects (run_events rng_seed rng_randbelow git' args w) /\
     files (main rng_seed rng_randbelow git args w).2
     = files (main rng_seed rng_randbelow git' args w).2).
Proof.
  split.
  - intros t msg dp i w Hrc. eexists. split; [apply make_commit_failure, Hrc|].
    split.
    + cbn [trace log_event]. apply last_snoc.
    + cbn [files log_event commit_world set_file]. apply lookup_insert_eq.
  - intros args w H1 H2.
    destruct (backfill_run args w git H1) as (w1 & evs1 & Hm1 & Hr1 & He1 & Hf1).
    destruct (backfill_run args w git' H2) as (w2 & evs2 & Hm2 & Hr2 & He2 & Hf2).
    rewrite Hm1, Hm2, Hr1, Hr2, !effects_app, He1, He2. cbn [fst snd].
    rewrite Hf1, Hf2. repeat split.
Qed.

(** C8: two runs with the same arguments on the same day, both past their
    pre-flight checks, make the same calls of [make_commit], whatever their
    directories hold and whatever [git] answers: the calls are those of the
    plan, which draws from the generator seeded with [--seed]; each message
    is one of the ten pool phrases followed by the commit's timestamp. *)
Theorem message_sequence_deterministic args w w' :
  (forall g n, 0 < n -> 0 <= (rng_randbelow g n).1 < n) ->
  backfills git args w = true -> backfills git' args w' = true ->
  ordinal (now w) = ordinal (now w') ->
  commit_calls (run_events rng_seed rng_randbelow git args w)
  = commit_calls (run_events rng_seed rng_randbelow git' args w') /\
  commit_calls (run_events rng_seed rng_randbelow git args w)
  = (plan args (ordinal (now w))).1 /\
  Forall well_formed_message
    (commit_calls (run_events rng_seed rng_randbelow git args w)) /\
  length messages = 10%nat.
Proof.
  intros Hrange H1 H2 Hnow.
  rewrite !run_calls_backfill by assumption. rewrite Hnow.
  split; [reflexivity|]. split; [reflexivity|]. split; [|reflexivity].
  apply plan_message. exact Hrange.
Qed.

End TwoRuns.

Section Example2024.

Context {rng_state : Type}.
Variable rng_seed : Z -> rng_state.
Variable rng_randbelow : rng_state -> Z -> Z * rng_state.
Variable git : list string -> option (gmap string string) -> World rng_state
               -> CompletedProcess.

Local Abbreviation main := (main rng_seed rng_randbelow git).
Local Abbreviation run_events := (run_events rng_seed rng_randbelow git).
Local Abbreviation plan := (plan rng_seed rng_randbelow).

Lemma setup_events_printed (w : World rng_state) :
  printed (setup_events w) = [].
Proof.
  unfold setup_events, init_events.
  destruct (git_dir w), (has_file w "README.md"), (has_file w "history.txt");
    reflexivity.
Qed.

(** C9: with start year 2024, one day and three commits per day, the plan
    line reads "1 days, 3 commits" and the day's timestamps are 08:00:00,
    15:59:59.999999 (the midpoint 15:59:59.9999995 to the microsecond) and
    23:59:59.999999. *)
Theorem plan_2024_one_day args w :
  start_year args = 2024 -> max_days args = Some 1 ->
  commits_per_day args = 3 -> is_dir w = true ->
  Calendar.ymd2ord 2024 1 1 <= ordinal (now w) ->
  dry_run args = true \/ git_dir w && dirty git w = false ->
  let day := Calendar.ymd2ord 2024 1 1 in
  let t1 := DateTime day (time_usec 8 0 0 0) in
  let t2 := DateTime day (time_usec 15 59 59 999999) in
  let t3 := DateTime day (time_usec 23 59 59 999999) in
  head (printed (run_events args w))
  = Some "Planned: 1 days, 3 commits (3/day)" /\
  commits_for_day (midnight day) 3 = Ok [t1; t2; t3] /\
  2 * usec t2 + 1 = usec t1 + usec t3 /\
  (dry_run args = false ->
   p_time <$> commit_calls (run_events args w) = [t1; t2; t3]).
Proof.
  intros Hy Hmax Hcpd Hdir Htoday Hmode day t1 t2 t3.
  assert (Hdate : Calendar.date (start_year args) 1 1 = Ok day)
    by (rewrite Hy; reflexivity).
  assert (Htimes : commits_for_day (midnight day) 3 = Ok [t1; t2; t3])
    by (vm_compute; reflexivity).
  assert (Htotal : total_days args (ordinal (now w)) day = 1).
  { unfold total_days. rewrite Hmax. unfold day.
    change (Calendar.ymd2ord 2024 1 1) with 738886 in *. lia. }
  assert (Hline : planned_line args 1 = "Planned: 1 days, 3 commits (3/day)")
    by (unfold planned_line; rewrite Hcpd; vm_compute; reflexivity).
  split; [|split; [exact Htimes|split; [vm_compute; reflexivity|]]].
  - destruct (dry_run args) eqn:Hdry.
    + pose proof (main_dry rng_seed rng_randbelow git args w Hdry Hdir) as Hm.
      rewrite Hdate, Htotal in Hm.
      rewrite (run_events_intro _ _ _ args w
                 [PrintOut (planned_line args 1); PrintOut DRY_RUN_MESSAGE]).
      * cbn [printed head]. rewrite Hline. reflexivity.
      * rewrite Hm. cbn [snd trace log_event set_rng].
        rewrite <- app_assoc. reflexivity.
    + destruct Hmode as [Hd|Hclean]; [discriminate Hd|].
      destruct (main_backfill rng_seed rng_randbelow git args w Hdry Hdir Hclean)
        as (w' & evs & Hm & _ & Ht & _ & _ & Hp).
      destruct (Hp day Hdate) as (rest & ->).
      rewrite Htotal in Ht.
      rewrite (run_events_intro _ _ _ args w _ ltac:(rewrite Hm; exact Ht)).
      rewrite printed_app, setup_events_printed. cbn [app printed head].
      rewrite Hline. reflexivity.
  - intros Hdry.
    destruct Hmode as [Hd|Hclean]; [rewrite Hdry in Hd; discriminate Hd|].
    rewrite run_calls_backfill
      by (unfold backfills; rewrite Hdir, Hdry, Hclean; reflexivity).
    unfold plan. rewrite Hdate, Htotal, Hcpd.
    change (range 1) with [0]. cbn [plan_offsets].
    assert (Hday : day_times day 3 0 = Ok [t1; t2; t3]) by (vm_compute; reflexivity).
    rewrite Hday. cbn [fst snd]. rewrite app_nil_r. apply plan_times_time.
Qed.

End Example2024.

(** * Further properties of the program *)

(** ** The generator: bounds *)

Section GeneratorBounds.

Import Binary64.

(** An integer from [2^1024] on has no finite double. *)
Lemma of_int_overflow n : 2 ^ emax <= n -> of_int n = None.
Proof.
  intros Hn. unfold of_int, checked.
  assert (Hpos : 0 < n) by (unfold emax in Hn; lia).
  pose proof (round_ratio_rounds n 1 Hpos ltac:(lia)) as Hr.
  set (f := round_ratio n 1) in *.
  assert (Hx : (bpow emax <= IZR n / IZR 1)%R).
  { rewrite <- bpow_IZR by (unfold emax; lia).
    replace (IZR n / IZR 1)%R with (IZR n) by (simpl; field).
    apply IZR_le. exact Hn. }
  pose proof (rt_hi _ _ Hr) as Hhi.
  assert (He : emax < Fexp f + prec).
  { apply bpow_lt_inv. lra. }
  assert (Hnum : 2 ^ (prec - 1) <= Fnum f).
  { apply (rt_normal _ _ Hr). unfold emax, emin, prec in *. lia. }
  assert (Hfin : is_finite f = false).
  { unfold is_finite. unfold emax, prec in *.
    destruct (Z.leb_spec 0 (Fexp f)); [|lia].
    apply Z.ltb_ge.
    assert (2 ^ 972 <= 2 ^ Fexp f) by (apply Z.pow_le_mono_r; lia).
    replace (2 ^ 1024) with (2 ^ 52 * 2 ^ 972)
      by (rewrite <- Z.pow_add_r by lia; reflexivity).
    change (53 - 1) with 52 in Hnum.
    apply Z.mul_le_mono_nonneg; [apply Z.pow_nonneg; lia| |apply Z.pow_nonneg; lia|assumption].
    lia. }
  rewrite Hfin. reflexivity.
Qed.

End GeneratorBounds.

Lemma consecutive_sorted {A} (R : A -> A -> Prop) (l : list A) :
  (forall i a b, l !! i = Some a -> l !! S i = Some b -> R a b) -> Sorted R l.
Proof.
  induction l as [|a l IH]; intros Hcons; [constructor|].
  constructor.
  - apply IH. intros i x y Hx Hy. apply (Hcons (S i) x y); assumption.
  - destruct l as [|b l]; constructor. apply (Hcons 0%nat a b); reflexivity.
Qed.

(** The timestamps of a day as offsets from the window start. *)
Lemma commits_for_day_shape base count :
  1 <= ordinal base <= Calendar.MAXORDINAL -> count <= 2 ^ 1023 ->
  exists us : list Z,
    commits_for_day base count
    = Ok ((fun t => DateTime (ordinal base) (START_US + t)) <$> us) /\
    Z.of_nat (length us) = day_size count /\
    Forall (fun t => 0 <= t <= SPAN_US) us /\
    Sorted Z.le us /\
    (count <> 0 -> head us = Some 0) /\
    (2 <= count -> last us = Some SPAN_US).
Proof.
  intros Hbase Hc. unfold day_size.
  destruct (Z_le_gt_dec count 1) as [Hsmall|Hmany].
  { rewrite commits_for_day_small by assumption.
    destruct (Z.eqb_spec count 0) as [->|Hne].
    - exists []. repeat split; try constructor; try reflexivity; try lia.
    - exists [0]. split; [reflexivity|]. split.
      { destruct (Z.ltb_spec count 0); cbn; lia. }
      split; [repeat constructor; unfold SPAN_US; lia|].
      split; [repeat constructor|]. split; [reflexivity|lia]. }
  destruct (commits_for_day_offsets base count Hbase ltac:(lia))
    as (l & Hl & Hlen & Helem & Hmono).
  exists ((fun y => usec y - START_US) <$> l).
  assert (Hrepr : forall i y, l !! i = Some y ->
            y = DateTime (ordinal base) (START_US + (usec y - START_US))).
  { intros i y Hy. destruct (Helem _ _ Hy) as (t & -> & _).
    cbn [usec]. f_equal. lia. }
  split; [|split; [|split; [|split; [|split]]]].
  - rewrite Hl. f_equal. rewrite <- list_fmap_compose.
    apply list_eq. intros i. rewrite list_lookup_fmap.
    destruct (l !! i) as [y|] eqn:Hy; [|reflexivity].
    cbn. f_equal. apply (Hrepr i y Hy).
  - rewrite length_fmap, Hlen. destruct (Z.ltb_spec count 0); lia.
  - apply Forall_forall. intros t Ht.
    apply list_elem_of_fmap in Ht as (y & -> & Hy).
    apply list_elem_of_lookup in Hy as [i Hy].
    destruct (Helem _ _ Hy) as (t & -> & Hb). cbn [usec].
    assert (Hi : (i < Z.to_nat count)%nat)
      by (rewrite <- Hlen; eapply lookup_lt_Some; eassumption).
    unfold SPAN_US in *. nia.
  - apply consecutive_sorted.
    intros i a b. rewrite !list_lookup_fmap.
    destruct (l !! i) as [ya|] eqn:Ha; [|discriminate].
    destruct (l !! S i) as [yb|] eqn:Hb; [|discriminate].
    cbn. intros [= <-] [= <-].
    destruct (Helem _ _ Ha) as (ta & Hya & _).
    destruct (Helem _ _ Hb) as (tb & Hyb & _). subst ya yb.
    pose proof (Hmono _ _ _ Ha Hb). cbn [usec]. lia.
  - intros _. rewrite head_lookup, list_lookup_fmap.
    destruct (lookup_lt_is_Some_2 l 0%nat ltac:(lia)) as (y & Hy).
    rewrite Hy. destruct (Helem _ _ Hy) as (t & -> & Hb). cbn.
    f_equal. unfold SPAN_US in Hb. nia.
  - intros _. rewrite last_lookup, length_fmap, list_lookup_fmap.
    destruct (lookup_lt_is_Some_2 l (pred (length l)) ltac:(lia)) as (y & Hy).
    rewrite Hy. destruct (Helem _ _ Hy) as (t & -> & Hb). cbn.
    rewrite Hlen in Hb.
    replace (Z.of_nat (pred (Z.to_nat count))) with (count - 1) in Hb by lia.
    f_equal. nia.
Qed.

(** X1: for every count up to 2^1023, negative ones included,
    [commits_for_day] returns, and every timestamp it returns is on the day
    of [base_date], from 08:00:00.000000 to 23:59:59.999999. *)
Theorem commits_for_day_in_window (base : datetime) (count : Z) :
  1 <= ordinal base <= Calendar.MAXORDINAL -> count <= 2 ^ 1023 ->
  exists l,
    commits_for_day base count = Ok l /\
    forall t, t ∈ l ->
      ordinal t = ordinal base /\ 8 <= hour t <= 23 /\
      datetime_leb (window_start base) t = true /\
      datetime_leb t (window_end base) = true.
Proof.
  intros Hbase Hc.
  destruct (commits_for_day_shape base count Hbase Hc)
    as (us & Hl & _ & Hin & _).
  eexists. split; [exact Hl|].
  intros t Ht. apply list_elem_of_fmap in Ht as (u & -> & Hu).
  rewrite Forall_forall in Hin. specialize (Hin u Hu).
  unfold hour, datetime_leb, window_start, window_end, replace_time.
  cbn [ordinal usec]. rewrite Z.eqb_refl, Z.ltb_irrefl. cbn [orb andb].
  change (time_usec 8 0 0 0) with START_US.
  change (time_usec 23 59 59 999999) with (START_US + SPAN_US).
  unfold START_US, SPAN_US, US_PER_SECOND in *.
  split; [reflexivity|]. split.
  - split.
    + apply Z.div_le_lower_bound; lia.
    + apply Z.lt_succ_r. apply Z.div_lt_upper_bound; lia.
  - split; apply Z.leb_le; lia.
Qed.

(** X2: from 2 to 57600 commits a day, each timestamp is at least one second
    after the one before it, so that the whole seconds of the day strictly
    increase along the list. *)
Theorem commits_for_day_seconds_apart (base : datetime) (count : Z) :
  1 <= ordinal base <= Calendar.MAXORDINAL -> 2 <= count <= 57600 ->
  exists l,
    commits_for_day base count = Ok l /\
    forall i a b, l !! i = Some a -> l !! S i = Some b ->
      US_PER_SECOND <= datetime_sub b a /\
      usec a / US_PER_SECOND < usec b / US_PER_SECOND.
Proof.
  intros Hbase Hc.
  destruct (commits_for_day_offsets base count Hbase)
    as (l & Hl & Hlen & Helem & Hmono).
  { assert (Hp : 2 ^ 16 <= 2 ^ 1023) by (apply Z.pow_le_mono_r; lia).
    change (2 ^ 16) with 65536 in Hp. lia. }
  exists l. split; [exact Hl|].
  intros i a b Ha Hb.
  destruct (Helem _ _ Ha) as (ta & -> & Hba).
  destruct (Helem _ _ Hb) as (tb & -> & Hbb).
  rewrite Nat2Z.inj_succ in Hbb.
  assert (Hgap : 1000000 <= tb - ta) by (unfold SPAN_US in *; nia).
  unfold datetime_sub, US_PER_SECOND. cbn [ordinal usec].
  split; [lia|].
  apply Z.div_lt_upper_bound; [lia|].
  pose proof (Z.mul_div_le (START_US + tb) 1000000 ltac:(lia)).
  pose proof (Z.mod_pos_bound (START_US + tb) 1000000 ltac:(lia)).
  pose proof (Z.div_mod (START_US + tb) 1000000 ltac:(lia)).
  lia.
Qed.

(** X3: a count above 2^1024 raises [OverflowError]: [count - 1] has no
    float for the division to use, and no timestamp is computed. *)
Theorem commits_for_day_too_many (base : datetime) (count : Z) :
  2 ^ 1024 < count -> commits_for_day base count = Raise OverflowError.
Proof.
  intros Hc. unfold commits_for_day.
  fold (window_start base) (window_end base).
  rewrite window_span. cbn [mbind result_bind].
  assert (Hbig : 1 < 2 ^ 1024) by (apply Z.pow_gt_1; lia).
  destruct (Z.leb_spec count 1); [lia|].
  rewrite of_int_overflow by (unfold Binary64.emax; lia).
  reflexivity.
Qed.

(** ** Formatted timestamps *)

Lemma string_app_inv (a b x y : string) :
  String.length a = String.length b -> a +:+ x = b +:+ y -> a = b /\ x = y.
Proof.
  revert b. induction a as [|c a IH]; intros [|c' b] Hlen H; try discriminate.
  - split; [reflexivity|exact H].
  - change (String c (a +:+ x) = String c' (b +:+ y)) in H.
    injection H as -> H. injection Hlen as Hlen.
    destruct (IH b Hlen H) as [-> ->]. split; reflexivity.
Qed.

(** Two digits tell the numbers below 100 apart. *)
Lemma zfill_2_length x : 0 <= x < 100 -> String.length (zfill 2 x) = 2%nat.
Proof.
  intros Hx.
  pose proof (range_forallb
                (fun x => Nat.eqb (String.length (zfill 2 x)) 2) 100
                ltac:(vm_compute; reflexivity) x Hx) as H.
  apply Nat.eqb_eq in H. exact H.
Qed.

Lemma zfill_2_inj x y :
  0 <= x < 100 -> 0 <= y < 100 -> zfill 2 x = zfill 2 y -> x = y.
Proof.
  intros Hx Hy H.
  pose proof (range_forallb
                (fun x => forallb (fun y =>
                   implb (String.eqb (zfill 2 x) (zfill 2 y)) (x =? y))
                   (range 100)) 100
                ltac:(vm_compute; reflexivity) x Hx) as Hall.
  pose proof (range_forallb _ 100 Hall y Hy) as Hxy. cbn beta in Hxy.
  rewrite H, String.eqb_refl in Hxy.
  apply Z.eqb_eq. exact Hxy.
Qed.

(** On one day the formatted timestamp determines the second. *)
Lemma strftime_seconds_inj a b :
  ordinal a = ordinal b ->
  0 <= usec a < US_PER_DAY -> 0 <= usec b < US_PER_DAY ->
  strftime_seconds a = strftime_seconds b ->
  usec a / US_PER_SECOND = usec b / US_PER_SECOND.
Proof.
  intros Hord Ha Hb H.
  unfold strftime_seconds, strftime_minutes, year, month, day in H.
  rewrite Hord in H. rewrite !string_app_assoc in H.
  repeat (apply (inj (String.app _)) in H).
  assert (Hrange : forall t, 0 <= usec t < US_PER_DAY ->
            0 <= hour t < 100 /\ 0 <= minute t < 100 /\ 0 <= second t < 100 /\
            usec t / US_PER_SECOND
            = hour t * 3600 + minute t * 60 + second t).
  { intros t Ht. unfold hour, minute, second, US_PER_DAY, US_PER_SECOND in *.
    change (3600 * 1000000) with (1000000 * 3600).
    change (60 * 1000000) with (1000000 * 60).
    rewrite <- !Z.div_div by lia.
    set (s := usec t / 1000000).
    assert (0 <= s < 86400).
    { unfold s. split; [apply Z.div_pos; lia|].
      apply Z.div_lt_upper_bound; lia. }
    pose proof (Z.div_mod s 3600 ltac:(lia)).
    pose proof (Z.mod_pos_bound s 3600 ltac:(lia)).
    pose proof (Z.div_mod s 60 ltac:(lia)).
    pose proof (Z.mod_pos_bound s 60 ltac:(lia)).
    pose proof (Z.div_mod (s / 60) 60 ltac:(lia)).
    pose proof (Z.mod_pos_bound (s / 60) 60 ltac:(lia)).
    assert (s / 60 / 60 = s / 3600) by (rewrite Z.div_div by lia; reflexivity).
    assert (0 <= s / 3600 < 24).
    { split; [apply Z.div_pos; lia|apply Z.div_lt_upper_bound; lia]. }
    lia. }
  destruct (Hrange a Ha) as (Hha & Hma & Hsa & Hea).
  destruct (Hrange b Hb) as (Hhb & Hmb & Hsb & Heb).
  apply string_app_inv in H as [Hh H];
    [|rewrite !zfill_2_length by assumption; reflexivity].
  apply (inj (String.app _)) in H.
  apply string_app_inv in H as [Hm H];
    [|rewrite !zfill_2_length by assumption; reflexivity].
  apply (inj (String.app _)) in H.
  apply zfill_2_inj in Hh, Hm, H; try assumption.
  lia.
Qed.

Lemma sorted_lt_NoDup (l : list Z) : Sorted Z.lt l -> NoDup l.
Proof.
  intros Hs. apply Sorted_StronglySorted in Hs; [|exact Z.lt_trans].
  induction Hs as [|x l _ IH Hall]; constructor; [|exact IH].
  intros Hin. rewrite Forall_forall in Hall. specialize (Hall x Hin). lia.
Qed.

(** X4: up to 57600 commits a day, no two timestamps of the day are
    formatted by [%Y-%m-%d %H:%M:%S] to the same text, the date that
    [make_commit] gives to git and writes to the log. *)
Theorem commits_for_day_distinct_dates (base : datetime) (count : Z) :
  1 <= ordinal base <= Calendar.MAXORDINAL -> count <= 57600 ->
  exists l,
    commits_for_day base count = Ok l /\
    NoDup (strftime_seconds <$> l).
Proof.
  intros Hbase Hc.
  destruct (Z_le_gt_dec count 1) as [Hsmall|Hmany].
  { rewrite commits_for_day_small by assumption.
    eexists. split; [reflexivity|].
    destruct (count =? 0); cbn; repeat constructor. apply not_elem_of_nil. }
  destruct (commits_for_day_offsets base count Hbase)
    as (l & Hl & Hlen & Helem & Hmono).
  { assert (Hp : 2 ^ 16 <= 2 ^ 1023) by (apply Z.pow_le_mono_r; lia).
    change (2 ^ 16) with 65536 in Hp. lia. }
  exists l. split; [exact Hl|].
  assert (Hsec : NoDup ((fun t => usec t / US_PER_SECOND) <$> l)).
  { apply sorted_lt_NoDup, consecutive_sorted.
    intros i sa sb. rewrite !list_lookup_fmap.
    destruct (l !! i) as [a|] eqn:Ha; [|discriminate].
    destruct (l !! S i) as [b|] eqn:Hb; [|discriminate].
    cbn. intros [= <-] [= <-].
    destruct (Helem _ _ Ha) as (ta & -> & Hba).
    destruct (Helem _ _ Hb) as (tb & -> & Hbb).
    rewrite Nat2Z.inj_succ in Hbb.
    assert (Hgap : 1000000 <= tb - ta) by (unfold SPAN_US in *; nia).
    unfold US_PER_SECOND. cbn [usec].
    apply Z.div_lt_upper_bound; [lia|].
    pose proof (Z.div_mod (START_US + tb) 1000000 ltac:(lia)).
    pose proof (Z.mod_pos_bound (START_US + tb) 1000000 ltac:(lia)).
    lia. }
  apply NoDup_fmap_2_strong; [|eapply NoDup_fmap_1; exact Hsec].
  intros a b Ha Hb Hab.
  apply list_elem_of_lookup in Ha as [i Hi]. apply list_elem_of_lookup in Hb as [j Hj].
  assert (Hin : forall k y, l !! k = Some y ->
            ordinal y = ordinal base /\ 0 <= usec y < US_PER_DAY).
  { intros k y Hy. destruct (Helem _ _ Hy) as (t & -> & Hb).
    assert (Hk : (k < Z.to_nat count)%nat)
      by (rewrite <- Hlen; eapply lookup_lt_Some; eassumption).
    cbn [ordinal usec]. split; [reflexivity|].
    unfold US_PER_DAY, US_PER_SECOND, START_US, SPAN_US in *. nia. }
  destruct (Hin _ _ Hi) as [Hoa Hua]. destruct (Hin _ _ Hj) as [Hob Hub].
  pose proof (strftime_seconds_inj a b ltac:(congruence) Hua Hub Hab) as Heq.
  assert (i = j) as ->.
  { eapply NoDup_lookup; [exact Hsec| |];
      rewrite list_lookup_fmap; [rewrite Hi|rewrite Hj]; cbn; [reflexivity|].
    rewrite Heq. reflexivity. }
  congruence.
Qed.

(** ** The same clock times on every day *)

Lemma mapM_result_inv {A B} (f : A -> result B) (l : list A) : forall k,
  mapM f l = Ok k -> Forall2 (fun x y => f x = Ok y) l k.
Proof.
  induction l as [|a l IH]; intros k H.
  - injection H as <-. constructor.
  - cbn [mapM] in H. destruct (f a) as [y|e] eqn:Hy; [|discriminate H].
    cbn [mbind result_bind] in H.
    destruct (mapM f l) as [k'|e]; [|discriminate H].
    injection H as <-. constructor; [exact Hy|]. apply IH. reflexivity.
Qed.

Lemma mapM_result_intro {A B} (f : A -> result B) (l : list A) (k : list B) :
  Forall2 (fun x y => f x = Ok y) l k -> mapM f l = Ok k.
Proof.
  induction 1 as [|x y l k Hxy _ IH]; [reflexivity|].
  cbn [mapM]. rewrite Hxy. cbn [mbind result_bind]. rewrite IH. reflexivity.
Qed.

(** A timestamp that stays on its day is the same time of day on any other
    day. *)
Lemma timestamp_at_shift steps b b' i u :
  timestamp_at steps (window_start b) i = Ok (DateTime (ordinal b) u) ->
  1 <= ordinal b' <= Calendar.MAXORDINAL ->
  timestamp_at steps (window_start b') i = Ok (DateTime (ordinal b') u).
Proof.
  unfold timestamp_at. intros H Hb'.
  destruct (or_raise OverflowError (Binary64.of_int i)) as [fi|e];
    [|discriminate H].
  cbn [mbind result_bind] in *.
  destruct (or_raise OverflowError (Binary64.mul steps fi)) as [x|e];
    [|discriminate H].
  cbn [mbind result_bind] in *.
  destruct (timedelta_of_seconds x) as [td|e]; [|discriminate H].
  cbn [mbind result_bind] in *.
  unfold datetime_add, window_start, replace_time in *. cbn [ordinal usec] in *.
  set (total := time_usec 8 0 0 0 + td) in *.
  destruct ((0 <? ordinal b + total / US_PER_DAY)
            && (ordinal b + total / US_PER_DAY <=? Calendar.MAXORDINAL));
    [|discriminate H].
  injection H as Hq Hu.
  assert (Hz : total / US_PER_DAY = 0) by lia.
  rewrite Hz, Z.add_0_r.
  destruct (Z.ltb_spec 0 (ordinal b')); [|lia].
  destruct (Z.leb_spec (ordinal b') Calendar.MAXORDINAL); [|lia].
  cbn [andb]. rewrite Hu. reflexivity.
Qed.

(** X5: the times of day do not depend on the day: for any other day
    [commits_for_day] returns the same clock times, on that day. *)
Theorem commits_for_day_same_clock_times (base base' : datetime) (count : Z) :
  1 <= ordinal base <= Calendar.MAXORDINAL ->
  1 <= ordinal base' <= Calendar.MAXORDINAL ->
  count <= 2 ^ 1023 ->
  exists l,
    commits_for_day base count = Ok l /\
    commits_for_day base' count
    = Ok ((fun t => DateTime (ordinal base') (usec t)) <$> l).
Proof.
  intros Hb Hb' Hc.
  destruct (Z_le_gt_dec count 1) as [Hsmall|Hmany].
  { rewrite !commits_for_day_small by assumption.
    eexists. split; [reflexivity|].
    destruct (count =? 0); reflexivity. }
  destruct (commits_for_day_offsets base count Hb ltac:(lia))
    as (l & Hl & _ & Helem & _).
  exists l. split; [exact Hl|].
  assert (Hr : 1 <= count - 1 < 2 ^ (Binary64.emax - 1))
    by (unfold Binary64.emax; simpl; lia).
  destruct (steps_spec (count - 1) Hr) as (d & steps & Hd & Hs & _).
  rewrite (commits_for_day_many base count d steps ltac:(lia) Hd Hs) in Hl.
  rewrite (commits_for_day_many base' count d steps ltac:(lia) Hd Hs).
  apply mapM_result_inv in Hl. apply mapM_result_intro.
  apply Forall2_fmap_r.
  apply Forall2_same_length_lookup_2; [eapply Forall2_length; exact Hl|].
  intros i x y Hx Hy.
  pose proof (Forall2_lookup_lr _ _ _ _ _ _ Hl Hx Hy) as Hxy. cbn in Hxy.
  destruct (Helem _ _ Hy) as (t & -> & _). cbn [usec].
  apply (timestamp_at_shift steps base base'); assumption.
Qed.

(** ** The plan, day by day *)

Lemma day_times_shape sd cpd o :
  1 <= sd -> 0 <= o -> sd + o <= Calendar.MAXORDINAL -> cpd <= 2 ^ 1023 ->
  exists us : list Z,
    day_times sd cpd o
    = Ok ((fun t => DateTime (sd + o) (START_US + t)) <$> us) /\
    Z.of_nat (length us) = day_size cpd /\
    Forall (fun t => 0 <= t <= SPAN_US) us /\
    Sorted Z.le us /\
    (cpd <> 0 -> head us = Some 0) /\
    (2 <= cpd -> last us = Some SPAN_US).
Proof.
  intros Hsd Ho Hmax Hc. unfold day_times, Calendar.date_add_days.
  destruct (Z.ltb_spec 0 (sd + o)); [|lia].
  destruct (Z.leb_spec (sd + o) Calendar.MAXORDINAL); [|lia].
  cbn [andb mbind result_bind].
  apply (commits_for_day_shape (midnight (sd + o)) cpd); [|assumption].
  cbn [ordinal midnight]. lia.
Qed.

Lemma concat_length_const {A} (k : Z) (ls : list (list A)) :
  Forall (fun l => Z.of_nat (length l) = k) ls ->
  Z.of_nat (length (concat ls)) = Z.of_nat (length ls) * k.
Proof.
  induction 1 as [|l ls Hl _ IH]; [reflexivity|].
  cbn [concat length]. rewrite length_app. lia.
Qed.

Global Instance datetime_le_trans : Transitive datetime_le.
Proof.
  intros a b c. unfold datetime_le, datetime_leb.
  rewrite !orb_true_iff, !andb_true_iff, !Z.ltb_lt, !Z.eqb_eq, !Z.leb_le. lia.
Qed.

Lemma day_sorted d (us : list Z) :
  Sorted Z.le us ->
  StronglySorted datetime_le ((fun t => DateTime d (START_US + t)) <$> us).
Proof.
  intros Hs. apply Sorted_StronglySorted in Hs; [|exact Z.le_trans].
  eapply StronglySorted_fmap; [|exact Hs].
  intros x y Hxy. unfold datetime_le, datetime_leb. cbn [ordinal usec].
  rewrite Z.eqb_refl. destruct (Z.leb_spec (START_US + x) (START_US + y)); [|lia].
  apply orb_true_r.
Qed.

(** Days in increasing order, each sorted, give a sorted whole. *)
Lemma days_sorted sd n : forall s ls,
  Forall2 (fun o times =>
             Forall (fun t => ordinal t = sd + o) times /\
             StronglySorted datetime_le times)
          (Z.of_nat <$> seq s n) ls ->
  StronglySorted datetime_le (concat ls) /\
  Forall (fun t => sd + Z.of_nat s <= ordinal t) (concat ls).
Proof.
  induction n as [|n IH]; intros s ls HF.
  - apply Forall2_nil_inv_l in HF as ->. split; constructor.
  - cbn [seq fmap list_fmap] in HF.
    apply Forall2_cons_inv_l in HF as (times & ls' & [Hord Hs] & HF & ->).
    destruct (IH (S s) ls' HF) as [Hrest Hlow].
    cbn [concat]. split.
    + apply StronglySorted_app_2; [|assumption|assumption].
      intros a b Ha Hb. rewrite Forall_forall in Hord, Hlow.
      specialize (Hord a Ha). specialize (Hlow b Hb).
      unfold datetime_le, datetime_leb.
      destruct (Z.ltb_spec (ordinal a) (ordinal b)); [reflexivity|lia].
    + apply Forall_app. split.
      * eapply Forall_impl; [exact Hord|]. cbn. intros t ->. lia.
      * eapply Forall_impl; [exact Hlow|]. cbn. intros t Ht. lia.
Qed.

Section PlanShape.

Context {rng_state : Type}.
Variable rng_seed : Z -> rng_state.
Variable rng_randbelow : rng_state -> Z -> Z * rng_state.

Lemma plan_offsets_times sd cpd os : forall ls g c,
  Forall2 (fun o times => day_times sd cpd o = Ok times) os ls ->
  p_time <$> (plan_offsets rng_randbelow sd cpd g c os).1 = concat ls /\
  exists g', (plan_offsets rng_randbelow sd cpd g c os).2
             = Ok (g', c + Z.of_nat (length (concat ls))).
Proof.
  induction os as [|o os IH]; intros ls g c HF.
  - apply Forall2_nil_inv_l in HF as ->. cbn. split; [reflexivity|].
    exists g. rewrite Z.add_0_r. reflexivity.
  - apply Forall2_cons_inv_l in HF as (times & ls' & Hday & HF & ->).
    cbn [plan_offsets]. rewrite Hday. cbn [fst snd concat].
    destruct (IH ls' (plan_times rng_randbelow g c times).2
                (c + Z.of_nat (length times)) HF) as [Ht [g' Hg]].
    split.
    + rewrite fmap_app, plan_times_time, Ht. reflexivity.
    + exists g'. rewrite Hg, length_app. do 2 f_equal. lia.
Qed.

(** The plan of a run with a valid start year and clock, and a commit count
    that converts to a double: the timestamps of its days one after the
    other. *)
Lemma plan_shape args today :
  1 <= start_year args <= 9999 -> 1 <= today <= Calendar.MAXORDINAL ->
  commits_per_day args <= 2 ^ 1023 ->
  let sd := Calendar.ymd2ord (start_year args) 1 1 in
  let cpd := commits_per_day args in
  exists uss : list (list Z),
    Forall2 (fun o us =>
               Z.of_nat (length us) = day_size cpd /\
               Forall (fun t => 0 <= t <= SPAN_US) us /\
               Sorted Z.le us /\
               (cpd <> 0 -> head us = Some 0) /\
               (2 <= cpd -> last us = Some SPAN_US))
            (range (total_days args today sd)) uss /\
    p_time <$> (plan rng_seed rng_randbelow args today).1
    = concat (zip_with (fun o us =>
                          (fun t => DateTime (sd + o) (START_US + t)) <$> us)
                       (range (total_days args today sd)) uss) /\
    (plan rng_seed rng_randbelow args today).2
    = Ok (Z.max 0 (total_days args today sd) * day_size cpd) /\
    Z.of_nat (length (plan rng_seed rng_randbelow args today).1)
    = Z.max 0 (total_days args today sd) * day_size cpd.
Proof.
  intros Hy Ht Hc sd cpd.
  assert (Hsd : 1 <= sd) by (apply ymd2ord_january_first; lia).
  set (D := total_days args today sd).
  assert (HD : D <= today - sd + 1).
  { unfold D, total_days. destruct (max_days args); lia. }
  assert (Hdays : forall os, (forall o, o ∈ os -> 0 <= o < D) ->
            exists uss,
              Forall2 (fun o us =>
                 Z.of_nat (length us) = day_size cpd /\
                 Forall (fun t => 0 <= t <= SPAN_US) us /\
                 Sorted Z.le us /\
                 (cpd <> 0 -> head us = Some 0) /\
                 (2 <= cpd -> last us = Some SPAN_US)) os uss /\
              Forall2 (fun o times => day_times sd cpd o = Ok times) os
                (zip_with (fun o us =>
                     (fun t => DateTime (sd + o) (START_US + t)) <$> us) os uss)).
  { induction os as [|o os IH]; intros Hos.
    - exists []. split; constructor.
    - destruct IH as (uss & H1 & H2); [intros o' Ho'; apply Hos; right; exact Ho'|].
      destruct (Hos o ltac:(left)) as [Ho0 Ho1].
      destruct (day_times_shape sd cpd o Hsd Ho0 ltac:(lia) Hc)
        as (us & Hus & Hshape).
      exists (us :: uss). split; constructor; assumption. }
  destruct (Hdays (range D)) as (uss & Hshape & Htimes);
    [intros o Ho; apply range_elem; exact Ho|].
  exists uss. split; [exact Hshape|].
  unfold plan. rewrite date_january_first by assumption.
  fold sd. fold D. fold cpd.
  destruct (plan_offsets_times sd cpd (range D) _ (rng_seed (seed args)) 0 Htimes)
    as [Hpt [g' Hres]].
  cbn [fst snd]. rewrite Hres.
  assert (Hlen : Z.of_nat (length (concat (zip_with (fun o us =>
                     (fun t => DateTime (sd + o) (START_US + t)) <$> us)
                     (range D) uss))) = Z.max 0 D * day_size cpd).
  { rewrite (concat_length_const (day_size cpd)).
    - rewrite length_zip_with, <- (Forall2_length _ _ _ Hshape), Nat.min_id.
      rewrite range_length. lia.
    - apply Forall_forall. intros l Hl.
      apply list_elem_of_lookup in Hl as [i Hi].
      apply lookup_zip_with_Some in Hi as (o & us & -> & Ho & Hus).
      rewrite length_fmap.
      destruct (Forall2_lookup_lr _ _ _ _ _ _ Hshape Ho Hus) as [Hl _].
      exact Hl. }
  split; [exact Hpt|]. split.
  - rewrite Z.add_0_l, Hlen. reflexivity.
  - rewrite <- Hlen, <- Hpt, length_fmap. reflexivity.
Qed.

End PlanShape.

(** ** Whole runs *)



Lemma log_lines_stamps (a b : list planned) :
  (fun p => (p_time p, p_index p)) <$> a
  = (fun p => (p_time p, p_index p)) <$> b ->
  log_lines a = log_lines b.
Proof.
  revert b. induction a as [|p a IH]; intros [|q b] H; try discriminate.
  - reflexivity.
  - cbn in H. injection H as Ht Hi Hrest.
    cbn [log_lines foldr]. fold (log_lines a) (log_lines b).
    rewrite Ht, Hi, (IH b Hrest). reflexivity.
Qed.

Lemma log_after_stamps (stored : string) (a b : list planned) :
  (fun p => (p_time p, p_index p)) <$> a
  = (fun p => (p_time p, p_index p)) <$> b ->
  log_after stored a = log_after stored b.
Proof.
  intros H. pose proof (log_lines_stamps a b H) as Hl.
  destruct a as [|p a], b as [|q b]; try discriminate H; [reflexivity|].
  unfold log_after. rewrite Hl. reflexivity.
Qed.

Lemma commit_events_commit env dp content calls : forall cargs e,
  Git ("commit" :: cargs) e ∈ commit_events env dp content calls ->
  dp <> "commit" ->
  exists p, p ∈ calls /\ cargs = ["-m"; p_message p] /\
    e = Some (git_date_env env (strftime_seconds (p_time p))).
Proof.
  revert content. induction calls as [|p ps IH]; intros content cargs e Hin Hdp.
  - cbn in Hin. apply elem_of_nil in Hin. contradiction.
  - cbn [commit_events app] in Hin.
    apply elem_of_cons in Hin as [Hin|Hin]; [discriminate|].
    apply elem_of_cons in Hin as [Hin|Hin]; [discriminate|].
    apply elem_of_cons in Hin as [Hin|Hin].
    { injection Hin as Hadd _. congruence. }
    apply elem_of_cons in Hin as [Hin|Hin].
    { injection Hin as -> ->. exists p. split; [left|]. split; reflexivity. }
    destruct (IH _ _ _ Hin Hdp) as (q & Hq & Hc & He).
    exists q. split; [right; exact Hq|]. split; assumption.
Qed.

Section PlanStamps.

Context {rng_state : Type}.
Variables rng_seed rng_seed' : Z -> rng_state.
Variables rng_randbelow rng_randbelow' : rng_state -> Z -> Z * rng_state.

Lemma plan_times_stamps times : forall g g' c,
  (fun p => (p_time p, p_index p)) <$> (plan_times rng_randbelow g c times).1
  = (fun p => (p_time p, p_index p)) <$> (plan_times rng_randbelow' g' c times).1.
Proof.
  induction times as [|t ts IH]; intros g g' c; [reflexivity|].
  cbn [plan_times fst fmap list_fmap p_time p_index]. f_equal. apply IH.
Qed.

Lemma plan_offsets_stamps sd cpd os : forall g g' c,
  (fun p => (p_time p, p_index p))
    <$> (plan_offsets rng_randbelow sd cpd g c os).1
  = (fun p => (p_time p, p_index p))
    <$> (plan_offsets rng_randbelow' sd cpd g' c os).1 /\
  match (plan_offsets rng_randbelow sd cpd g c os).2 with
  | Ok (_, n) => Ok n
  | Raise e => Raise e
  end
  = match (plan_offsets rng_randbelow' sd cpd g' c os).2 with
    | Ok (_, n) => Ok n
    | Raise e => Raise e
    end.
Proof.
  induction os as [|o os IH]; intros g g' c; [split; reflexivity|].
  cbn [plan_offsets]. destruct (day_times sd cpd o) as [times|e];
    [|split; reflexivity].
  cbn [fst snd].
  destruct (IH (plan_times rng_randbelow g c times).2
               (plan_times rng_randbelow' g' c times).2
               (c + Z.of_nat (length times))) as [H1 H2].
  split; [|exact H2].
  rewrite !fmap_app, H1, (plan_times_stamps times g g' c). reflexivity.
Qed.

(** Timestamps and indices of the plan depend on neither seed nor
    generator. *)
Lemma plan_stamps args args' today :
  start_year args' = start_year args ->
  commits_per_day args' = commits_per_day args ->
  max_days args' = max_days args ->
  (fun p => (p_time p, p_index p)) <$> (plan rng_seed rng_randbelow args today).1
  = (fun p => (p_time p, p_index p))
    <$> (plan rng_seed' rng_randbelow' args' today).1 /\
  (plan rng_seed rng_randbelow args today).2
  = (plan rng_seed' rng_randbelow' args' today).2.
Proof.
  intros Hy Hc Hm. unfold plan, total_days. rewrite Hy, Hc, Hm.
  destruct (Calendar.date (start_year args) 1 1) as [sd|e]; [|split; reflexivity].
  cbn [fst snd]. apply plan_offsets_stamps.
Qed.

End PlanStamps.

Section RunShape.

Context {rng_state : Type}.
Variable rng_seed : Z -> rng_state.
Variable rng_randbelow : rng_state -> Z -> Z * rng_state.
Variable git : list string -> option (gmap string string) -> World rng_state
               -> CompletedProcess.

Local Abbreviation main := (main rng_seed rng_randbelow git).
Local Abbreviation run_events := (run_events rng_seed rng_randbelow git).
Local Abbreviation plan := (plan rng_seed rng_randbelow).


(** X7: the commit times of such a run never go back: each call of
    [make_commit] gets a time at or after the times of all calls before it,
    on a day from January 1 of the start year to today and from 08:00:00 to
    23:59:59.999999. *)
Theorem run_times_chronological args w :
  backfills git args w = true ->
  1 <= start_year args <= 9999 ->
  1 <= ordinal (now w) <= Calendar.MAXORDINAL ->
  commits_per_day args <= 2 ^ 1023 ->
  let times := p_time <$> commit_calls (run_events args w) in
  StronglySorted datetime_le times /\
  Forall (fun t =>
            Calendar.ymd2ord (start_year args) 1 1 <= ordinal t
            <= ordinal (now w) /\
            time_usec 8 0 0 0 <= usec t <= time_usec 23 59 59 999999) times.
Proof.
  intros Hrun Hy Ht Hc times. unfold times.
  rewrite run_calls_backfill by assumption.
  destruct (plan_shape rng_seed rng_randbelow args (ordinal (now w)) Hy Ht Hc)
    as (uss & Hshape & -> & _).
  set (sd := Calendar.ymd2ord (start_year args) 1 1) in *.
  set (D := total_days args (ordinal (now w)) sd) in *.
  set (f := fun (o : Z) (us : list Z) =>
              (fun t => DateTime (sd + o) (START_US + t)) <$> us).
  assert (HD : D <= ordinal (now w) - sd + 1).
  { unfold D, total_days. destruct (max_days args); lia. }
  split.
  - apply (days_sorted sd (Z.to_nat D) 0%nat). fold (range D).
    apply Forall2_same_length_lookup_2.
    + rewrite length_zip_with, <- (Forall2_length _ _ _ Hshape), Nat.min_id.
      reflexivity.
    + intros i o l Ho Hl.
      apply lookup_zip_with_Some in Hl as (o' & us & -> & Ho' & Hus).
      rewrite Ho in Ho'. injection Ho' as <-.
      destruct (Forall2_lookup_lr _ _ _ _ _ _ Hshape Ho Hus)
        as (_ & _ & Hsorted & _).
      split; [|apply day_sorted; exact Hsorted].
      apply Forall_forall. intros t Hin.
      apply list_elem_of_fmap in Hin as (u & -> & _). reflexivity.
  - apply Forall_forall. intros t Hin.
    apply list_elem_of_In, in_concat in Hin as (l & Hl & Hin).
    apply list_elem_of_In in Hl, Hin.
    apply list_elem_of_lookup in Hl as [i Hi].
    apply lookup_zip_with_Some in Hi as (o & us & -> & Ho & Hus).
    destruct (Forall2_lookup_lr _ _ _ _ _ _ Hshape Ho Hus)
      as (_ & Hwin & _).
    apply list_elem_of_fmap in Hin as (u & -> & Hu).
    rewrite Forall_forall in Hwin. specialize (Hwin u Hu).
    apply range_lookup in Ho as [-> Hlt]. cbn [ordinal usec].
    change (time_usec 8 0 0 0) with START_US.
    change (time_usec 23 59 59 999999) with (START_US + SPAN_US).
    lia.
Qed.


(** X9: after a non-dry run that passes its pre-flight checks, the log file
    is as it was (empty if it was absent) when no commit was attempted;
    otherwise it holds the text that was read from it, with ["\r\n"] and
    ["\r"] turned into ["\n"], followed by one line for each call of
    [make_commit], in order, so that a log without carriage returns is kept
    character for character in front of the new lines.  README.md is written
    only where there was neither [.git] nor a README; no other file
    changes. *)
Theorem run_files args w :
  backfills git args w = true ->
  let w' := (main args w).2 in
  let stored := default EmptyString (files w !! "history.txt") in
  let calls := commit_calls (run_events args w) in
  files w' !! "history.txt"
  = Some (match calls with
          | [] => stored
          | _ :: _ => universal_newlines stored +:+ log_lines calls
          end) /\
  (no_cr stored = true ->
   files w' !! "history.txt" = Some (stored +:+ log_lines calls)) /\
  files w' !! "README.md"
  = (if git_dir w then files w !! "README.md"
     else Some (default README_TEXT (files w !! "README.md"))) /\
  forall other, other <> "history.txt" -> other <> "README.md" ->
    files w' !! other = files w !! other.
Proof.
  intros Hrun w' stored calls. unfold w', calls.
  rewrite run_calls_backfill by assumption.
  destruct (backfill_run rng_seed rng_randbelow args w git Hrun)
    as (w1 & evs & Hm & _ & _ & Hf).
  rewrite Hm. cbn [snd]. rewrite Hf. fold stored.
  unfold setup_files, init_files, has_file.
  split; [apply lookup_insert_eq|]. split.
  { intros Hcr. rewrite lookup_insert_eq, log_after_no_cr by exact Hcr.
    reflexivity. }
  split.
  - rewrite lookup_insert_ne by discriminate.
    destruct (git_dir w); [reflexivity|].
    destruct (files w !! "README.md") as [c|] eqn:Hreadme.
    + rewrite bool_decide_eq_true_2 by eauto. exact Hreadme.
    + rewrite bool_decide_eq_false_2 by (intros [? ?]; discriminate).
      apply lookup_insert_eq.
  - intros other Hh Hr. rewrite lookup_insert_ne by congruence.
    destruct (git_dir w); [reflexivity|].
    destruct (bool_decide (is_Some (files w !! "README.md"))); [reflexivity|].
    apply lookup_insert_ne. congruence.
Qed.

(** X10: every [git commit] of such a run is either the initial commit of
    the bootstrap, run in a directory without [.git] and README and with the
    inherited environment, or the commit of a [make_commit] call: it has
    [-m] and the call's message, and an environment in which GIT_AUTHOR_DATE
    and GIT_COMMITTER_DATE are the call's time formatted to the second and
    every other variable is as in [os.environ]. *)
Theorem commits_carry_their_date args w :
  backfills git args w = true ->
  forall cargs env, Git ("commit" :: cargs) env ∈ run_events args w ->
    (cargs = ["-m"; "Initial commit"] /\ env = None /\ git_dir w = false /\
     files w !! "README.md" = None)
    \/ exists p e,
         p ∈ commit_calls (run_events args w) /\
         cargs = ["-m"; p_message p] /\ env = Some e /\
         e !! "GIT_AUTHOR_DATE" = Some (strftime_seconds (p_time p)) /\
         e !! "GIT_COMMITTER_DATE" = Some (strftime_seconds (p_time p)) /\
         forall k, k <> "GIT_AUTHOR_DATE" -> k <> "GIT_COMMITTER_DATE" ->
           e !! k = environ w !! k.
Proof.
  intros Hrun cargs env Hin.
  rewrite run_calls_backfill by assumption.
  destruct (backfill_run rng_seed rng_randbelow args w git Hrun)
    as (w1 & evs & _ & Hev & Heff & _).
  rewrite Hev in Hin. apply elem_of_app in Hin as [Hin|Hin].
  - left. unfold setup_events, init_events, STATUS in Hin.
    destruct (git_dir w).
    { exfalso. apply elem_of_app in Hin as [Hin|Hin].
      - apply list_elem_of_singleton in Hin. discriminate.
      - destruct (has_file w "history.txt").
        + apply elem_of_nil in Hin. exact Hin.
        + apply list_elem_of_singleton in Hin. discriminate. }
    destruct (has_file w "README.md") eqn:Hreadme.
    { exfalso. apply elem_of_app in Hin as [Hin|Hin].
      - apply list_elem_of_singleton in Hin. discriminate.
      - destruct (has_file w "history.txt").
        + apply elem_of_nil in Hin. exact Hin.
        + apply list_elem_of_singleton in Hin. discriminate. }
    apply has_file_lookup in Hreadme.
    apply elem_of_app in Hin as [Hin|Hin].
    + repeat (apply elem_of_cons in Hin as [Hin|Hin]; [try discriminate|]).
      * injection Hin as -> ->. repeat split; assumption.
      * apply elem_of_nil in Hin. contradiction.
    + exfalso. destruct (has_file w "history.txt").
      * apply elem_of_nil in Hin. exact Hin.
      * apply list_elem_of_singleton in Hin. discriminate.
  - right. apply effects_elem in Hin; [|reflexivity].
    rewrite Heff in Hin.
    apply commit_events_commit in Hin as (p & Hp & -> & ->); [|discriminate].
    exists p, (git_date_env (environ w) (strftime_seconds (p_time p))).
    split; [exact Hp|]. split; [reflexivity|]. split; [reflexivity|].
    unfold git_date_env. split; [|split].
    + rewrite lookup_insert_ne by discriminate. apply lookup_insert_eq.
    + apply lookup_insert_eq.
    + intros k Ha Hc. rewrite !lookup_insert_ne by congruence. reflexivity.
Qed.

(** X11: a start year outside 1..9999 raises [ValueError], or
    [OverflowError] when it is no C [int] (below -2^31 or from 2^31 on), and
    only after the pre-flight part: a non-dry run has by then initialised
    the repository and created the log file.  Nothing is printed and no
    commit is attempted. *)
Theorem invalid_start_year args w :
  ~ 1 <= start_year args <= 9999 ->
  is_dir w = true ->
  dry_run args = true \/ git_dir w && dirty git w = false ->
  (main args w).1
  = Raise (if Calendar.fits_c_int (start_year args)
           then ValueError else OverflowError) /\
  run_events args w = (if dry_run args then [] else setup_events w) /\
  files (main args w).2
  = (if dry_run args then files w
     else if has_file w "history.txt" then setup_files w
     else <["history.txt" := EmptyString]> (setup_files w)).
Proof.
  intros Hy Hdir Hpre.
  set (e := if Calendar.fits_c_int (start_year args)
            then ValueError else OverflowError).
  assert (Hdate : Calendar.date (start_year args) 1 1 = Raise e).
  { unfold e, Calendar.date.
    change (Calendar.fits_c_int 1) with true. rewrite !andb_true_r.
    destruct (Calendar.fits_c_int (start_year args)); [|reflexivity].
    unfold Calendar.MINYEAR, Calendar.MAXYEAR. cbn [negb].
    destruct (Z.leb_spec 1 (start_year args));
      destruct (Z.leb_spec (start_year args) 9999);
      cbn [andb negb]; try reflexivity.
    lia. }
  destruct (dry_run args) eqn:Hdry.
  - pose proof (main_dry rng_seed rng_randbelow git args w Hdry Hdir) as Hm.
    rewrite Hdate in Hm.
    split; [rewrite Hm; reflexivity|]. split; [|rewrite Hm; reflexivity].
    apply run_events_intro. rewrite Hm. cbn [snd]. rewrite app_nil_r. reflexivity.
  - destruct Hpre as [Hpre|Hclean]; [discriminate|].
    destruct (bootstrap_spec git args w Hdry) as (w1 & Hb & Hs1 & Hr1 & Hf1 & Ht1).
    rewrite Hclean in Hb.
    assert (Hh : has_file w1 "history.txt" = has_file w "history.txt").
    { unfold has_file. rewrite Hf1, setup_files_history. reflexivity. }
    set (w2 := if has_file w "history.txt" then w1
               else log_event (WriteText "history.txt" EmptyString)
                      (set_file "history.txt" EmptyString w1)).
    assert (Hm : main args w = (Raise e, w2)).
    { rewrite main_eq.
      rewrite (bind_ok _ _ w (is_dir w) w) by reflexivity. rewrite Hdir. cbn [negb].
      rewrite (bind_ok _ _ w false w1) by exact Hb.
      unfold backfill.
      rewrite (bind_ok _ _ w1 (has_file w "history.txt") w1)
        by (rewrite <- Hh; reflexivity).
      rewrite Hdry. cbn [negb]. rewrite andb_true_r.
      rewrite (bind_ok _ _ w1 tt w2)
        by (unfold w2; destruct (has_file w "history.txt"); reflexivity).
      rewrite (bind_ok _ _ w2 (ordinal (now w2)) w2) by reflexivity.
      apply bind_raise. unfold lift. rewrite Hdate. reflexivity. }
    rewrite Hm. cbn [fst snd]. split; [reflexivity|]. split.
    + apply run_events_intro. rewrite Hm. cbn [snd]. unfold w2, setup_events.
      destruct (has_file w "history.txt"); cbn [trace log_event set_file];
        rewrite Ht1; [rewrite app_nil_r|rewrite <- app_assoc]; reflexivity.
    + unfold w2. destruct (has_file w "history.txt");
        cbn [files log_event set_file]; rewrite Hf1; reflexivity.
Qed.

End RunShape.

Section TwoRunsMore.

Context {rng_state : Type}.
Variables rng_seed rng_seed' : Z -> rng_state.
Variables rng_randbelow rng_randbelow' : rng_state -> Z -> Z * rng_state.
Variables git git' : list string -> option (gmap string string)
                     -> World rng_state -> CompletedProcess.

(** X12: seed and generator choose the message phrases and nothing else:
    the result of a run, its commit times and indices, and the files it
    leaves are the same for any two seeds and generators. *)
Theorem seed_changes_phrases_only args args' w :
  start_year args' = start_year args ->
  commits_per_day args' = commits_per_day args ->
  max_days args' = max_days args ->
  dry_run args' = dry_run args ->
  backfills git args w = true ->
  (main rng_seed rng_randbelow git args w).1
  = (main rng_seed' rng_randbelow' git args' w).1 /\
  (fun p => (p_time p, p_index p))
    <$> commit_calls (run_events rng_seed rng_randbelow git args w)
  = (fun p => (p_time p, p_index p))
    <$> commit_calls (run_events rng_seed' rng_randbelow' git args' w) /\
  files (main rng_seed rng_randbelow git args w).2
  = files (main rng_seed' rng_randbelow' git args' w).2.
Proof.
  intros Hy Hc Hm Hd Hrun.
  assert (Hrun' : backfills git args' w = true).
  { unfold backfills in *. rewrite Hd. exact Hrun. }
  destruct (plan_stamps rng_seed rng_seed' rng_randbelow rng_randbelow'
              args args' (ordinal (now w)) Hy Hc Hm) as [Hst Hres].
  rewrite !run_calls_backfill by assumption.
  destruct (backfill_run rng_seed rng_randbelow args w git Hrun)
    as (w1 & evs1 & Hm1 & _ & _ & Hf1).
  destruct (backfill_run rng_seed' rng_randbelow' args' w git Hrun')
    as (w2 & evs2 & Hm2 & _ & _ & Hf2).
  rewrite Hm1, Hm2. cbn [fst snd].
  split; [rewrite Hres; reflexivity|]. split; [exact Hst|].
  rewrite Hf1, Hf2, (log_after_stamps _ _ _ Hst). reflexivity.
Qed.

(** X13: a second run on the same day, in the directory as the first run
    left it, attempts the same commits again, numbered from 1 again, and
    appends the same lines a second time to the log file that the first run
    left; where the log had no carriage returns before the first run, it
    then holds what it held followed by the lines twice. *)
Theorem rerun_appends_again args w1 w2 :
  backfills git args w1 = true -> backfills git' args w2 = true ->
  files w2 = files (main rng_seed rng_randbelow git args w1).2 ->
  ordinal (now w2) = ordinal (now w1) ->
  let lines := log_lines (commit_calls
                 (run_events rng_seed rng_randbelow git args w1)) in
  commit_calls (run_events rng_seed rng_randbelow git' args w2)
  = commit_calls (run_events rng_seed rng_randbelow git args w1) /\
  (exists left,
     files (main rng_seed rng_randbelow git args w1).2 !! "history.txt"
     = Some left /\
     files (main rng_seed rng_randbelow git' args w2).2 !! "history.txt"
     = Some (left +:+ lines)) /\
  (no_cr (default EmptyString (files w1 !! "history.txt")) = true ->
   files (main rng_seed rng_randbelow git' args w2).2 !! "history.txt"
   = Some (default EmptyString (files w1 !! "history.txt")
           +:+ lines +:+ lines)).
Proof.
  intros Hrun1 Hrun2 Hfiles Hnow lines. unfold lines.
  rewrite !run_calls_backfill by assumption. rewrite Hnow.
  split; [reflexivity|].
  destruct (backfill_run rng_seed rng_randbelow args w1 git Hrun1)
    as (v1 & evs1 & Hm1 & _ & _ & Hf1).
  destruct (backfill_run rng_seed rng_randbelow args w2 git' Hrun2)
    as (v2 & evs2 & Hm2 & _ & _ & Hf2).
  rewrite Hm1 in Hfiles. cbn [snd] in Hfiles.
  rewrite Hm1, Hm2. cbn [snd]. rewrite Hf2, lookup_insert_eq.
  rewrite Hfiles, Hf1, lookup_insert_eq. rewrite Hnow.
  match goal with |- context [default EmptyString (Some ?x)] =>
    change (default EmptyString (Some x)) with x end.
  rewrite log_after_twice. split.
  - eexists. split; reflexivity.
  - intros Hcr. rewrite log_after_no_cr by exact Hcr.
    rewrite string_app_assoc. reflexivity.
Qed.

End TwoRunsMore.

(** ** Console output *)


Section Console.

Context {rng_state : Type}.
Variable rng_seed : Z -> rng_state.
Variable rng_randbelow : rng_state -> Z -> Z * rng_state.
Variable git : list string -> option (gmap string string) -> World rng_state
               -> CompletedProcess.






End Console.

Section RunCommands.

Context {rng_state : Type}.
Variable rng_seed : Z -> rng_state.
Variable rng_randbelow : rng_state -> Z -> Z * rng_state.
Variable git : list string -> option (gmap string string) -> World rng_state
               -> CompletedProcess.

(** X15: a run gives git no other commands than these: the status query,
    in a directory that has [.git]; [init], the staging of README.md and the
    initial commit, in a directory that has none; the staging of the log
    file and the commits with a message and a date.  A dry run, or a run on
    a missing directory, gives it none. *)
Theorem run_git_commands args w :
  forall gargs env,
    Git gargs env ∈ run_events rng_seed rng_randbelow git args w ->
    is_dir w = true /\ dry_run args = false /\
    ((gargs = ["status"; "--short"] /\ env = None /\ git_dir w = true) \/
     (gargs = ["init"] /\ env = None /\ git_dir w = false) \/
     (gargs = ["add"; "README.md"] /\ env = None /\ git_dir w = false) \/
     (gargs = ["commit"; "-m"; "Initial commit"] /\ env = None /\
      git_dir w = false) \/
     (gargs = ["add"; "history.txt"] /\ env = None) \/
     (exists m, gargs = ["commit"; "-m"; m] /\ env <> None)).
Proof.
  intros gargs env Hin.
  destruct (is_dir w) eqn:Hdir.
  2:{ exfalso.
      rewrite (run_events_intro rng_seed rng_randbelow git args w
                 [PrintErr ("Error: directory does not exist: " +:+ cwd w)])
        in Hin.
      - apply list_elem_of_singleton in Hin. discriminate.
      - rewrite main_missing by assumption. reflexivity. }
  destruct (dry_run args) eqn:Hdry.
  { exfalso.
    pose proof (main_dry rng_seed rng_randbelow git args w Hdry Hdir) as Hm.
    destruct (Calendar.date (start_year args) 1 1) as [sd|e].
    - rewrite (run_events_intro rng_seed rng_randbelow git args w
                 [PrintOut (planned_line args
                              (total_days args (ordinal (now w)) sd));
                  PrintOut DRY_RUN_MESSAGE]) in Hin.
      + repeat (apply elem_of_cons in Hin as [Hin|Hin]; [discriminate|]).
        apply elem_of_nil in Hin. exact Hin.
      + rewrite Hm. cbn [snd trace log_event set_rng].
        rewrite <- app_assoc. reflexivity.
    - rewrite (run_events_intro rng_seed rng_randbelow git args w []) in Hin.
      + apply elem_of_nil in Hin. exact Hin.
      + rewrite Hm. cbn [snd]. rewrite app_nil_r. reflexivity. }
  split; [reflexivity|]. split; [reflexivity|].
  destruct (git_dir w && dirty git w) eqn:Hclean.
  { apply andb_true_iff in Hclean as [Hg Hd].
    rewrite (run_events_intro rng_seed rng_randbelow git args w
               [Git STATUS None; PrintErr DIRTY_MESSAGE]) in Hin.
    - apply elem_of_cons in Hin as [Hin|Hin].
      + injection Hin as -> ->. left. repeat split; assumption.
      + apply list_elem_of_singleton in Hin. discriminate.
    - rewrite main_dirty by assumption. cbn [snd trace log_event].
      rewrite <- app_assoc. reflexivity. }
  destruct (backfill_run rng_seed rng_randbelow args w git) as
    (w1 & evs & _ & Hev & Heff & _).
  { unfold backfills. rewrite Hdir, Hdry, Hclean. reflexivity. }
  rewrite Hev in Hin. apply elem_of_app in Hin as [Hin|Hin].
  - unfold setup_events, init_events, STATUS in Hin.
    apply elem_of_app in Hin as [Hin|Hin].
    + destruct (git_dir w).
      { apply list_elem_of_singleton in Hin. injection Hin as -> ->.
        left. repeat split. }
      apply elem_of_cons in Hin as [Hin|Hin].
      { injection Hin as -> ->. right. left. repeat split. }
      destruct (has_file w "README.md").
      { apply elem_of_nil in Hin. contradiction. }
      apply elem_of_cons in Hin as [Hin|Hin]; [discriminate|].
      apply elem_of_cons in Hin as [Hin|Hin].
      { injection Hin as -> ->. right. right. left. repeat split. }
      apply list_elem_of_singleton in Hin. injection Hin as -> ->.
      right. right. right. left. repeat split.
    + destruct (has_file w "history.txt").
      * apply elem_of_nil in Hin. contradiction.
      * apply list_elem_of_singleton in Hin. discriminate.
  - apply effects_elem in Hin; [|reflexivity]. rewrite Heff in Hin.
    apply commit_events_git in Hin as [[-> ->]|(m & -> & He)].
    + right. right. right. right. left. split; reflexivity.
    + right. right. right. right. right. exists m. split; [reflexivity|exact He].
Qed.

End RunCommands.

Example strftime_seconds_example :
  strftime_seconds (DateTime 738886 57599999999) = "2024-01-01 15:59:59".
Proof. vm_compute. reflexivity. Qed.

(** ** Concrete runs *)

Example strftime_minutes_example :
  strftime_minutes (DateTime 738886 57599999999) = "2024-01-01 15:59".
Proof. vm_compute. reflexivity. Qed.

(** Two days of two commits each: the indices run on across midnight. *)
Example commit_indices_two_days :
  (fun p => (strftime_seconds (p_time p), p_index p))
  <$> commit_calls (run_events Sample.lcg_seed Sample.lcg_randbelow
                      Sample.git_failing (Sample.arguments false 2 2)
                      Sample.fresh)
  = [ ("2024-01-01 08:00:00", 1); ("2024-01-01 23:59:59", 2);
      ("2024-01-02 08:00:00", 3); ("2024-01-02 23:59:59", 4) ].
Proof. vm_compute. reflexivity. Qed.

(** A count whose predecessor is not a finite double raises. *)
Example commits_for_day_overflow :
  commits_for_day (midnight 738886) (2 ^ 1024 + 1) = Raise OverflowError.
Proof. vm_compute. reflexivity. Qed.

(** C1 as stated fails: with three commits on 2024-01-01 the two gaps are
    28799999999 and 28800000000 microseconds, and neither is half the span
    of 57599999999 microseconds. *)
Lemma commits_for_day_gaps_differ :
  exists a b c,
    commits_for_day (midnight 738886) 3 = Ok [a; b; c] /\
    datetime_sub b a = 28799999999 /\ datetime_sub c b = 28800000000 /\
    datetime_sub b a * (3 - 1) <> SPAN_US /\
    datetime_sub c b * (3 - 1) <> SPAN_US.
Proof.
  eexists _, _, _. split; [vm_compute; reflexivity|].
  vm_compute. repeat split; discriminate.
Qed.

Lemma commits_for_day_interpolates_witness :
  exists l,
    commits_for_day (midnight 738886) 30 = Ok l /\ Z.of_nat (length l) = 30.
Proof.
  destruct (commits_for_day_interpolates (midnight 738886) 30)
    as (l & Hl & Hlen & _).
  - split; apply Z.leb_le; reflexivity.
  - split; apply Z.leb_le; vm_compute; reflexivity.
  - exists l. split; [exact Hl|exact Hlen].
Defined.

Lemma commits_for_day_negative_witness :
  commits_for_day (midnight 738886) (-4)
  = Ok [replace_time (midnight 738886) 8 0 0 0].
Proof. apply commits_for_day_negative. lia. Defined.




Lemma commit_failure_is_skipped_witness :
  (exists w',
     make_commit Sample.git_failing (DateTime 738886 START_US) "WIP"
       "history.txt" 1 Sample.fresh = (Ok false, w')) /\
  (main Sample.lcg_seed Sample.lcg_randbelow Sample.git_failing
     (Sample.arguments false 1 3) Sample.fresh).1
  = (main Sample.lcg_seed Sample.lcg_randbelow Sample.git_ok
       (Sample.arguments false 1 3) Sample.fresh).1.
Proof.
  destruct (commit_failure_is_skipped Sample.lcg_seed Sample.lcg_randbelow
              Sample.git_failing Sample.git_ok) as [Hcall Hrun].
  split.
  - destruct (Hcall (DateTime 738886 START_US) "WIP" "history.txt" 1
                Sample.fresh) as (w' & Hw' & _).
    + cbn. lia.
    + exists w'. exact Hw'.
  - apply Hrun; vm_compute; reflexivity.
Defined.

(** C6 as stated fails: in a directory without [.git] that already has a
    README, the bootstrap runs [git init] and makes no initial commit. *)
Lemma bootstrap_keeps_existing_readme :
  dry_run (Sample.arguments false 1 3) = false /\
  is_dir Sample.with_readme = true /\ git_dir Sample.with_readme = false /\
  existsb is_unstamped_commit
    (run_events Sample.lcg_seed Sample.lcg_randbelow Sample.git_ok
       (Sample.arguments false 1 3) Sample.with_readme) = false /\
  files (main Sample.lcg_seed Sample.lcg_randbelow Sample.git_ok
           (Sample.arguments false 1 3) Sample.with_readme).2 !! "README.md"
  = Some ("# Mine" +:+ nl) /\
  existsb (is_git ["add"; "README.md"])
    (run_events Sample.lcg_seed Sample.lcg_randbelow Sample.git_ok
       (Sample.arguments false 1 3) Sample.with_readme) = false /\
  existsb (is_git ["commit"; "-m"; "Initial commit"])
    (run_events Sample.lcg_seed Sample.lcg_randbelow Sample.git_ok
       (Sample.arguments false 1 3) Sample.with_readme) = false.
Proof. repeat split; vm_compute; reflexivity. Qed.

Lemma bootstrap_fresh_directory_witness :
  exists rest,
    run_events Sample.lcg_seed Sample.lcg_randbelow Sample.git_ok
      (Sample.arguments false 1 3) Sample.fresh
    = [ Git ["init"] None;
        WriteText "README.md" README_TEXT;
        Git ["add"; "README.md"] None;
        Git ["commit"; "-m"; "Initial commit"] None ] ++ rest.
Proof.
  destruct (bootstrap_fresh_directory Sample.lcg_seed Sample.lcg_randbelow
              Sample.git_ok (Sample.arguments false 1 3) Sample.fresh)
    as (_ & rest & Hrest & _).
  - reflexivity.
  - reflexivity.
  - reflexivity.
  - exists rest. exact Hrest.
Defined.

(** C7 as stated fails: a log file with a DOS line end is not kept in front
    of the new line; its carriage return is gone. *)
Lemma make_commit_rewrites_line_ends :
  files Sample.with_dos_log !! "history.txt"
  = Some ("note" +:+ String CR nl) /\
  files (make_commit Sample.git_ok (DateTime 738886 START_US) "WIP"
           "history.txt" 1 Sample.with_dos_log).2 !! "history.txt"
  = Some ("note" +:+ nl +:+ "2024-01-01 08:00:00 | commit #1" +:+ nl) /\
  String.prefix ("note" +:+ String CR nl)
    ("note" +:+ nl +:+ "2024-01-01 08:00:00 | commit #1" +:+ nl) = false.
Proof. repeat split; vm_compute; reflexivity. Qed.

Lemma make_commit_appends_line_witness :
  files (make_commit Sample.git_ok (DateTime 738886 START_US) "WIP"
           "history.txt" 1 Sample.repository).2 !! "history.txt"
  = Some (("earlier" +:+ nl)
          +:+ strftime_seconds (DateTime 738886 START_US)
          +:+ " | commit #" +:+ pretty 1 +:+ nl).
Proof.
  destruct (make_commit_appends_line Sample.git_ok (DateTime 738886 START_US)
              "WIP" "history.txt" 1 Sample.repository) as (_ & Hkept & _).
  apply (Hkept ("earlier" +:+ nl)).
  - vm_compute. reflexivity.
  - vm_compute. reflexivity.
Defined.

(** Below the year 1000 the year is written without padding. *)
Example strftime_seconds_year_999 :
  strftime_seconds (DateTime (Calendar.ymd2ord 999 1 1) START_US)
  = "999-01-01 08:00:00".
Proof. vm_compute. reflexivity. Qed.

Lemma message_sequence_deterministic_witness :
  commit_calls (run_events Sample.lcg_seed Sample.lcg_randbelow Sample.git_ok
                  (Sample.arguments false 2 2) Sample.fresh)
  = commit_calls (run_events Sample.lcg_seed Sample.lcg_randbelow
                    Sample.git_failing (Sample.arguments false 2 2)
                    Sample.repository).
Proof.
  apply (message_sequence_deterministic Sample.lcg_seed Sample.lcg_randbelow
           Sample.git_ok Sample.git_failing (Sample.arguments false 2 2)
           Sample.fresh Sample.repository).
  - intros g n Hn. unfold Sample.lcg_randbelow. cbn [fst].
    apply Z.mod_pos_bound. exact Hn.
  - vm_compute. reflexivity.
  - vm_compute. reflexivity.
  - reflexivity.
Defined.

Lemma plan_2024_one_day_witness :
  head (printed (run_events Sample.lcg_seed Sample.lcg_randbelow Sample.git_ok
                   (Sample.arguments false 1 3) Sample.fresh))
  = Some "Planned: 1 days, 3 commits (3/day)".
Proof.
  apply (plan_2024_one_day Sample.lcg_seed Sample.lcg_randbelow Sample.git_ok
           (Sample.arguments false 1 3) Sample.fresh); try reflexivity.
  - apply Z.leb_le. reflexivity.
  - right. reflexivity.
Defined.

Lemma commits_for_day_in_window_witness :
  exists l,
    commits_for_day (midnight 738886) 30 = Ok l /\
    forall t, t ∈ l -> 8 <= hour t <= 23.
Proof.
  destruct (commits_for_day_in_window (midnight 738886) 30) as (l & Hl & Hin).
  - split; apply Z.leb_le; reflexivity.
  - apply Z.leb_le. vm_compute. reflexivity.
  - exists l. split; [exact Hl|].
    intros t Ht. destruct (Hin t Ht) as (_ & Hhour & _). exact Hhour.
Defined.

Lemma commits_for_day_seconds_apart_witness :
  exists l,
    commits_for_day (midnight 738886) 30 = Ok l /\
    forall i a b, l !! i = Some a -> l !! S i = Some b ->
      US_PER_SECOND <= datetime_sub b a.
Proof.
  destruct (commits_for_day_seconds_apart (midnight 738886) 30)
    as (l & Hl & Hgap).
  - split; apply Z.leb_le; reflexivity.
  - lia.
  - exists l. split; [exact Hl|].
    intros i a b Ha Hb. destruct (Hgap i a b Ha Hb) as [H _]. exact H.
Defined.

Lemma commits_for_day_distinct_dates_witness :
  exists l,
    commits_for_day (midnight 738886) 30 = Ok l /\
    NoDup (strftime_seconds <$> l).
Proof.
  apply (commits_for_day_distinct_dates (midnight 738886) 30).
  - split; apply Z.leb_le; reflexivity.
  - lia.
Defined.

Lemma commits_for_day_same_clock_times_witness :
  exists l,
    commits_for_day (midnight 738886) 3 = Ok l /\
    commits_for_day (midnight 738887) 3
    = Ok ((fun t => DateTime 738887 (usec t)) <$> l).
Proof.
  apply (commits_for_day_same_clock_times (midnight 738886) (midnight 738887) 3).
  - split; apply Z.leb_le; reflexivity.
  - split; apply Z.leb_le; reflexivity.
  - apply Z.leb_le. vm_compute. reflexivity.
Defined.

Lemma commits_for_day_too_many_witness :
  commits_for_day (midnight 738886) (2 ^ 1024 + 1) = Raise OverflowError.
Proof. apply commits_for_day_too_many. lia. Defined.


Lemma run_times_chronological_witness :
  StronglySorted datetime_le
    (p_time <$> commit_calls
       (run_events Sample.lcg_seed Sample.lcg_randbelow Sample.git_ok
          (Sample.arguments false 2 2) Sample.fresh)).
Proof.
  apply (run_times_chronological Sample.lcg_seed Sample.lcg_randbelow
           Sample.git_ok (Sample.arguments false 2 2) Sample.fresh).
  - vm_compute. reflexivity.
  - split; apply Z.leb_le; reflexivity.
  - split; apply Z.leb_le; reflexivity.
  - apply Z.leb_le. vm_compute. reflexivity.
Defined.



Lemma run_files_witness :
  files (main Sample.lcg_seed Sample.lcg_randbelow Sample.git_failing
           (Sample.arguments false 2 2) Sample.with_readme).2 !! "README.md"
  = Some ("# Mine" +:+ nl) /\
  files (main Sample.lcg_seed Sample.lcg_randbelow Sample.git_failing
           (Sample.arguments false 2 2) Sample.with_dos_log).2 !! "history.txt"
  = Some ("note" +:+ nl
          +:+ "2024-01-01 08:00:00 | commit #1" +:+ nl
          +:+ "2024-01-01 23:59:59 | commit #2" +:+ nl
          +:+ "2024-01-02 08:00:00 | commit #3" +:+ nl
          +:+ "2024-01-02 23:59:59 | commit #4" +:+ nl).
Proof.
  split.
  - destruct (run_files Sample.lcg_seed Sample.lcg_randbelow
                Sample.git_failing (Sample.arguments false 2 2)
                Sample.with_readme) as (_ & _ & Hreadme & _).
    + vm_compute. reflexivity.
    + rewrite Hreadme. reflexivity.
  - destruct (run_files Sample.lcg_seed Sample.lcg_randbelow
                Sample.git_failing (Sample.arguments false 2 2)
                Sample.with_dos_log) as (Hlog & _).
    + vm_compute. reflexivity.
    + rewrite Hlog. vm_compute. reflexivity.
Defined.

Lemma commits_carry_their_date_witness :
  exists p (e : gmap string string),
    p ∈ commit_calls
          (run_events Sample.lcg_seed Sample.lcg_randbelow Sample.git_ok
             (Sample.arguments false 2 2) Sample.fresh) /\
    e !! "GIT_AUTHOR_DATE" = Some (strftime_seconds (p_time p)) /\
    e !! "GIT_COMMITTER_DATE" = Some (strftime_seconds (p_time p)).
Proof.
  destruct (commits_carry_their_date Sample.lcg_seed Sample.lcg_randbelow
              Sample.git_ok (Sample.arguments false 2 2) Sample.fresh)
    with (cargs := ["-m"; "Update config (2024-01-01 08:00)"])
         (env := Some (git_date_env ∅ "2024-01-01 08:00:00"))
    as [(_ & Hnone & _)|(p & e & Hp & _ & _ & Ha & Hc & _)].
  - vm_compute. reflexivity.
  - apply list_elem_of_lookup. exists 9%nat. vm_compute. reflexivity.
  - discriminate Hnone.
  - exists p, e. split; [exact Hp|]. split; assumption.
Defined.

Lemma invalid_start_year_witness :
  (main Sample.lcg_seed Sample.lcg_randbelow Sample.git_ok
     {| start_year := 0; commits_per_day := 3; dry_run := false; seed := 42;
        max_days := None; directory := "." |} Sample.fresh).1
  = Raise ValueError /\
  (main Sample.lcg_seed Sample.lcg_randbelow Sample.git_ok
     {| start_year := 2147483648; commits_per_day := 3; dry_run := false;
        seed := 42; max_days := None; directory := "." |} Sample.fresh).1
  = Raise OverflowError.
Proof.
  split.
  - destruct (invalid_start_year Sample.lcg_seed Sample.lcg_randbelow
                Sample.git_ok
                {| start_year := 0; commits_per_day := 3; dry_run := false;
                   seed := 42; max_days := None; directory := "." |}
                Sample.fresh) as (Hraise & _).
    + cbn. lia.
    + reflexivity.
    + right. reflexivity.
    + rewrite Hraise. reflexivity.
  - destruct (invalid_start_year Sample.lcg_seed Sample.lcg_randbelow
                Sample.git_ok
                {| start_year := 2147483648; commits_per_day := 3;
                   dry_run := false; seed := 42; max_days := None;
                   directory := "." |}
                Sample.fresh) as (Hraise & _).
    + cbn. lia.
    + reflexivity.
    + right. reflexivity.
    + rewrite Hraise. reflexivity.
Defined.

Lemma seed_changes_phrases_only_witness :
  files (main Sample.lcg_seed Sample.lcg_randbelow Sample.git_ok
           (Sample.arguments false 2 2) Sample.fresh).2
  = files (main Sample.lcg_seed Sample.lcg_randbelow Sample.git_ok
             {| start_year := 2024; commits_per_day := 2; dry_run := false;
                seed := 7; max_days := Some 2; directory := "." |}
             Sample.fresh).2.
Proof.
  destruct (seed_changes_phrases_only Sample.lcg_seed Sample.lcg_seed
              Sample.lcg_randbelow Sample.lcg_randbelow Sample.git_ok
              (Sample.arguments false 2 2)
              {| start_year := 2024; commits_per_day := 2; dry_run := false;
                 seed := 7; max_days := Some 2; directory := "." |}
              Sample.fresh) as (_ & _ & Hfiles).
  - reflexivity.
  - reflexivity.
  - reflexivity.
  - reflexivity.
  - vm_compute. reflexivity.
  - exact Hfiles.
Defined.

Lemma rerun_appends_again_witness :
  commit_calls
    (run_events Sample.lcg_seed Sample.lcg_randbelow Sample.git_ok
       (Sample.arguments false 2 2)
       {| cwd := "/home/user/repo"; is_dir := true; git_dir := true;
          files := files (main Sample.lcg_seed Sample.lcg_randbelow
                            Sample.git_ok (Sample.arguments false 2 2)
                            Sample.fresh).2;
          environ := ∅; now := DateTime 738887 (time_usec 10 0 0 0);
          rng := 0; trace := [] |})
  = commit_calls (run_events Sample.lcg_seed Sample.lcg_randbelow
                    Sample.git_ok (Sample.arguments false 2 2) Sample.fresh).
Proof.
  destruct (rerun_appends_again Sample.lcg_seed Sample.lcg_randbelow
              Sample.git_ok Sample.git_ok (Sample.arguments false 2 2)
              Sample.fresh
              {| cwd := "/home/user/repo"; is_dir := true; git_dir := true;
                 files := files (main Sample.lcg_seed Sample.lcg_randbelow
                                   Sample.git_ok (Sample.arguments false 2 2)
                                   Sample.fresh).2;
                 environ := ∅; now := DateTime 738887 (time_usec 10 0 0 0);
                 rng := 0; trace := [] |}) as [Hcalls _].
  - vm_compute. reflexivity.
  - vm_compute. reflexivity.
  - vm_compute. reflexivity.
  - vm_compute. reflexivity.
  - exact Hcalls.
Defined.

Lemma run_git_commands_witness :
  is_dir Sample.fresh = true /\ dry_run (Sample.arguments false 2 2) = false.
Proof.
  destruct (run_git_commands Sample.lcg_seed Sample.lcg_randbelow
              Sample.git_ok (Sample.arguments false 2 2) Sample.fresh
              ["add"; "history.txt"] None) as (Hdir & Hdry & _).
  - apply list_elem_of_lookup. exists 8%nat. vm_compute. reflexivity.
  - split; assumption.
Defined.
